(** * Prioritization and churn scoring: a shallow embedding

    The Python services [ChurnCalculator], [MarketSizingEngine] and
    [PrioritizationService] are embedded as Rocq functions, one definition
    per method, under the method's own name.

    Numbers.  A Python [float] is modelled as an exact rational ([Q]); an
    [int] as [Z].  Every comparison, [min], [max], clamp and band lookup of
    the services is then the exact one; rounding error of binary floating
    point and the non-finite values are outside the model.  Equality of
    rationals is [Qeq] ([==]).

    Strings.  A [str] is modelled as a [string] of ASCII characters;
    [lower], [title] and [split] act on the ASCII letters and whitespace.

    Exceptions.  A method that can raise returns a [pyresult], or an
    [outcome] when exceptions of a collaborator or of a callee pass
    through it; the constraints that the pydantic models check when a
    record is built are the [validate] functions. *)

From Stdlib Require Import ZArith QArith Qminmax Qabs Qround.
From Stdlib Require Import String Ascii List Bool Lia Lqa.
From Stdlib Require Import Sorting Permutation DecimalString.
Import ListNotations.

Local Open Scope string_scope.
Local Open Scope Q_scope.

(** ** Python runtime conventions *)

Module Py.

Inductive exn : Type :=
| KeyError
| ValidationError
| ZeroDivisionError.

Inductive pyresult (A : Type) : Type :=
| Ok (a : A)
| Raise (e : exn).
Arguments Ok {A} a.
Arguments Raise {A} e.

Definition bind {A B} (m : pyresult A) (k : A -> pyresult B) : pyresult B :=
  match m with
  | Ok a => k a
  | Raise e => Raise e
  end.

(** [d.get(key, default)] on a field that may be absent. *)
Definition get {A} (field : option A) (default : A) : A :=
  match field with
  | Some v => v
  | None => default
  end.

(** [d.get(k, default)] on a dict given by its items. *)
Fixpoint dict_get {A} (d : list (string * A)) (k : string) (default : A) : A :=
  match d with
  | [] => default
  | (k', v) :: r => if String.eqb k' k then v else dict_get r k default
  end.

(** Two-argument [min] and [max]: the first argument is kept unless the
    second is strictly smaller (larger).  [Qmin] and [Qmax] make the same
    choice. *)
Definition min (a b : Q) : Q := Qmin a b.
Definition max (a b : Q) : Q := Qmax a b.

(** [a / b] with a divisor that may be zero. *)
Definition truediv (a b : Q) : pyresult Q :=
  if Qeq_bool b 0 then Raise ZeroDivisionError else Ok (a / b).

(** [sum] of a list of numbers. *)
Definition sum (l : list Q) : Q := fold_left Qplus l 0.

(** [int(x)]: truncation towards zero. *)
Definition int (x : Q) : Z := Z.quot (Qnum x) (Zpos (Qden x)).

(** [round(x, 2)]: nearest multiple of 1/100, a tie going to the even
    one. *)
Definition round2 (x : Q) : Q :=
  let y := x * 100 in
  let f := Qfloor y in
  let n := match (y - inject_Z f) ?= (1 # 2) with
           | Lt => f
           | Gt => (f + 1)%Z
           | Eq => if Z.even f then f else (f + 1)%Z
           end in
  n # 100.

(** *** Strings (ASCII) *)

Definition lower_ascii (c : ascii) : ascii :=
  let n := nat_of_ascii c in
  if (65 <=? n)%nat && (n <=? 90)%nat then ascii_of_nat (n + 32) else c.

Definition upper_ascii (c : ascii) : ascii :=
  let n := nat_of_ascii c in
  if (97 <=? n)%nat && (n <=? 122)%nat then ascii_of_nat (n - 32) else c.

Definition is_alpha (c : ascii) : bool :=
  let n := nat_of_ascii c in
  ((65 <=? n)%nat && (n <=? 90)%nat) || ((97 <=? n)%nat && (n <=? 122)%nat).

Definition is_space (c : ascii) : bool :=
  let n := nat_of_ascii c in
  (n =? 32)%nat || ((9 <=? n)%nat && (n <=? 13)%nat)
  || ((28 <=? n)%nat && (n <=? 31)%nat).

Fixpoint map_string (f : ascii -> ascii) (s : string) : string :=
  match s with
  | EmptyString => EmptyString
  | String c r => String (f c) (map_string f r)
  end.

(** [s.lower()] *)
Definition lower (s : string) : string := map_string lower_ascii s.

(** [s.replace(a, b)] for single characters. *)
Definition replace (a b : ascii) (s : string) : string :=
  map_string (fun c => if Ascii.eqb c a then b else c) s.

(** [s.title()]: a letter that follows a non-letter is upper-cased, every
    other letter lower-cased. *)
Fixpoint title_from (prev_alpha : bool) (s : string) : string :=
  match s with
  | EmptyString => EmptyString
  | String c r =>
      String (if prev_alpha then lower_ascii c else upper_ascii c)
             (title_from (is_alpha c) r)
  end.
Definition title (s : string) : string := title_from false s.

(** [needle in haystack] *)
Fixpoint contains (needle haystack : string) : bool :=
  prefix needle haystack
  || match haystack with
     | EmptyString => false
     | String _ r => contains needle r
     end.

(** [s.split()]: the maximal runs of non-whitespace characters.  [cur]
    holds the current run, reversed. *)
Definition rev_string (l : list ascii) : string :=
  fold_left (fun acc c => String c acc) l EmptyString.

Fixpoint split_from (cur : list ascii) (s : string) : list string :=
  match s with
  | EmptyString =>
      match cur with [] => [] | _ => [rev_string cur] end
  | String c r =>
      if is_space c
      then match cur with
           | [] => split_from [] r
           | _ => rev_string cur :: split_from [] r
           end
      else split_from (c :: cur) r
  end.
Definition split (s : string) : list string := split_from [] s.

(** [sep.join(l)] *)
Fixpoint join (sep : string) (l : list string) : string :=
  match l with
  | [] => EmptyString
  | [s] => s
  | s :: r => s ++ sep ++ join sep r
  end.

(** [l.append(x)] *)
Definition append {A} (l : list A) (x : A) : list A := List.app l [x].

(** [any(f(x) for x in l)] *)
Definition any {A} (f : A -> bool) (l : list A) : bool := existsb f l.

(** [str(n)] for a non-negative integer. *)
Definition str_nat (n : nat) : string :=
  NilEmpty.string_of_uint (Nat.to_uint n).

End Py.

Import Py.

(** ** Exceptions of the callers

    The engine, the simulator and the router raise and catch more than the
    scoring code does.  [outcome] is the result type of their methods;
    [try_except] is a [try] block with one handler. *)

Module Exc.

Inductive exception : Type :=
| Builtin (e : exn)
| IndexError
| ValueError
| APIError (message : string)
| HTTPException (status_code : Z).

Inductive outcome (A : Type) : Type :=
| Return (a : A)
| Throw (e : exception).
Arguments Return {A} a.
Arguments Throw {A} e.

Definition lift {A} (m : pyresult A) : outcome A :=
  match m with
  | Ok a => Return a
  | Raise e => Throw (Builtin e)
  end.

Definition and_then {A B} (m : outcome A) (k : A -> outcome B) : outcome B :=
  match m with
  | Return a => k a
  | Throw e => Throw e
  end.

Definition try_except {A} (body : outcome A)
           (handler : exception -> outcome A) : outcome A :=
  match body with
  | Return a => Return a
  | Throw e => handler e
  end.

(** [d[key]] on a key that may be absent. *)
Definition subscript {A} (field : option A) : outcome A :=
  match field with
  | Some v => Return v
  | None => Throw (Builtin KeyError)
  end.

(** [str(e)], for the exceptions whose text is used. *)
Definition str (e : exception) : string :=
  match e with
  | APIError message => message
  | IndexError => "list index out of range"
  | _ => ""
  end.

End Exc.

Import Exc.

(** * The user simulator (usersim/app) *)

Module UserSim.

(** ** models/user_profile.py, models/scenario.py *)

Module PatienceLevel.
Inductive t : Type := LOW | MEDIUM | HIGH.
End PatienceLevel.

Record FrustrationTrigger : Type := {
  trigger : string;
  threshold : Q;
  impact : Q
}.

(** The fields of [VirtualUser] that the calculator reads.  The stored
    [patience_multiplier] field of the model is never read: the calculator
    derives its own from [patience_level]. *)
Record VirtualUser : Type := {
  patience_level : PatienceLevel.t;
  frustration_triggers : list FrustrationTrigger;
  base_churn_risk : Q
}.

(** An entry of [frustration_events] and of [ai_adjustments]: a name and
    the amount it contributes. *)
Definition contribution : Type := (string * Q)%type.

Record ChurnAnalysis : Type := {
  base_risk : Q;
  frustration_events : list contribution;
  formula_risk : Q;
  patience_multiplier : Q;
  calculated_risk : Q;
  ai_adjustments : list contribution;
  final_churn_probability : Q;
  risk_level : string;
  reasoning : string
}.

(** A frustration event as the caller passes it: a dict whose keys
    ["event"] and ["severity"] may be absent. *)
Record FrustrationEvent : Type := {
  event : option string;
  severity : option Q
}.

(** The context dict; each key may be absent. *)
Record Context : Type := {
  time_invested_seconds : option Q;
  urgency : option string;
  alternatives_available : option bool;
  failure_count : option Z
}.

(** ** services/churn_calculator.py *)

Module ChurnCalculator.

Definition FRUSTRATION_WEIGHTS : list (string * Q) :=
  [ ("long_wait", 30); ("feature_unavailable", 25);
    ("error_encountered", 20); ("retry_required", 10);
    ("unexpected_cost", 15); ("poor_quality", 20);
    ("lack_of_feedback", 10);
    ("driver_cancellation", 25); ("no_availability", 30);
    ("redirect_failure", 20); ("slow_response", 15);
    ("payment_failure", 35); ("data_loss", 40);
    ("security_concern", 50) ].

Definition PATIENCE_MULTIPLIERS (p : PatienceLevel.t) : Q :=
  match p with
  | PatienceLevel.LOW => 2
  | PatienceLevel.MEDIUM => 3 # 2
  | PatienceLevel.HIGH => 1
  end.

Definition RISK_LEVELS : list (Z * Z * string) :=
  [ (0, 30, "LOW"); (31, 50, "MEDIUM"); (51, 75, "HIGH");
    (76, 100, "CRITICAL") ]%Z.

(** The calculator object: [__init__] stores the user and the multiplier
    of the user's patience level. *)
Record t : Type := {
  user : VirtualUser;
  self_patience_multiplier : Q
}.

Definition __init__ (virtual_user : VirtualUser) : t :=
  {| user := virtual_user;
     self_patience_multiplier :=
       PATIENCE_MULTIPLIERS (patience_level virtual_user) |}.

(** The first loop of [calculate_churn]: the summed risk and the event
    details, in order. *)
Definition event_risk (e : FrustrationEvent) : contribution :=
  let event_name := get (event e) "" in
  let sev := get (severity e) 1 in
  let base_weight := dict_get FRUSTRATION_WEIGHTS event_name 15 in
  (event_name, base_weight * sev).

Fixpoint events_loop (acc : Q) (details : list contribution)
         (evs : list FrustrationEvent) : Q * list contribution :=
  match evs with
  | [] => (acc, details)
  | e :: r =>
      let d := event_risk e in
      events_loop (acc + snd d) (append details d) r
  end.

(** [any(e["event"] == name for e in frustration_events)]: the subscript
    raises on an event without the key, unless a match came first. *)
Fixpoint any_event_is (name : string) (evs : list FrustrationEvent)
  : pyresult bool :=
  match evs with
  | [] => Ok false
  | e :: r =>
      match event e with
      | None => Raise KeyError
      | Some n => if String.eqb n name then Ok true else any_event_is name r
      end
  end.

Fixpoint triggers_loop (evs : list FrustrationEvent) (acc : Q)
         (details : list contribution) (ts : list FrustrationTrigger)
  : pyresult (Q * list contribution) :=
  match ts with
  | [] => Ok (acc, details)
  | tr :: r =>
      bind (any_event_is (trigger tr) evs) (fun hit =>
        if hit
        then triggers_loop evs (acc + impact tr)
               (append details (trigger tr ++ "_user_specific", impact tr)) r
        else triggers_loop evs acc details r)
  end.

Definition _parse_ai_adjustments (context : Context) (total_adjustment : Q)
  : list contribution :=
  let adjustments := [] in
  let time_invested := get (time_invested_seconds context) 0 in
  let adjustments :=
    if Qlt_le_dec 0 time_invested
    then append adjustments
           ("sunk_cost_effect", min (-10) (- (time_invested / 60) * 3))
    else adjustments in
  let urg := get (urgency context) "medium" in
  let adjustments :=
    if String.eqb urg "high" then append adjustments ("high_urgency", -5)
    else if String.eqb urg "low" then append adjustments ("low_urgency", 10)
    else adjustments in
  let has_alternatives := get (alternatives_available context) false in
  let adjustments :=
    if has_alternatives then append adjustments ("easy_alternatives", 10)
    else adjustments in
  let fc := get (failure_count context) 1%Z in
  let adjustments :=
    if (fc =? 1)%Z then append adjustments ("first_failure", -5)
    else if (3 <=? fc)%Z then append adjustments ("repeated_failures", 15)
    else adjustments in
  let accounted_adjustment := sum (map snd adjustments) in
  if Qlt_le_dec (1 # 10) (Qabs (total_adjustment - accounted_adjustment))
  then append adjustments
         ("other_context", total_adjustment - accounted_adjustment)
  else adjustments.

Fixpoint first_band (levels : list (Z * Z * string)) (p : Q) : string :=
  match levels with
  | [] => "CRITICAL"
  | (min_val, max_val, level) :: r =>
      if Qle_bool (inject_Z min_val) p && Qle_bool p (inject_Z max_val)
      then level
      else first_band r p
  end.

Definition _get_risk_level (churn_probability : Q) : string :=
  first_band RISK_LEVELS churn_probability.

(** [max(events, key=lambda e: e["risk_added"])]: the first entry of
    largest contribution. *)
Fixpoint max_by_risk (best : contribution) (l : list contribution)
  : contribution :=
  match l with
  | [] => best
  | e :: r =>
      if Qlt_le_dec (snd best) (snd e) then max_by_risk e r
      else max_by_risk best r
  end.

Definition _generate_reasoning (final_churn : Q) (events : list contribution)
           (adjustments : list contribution) : string :=
  let main_frustration :=
    match events with
    | e :: r => fst (max_by_risk e r)
    | [] => "general friction"
    end in
  let main_factor :=
    match filter (fun a => Qle_bool 5 (Qabs (snd a))) adjustments with
    | a :: _ => fst a
    | [] => "user patience"
    end in
  if Qlt_le_dec final_churn 30 then
    "Low churn risk. User is experiencing " ++ main_frustration
      ++ " but " ++ main_factor ++ " keeps them engaged."
  else if Qlt_le_dec final_churn 50 then
    "Medium churn risk. " ++ title (replace "_" " " main_frustration)
      ++ " is causing frustration. User will likely try one more alternative before giving up completely."
  else if Qlt_le_dec final_churn 75 then
    "High churn risk. Significant frustration from " ++ main_frustration
      ++ ". User is close to abandoning the product entirely. "
      ++ title (replace "_" " " main_factor) ++ " is the deciding factor."
  else
    "Critical churn risk. Multiple failures including " ++ main_frustration
      ++ " have exhausted user patience. Immediate intervention needed to prevent churn.".

Definition calculate_churn (self : t) (frustration_events : list FrustrationEvent)
           (context : Context) (ai_context_adjustment : Q)
  : pyresult ChurnAnalysis :=
  let base_risk := base_churn_risk (user self) in
  let '(frustration_risk, event_details) :=
    events_loop 0 [] frustration_events in
  bind (triggers_loop frustration_events frustration_risk event_details
          (frustration_triggers (user self)))
    (fun '(frustration_risk, event_details) =>
       let formula_risk := base_risk + frustration_risk in
       let calculated_risk := formula_risk * self_patience_multiplier self in
       let ai_adjustments :=
         _parse_ai_adjustments context ai_context_adjustment in
       let final_churn := min (calculated_risk + ai_context_adjustment) 100 in
       let risk_level := _get_risk_level final_churn in
       let reasoning :=
         _generate_reasoning final_churn event_details ai_adjustments in
       Ok {| base_risk := base_risk;
             frustration_events := event_details;
             formula_risk := formula_risk;
             patience_multiplier := self_patience_multiplier self;
             calculated_risk := calculated_risk;
             ai_adjustments := ai_adjustments;
             final_churn_probability := final_churn;
             risk_level := risk_level;
             reasoning := reasoning |}).

(** *** The weight table as shared state

    [FRUSTRATION_WEIGHTS] is an attribute of the class: every calculator
    reads the one dict, and [add_custom_frustration_weight] writes into
    it.  Below the current table is passed explicitly; [calculate_churn]
    above is the calculator on the table as the class declares it. *)

(** [d[k] = v] *)
Fixpoint weights_set (d : list (string * Q)) (k : string) (v : Q)
  : list (string * Q) :=
  match d with
  | [] => [(k, v)]
  | (k', v') :: r =>
      if String.eqb k' k then (k', v) :: r else (k', v') :: weights_set r k v
  end.

Definition add_custom_frustration_weight (weights : list (string * Q))
           (event_name : string) (weight : Q) : list (string * Q) :=
  weights_set weights event_name weight.

Definition event_risk_in (weights : list (string * Q)) (e : FrustrationEvent)
  : contribution :=
  let event_name := get (event e) "" in
  let sev := get (severity e) 1 in
  let base_weight := dict_get weights event_name 15 in
  (event_name, base_weight * sev).

Fixpoint events_loop_in (weights : list (string * Q)) (acc : Q)
         (details : list contribution) (evs : list FrustrationEvent)
  : Q * list contribution :=
  match evs with
  | [] => (acc, details)
  | e :: r =>
      let d := event_risk_in weights e in
      events_loop_in weights (acc + snd d) (append details d) r
  end.

Definition calculate_churn_in (weights : list (string * Q)) (self : t)
           (frustration_events : list FrustrationEvent)
           (context : Context) (ai_context_adjustment : Q)
  : pyresult ChurnAnalysis :=
  let base_risk := base_churn_risk (user self) in
  let '(frustration_risk, event_details) :=
    events_loop_in weights 0 [] frustration_events in
  bind (triggers_loop frustration_events frustration_risk event_details
          (frustration_triggers (user self)))
    (fun '(frustration_risk, event_details) =>
       let formula_risk := base_risk + frustration_risk in
       let calculated_risk := formula_risk * self_patience_multiplier self in
       let ai_adjustments :=
         _parse_ai_adjustments context ai_context_adjustment in
       let final_churn := min (calculated_risk + ai_context_adjustment) 100 in
       let risk_level := _get_risk_level final_churn in
       let reasoning :=
         _generate_reasoning final_churn event_details ai_adjustments in
       Ok {| base_risk := base_risk;
             frustration_events := event_details;
             formula_risk := formula_risk;
             patience_multiplier := self_patience_multiplier self;
             calculated_risk := calculated_risk;
             ai_adjustments := ai_adjustments;
             final_churn_probability := final_churn;
             risk_level := risk_level;
             reasoning := reasoning |}).

End ChurnCalculator.

(** ** models/scenario.py: the journey *)

Module StepType.
Inductive t : Type :=
  ACTION | SYSTEM_RESPONSE | DECISION_POINT | ERROR | SUCCESS.

(** [StepType(s)]; [None] stands for the [ValueError]. *)
Definition of_value (s : string) : option t :=
  if String.eqb s "action" then Some ACTION
  else if String.eqb s "system_response" then Some SYSTEM_RESPONSE
  else if String.eqb s "decision_point" then Some DECISION_POINT
  else if String.eqb s "error" then Some ERROR
  else if String.eqb s "success" then Some SUCCESS
  else None.

Definition eqb (a b : t) : bool :=
  match a, b with
  | ACTION, ACTION | SYSTEM_RESPONSE, SYSTEM_RESPONSE
  | DECISION_POINT, DECISION_POINT | ERROR, ERROR | SUCCESS, SUCCESS => true
  | _, _ => false
  end.
End StepType.

Module EmotionalState.
Inductive t : Type :=
  NEUTRAL | SATISFIED | HOPEFUL | FRUSTRATED | ANNOYED | ANGRY | DELIGHTED.

Definition value (e : t) : string :=
  match e with
  | NEUTRAL => "neutral"
  | SATISFIED => "satisfied"
  | HOPEFUL => "hopeful"
  | FRUSTRATED => "frustrated"
  | ANNOYED => "annoyed"
  | ANGRY => "angry"
  | DELIGHTED => "delighted"
  end.
End EmotionalState.

Module ScenarioType.
Inductive t : Type := HAPPY_PATH | EDGE_CASE | FAILURE.

(** [ScenarioType(s)]; [None] stands for the [ValueError]. *)
Definition of_value (s : string) : option t :=
  if String.eqb s "happy_path" then Some HAPPY_PATH
  else if String.eqb s "edge_case" then Some EDGE_CASE
  else if String.eqb s "failure" then Some FAILURE
  else None.
End ScenarioType.

Module DecisionOption.
Record t : Type := {
  option_id : string;
  description : string;
  consequences : string
}.
End DecisionOption.

Module JourneyStep.
Record t : Type := {
  step_number : Z;
  step_type : StepType.t;
  description : string;
  user_action : option string;
  system_response : option string;
  emotional_state : EmotionalState.t;
  frustration_level : Q;
  churn_analysis : option ChurnAnalysis;
  is_decision_point : bool;
  decision_options : list DecisionOption.t;
  chosen_option : option string;
  decision_reasoning : option string;
  time_elapsed : Q;
  step_duration : Q
}.

(** [frustration_level ge=0, le=10]. *)
Definition validate (x : t) : pyresult t :=
  if Qle_bool 0 (frustration_level x) && Qle_bool (frustration_level x) 10
  then Ok x else Raise ValidationError.
End JourneyStep.

(** The [key_insights] of a scenario are formatted prose; they are left
    out of the record. *)
Module Scenario.
Record t : Type := {
  scenario_id : string;
  scenario_name : string;
  scenario_type : ScenarioType.t;
  description : string;
  steps : list JourneyStep.t;
  outcome : string;
  final_churn_probability : Q
}.
End Scenario.

(** ** ai/decision_engine.py *)

Module AIDecisionEngine.

(** The JSON object of a decision reply; each key may be absent. *)
Module DecisionReply.
Record t : Type := {
  chosen_option : option Z;
  reasoning : option string;
  emotional_state : option string;
  context_adjustment : option Q;
  context_explanation : option string
}.
End DecisionReply.

(** What the text of a reply leads to in [_parse_decision_response]:
    [Garbled] when [json.loads] or [float(...)] raises (the two errors the
    method catches), [Parsed] otherwise. *)
Inductive parsed_text : Type :=
| Garbled (response_text : string)
| Parsed (result : DecisionReply.t).

(** What the call to the collaborator leads to in [make_decision]:
    [CallFails] when the call raises, or the reply holds a value of a type
    the parsing chokes on (errors that only [make_decision] catches). *)
Inductive reply : Type :=
| CallFails (message : string)
| Text (text : parsed_text).

Definition state_map : list (string * EmotionalState.t) :=
  [ ("neutral", EmotionalState.NEUTRAL);
    ("satisfied", EmotionalState.SATISFIED);
    ("hopeful", EmotionalState.HOPEFUL);
    ("frustrated", EmotionalState.FRUSTRATED);
    ("annoyed", EmotionalState.ANNOYED);
    ("angry", EmotionalState.ANGRY);
    ("delighted", EmotionalState.DELIGHTED) ].

Definition _parse_emotional_state (state_str : string) : EmotionalState.t :=
  dict_get state_map (lower state_str) EmotionalState.NEUTRAL.

(** [options[i].option_id] *)
Definition option_id_at (options : list DecisionOption.t) (i : nat)
  : outcome string :=
  match nth_error options i with
  | Some o => Return (DecisionOption.option_id o)
  | None => Throw IndexError
  end.

Definition newline : string := String (ascii_of_nat 10) EmptyString.

Definition decision : Type :=
  (string * string * Q * EmotionalState.t)%type.

Definition _parse_decision_response (text : parsed_text)
           (options : list DecisionOption.t) : outcome decision :=
  match text with
  | Parsed result =>
      let chosen_idx :=
        (get (DecisionReply.chosen_option result) 1 - 1)%Z in
      and_then
        (if (0 <=? chosen_idx)%Z
            && (chosen_idx <? Z.of_nat (List.length options))%Z
         then option_id_at options (Z.to_nat chosen_idx)
         else option_id_at options 0)
        (fun chosen_option_id =>
      let reasoning :=
        get (DecisionReply.reasoning result)
          "User chose this option based on their profile" in
      let emotional_state_str :=
        lower (get (DecisionReply.emotional_state result) "neutral") in
      let emotional_state := _parse_emotional_state emotional_state_str in
      let context_adjustment :=
        get (DecisionReply.context_adjustment result) 0 in
      let context_adjustment := max (-50) (min 50 context_adjustment) in
      let context_explanation :=
        get (DecisionReply.context_explanation result) "" in
      let reasoning :=
        if String.eqb context_explanation "" then reasoning
        else reasoning ++ newline ++ newline ++ "Context Analysis: "
               ++ context_explanation in
      Return (chosen_option_id, reasoning, context_adjustment,
              emotional_state))
  | Garbled response_text =>
      and_then (option_id_at options 0) (fun first =>
      Return (first, substring 0 200 response_text, 0,
              EmotionalState.NEUTRAL))
  end.

(** [make_decision]; the user, the context and the current churn risk
    only feed the prompt. *)
Definition make_decision (r : reply) (options : list DecisionOption.t)
  : outcome decision :=
  try_except
    (match r with
     | CallFails message => Throw (APIError message)
     | Text text => _parse_decision_response text options
     end)
    (fun e =>
       and_then (option_id_at options 0) (fun first =>
       Return (first, "Fallback decision due to error: " ++ str e, 0,
               EmotionalState.FRUSTRATED))).

End AIDecisionEngine.

(** ** services/scenario_simulator.py *)

Module ScenarioSimulator.

(** A step of a template and a template, as the dicts they are. *)
Module StepTemplate.
Record t : Type := {
  step_type : option string;
  description : option string;
  expected_outcome : option string;
  decision_needed : option string;
  options : option (list string)
}.
End StepTemplate.

Module Template.
Record t : Type := {
  scenario_name : option string;
  scenario_type : option string;
  description : option string;
  steps : option (list StepTemplate.t)
}.
End Template.

(** The user as the simulator reads it: the fields of the calculator and
    the problem context. *)
Record SimulatedUser : Type := {
  profile : VirtualUser;
  problem_context : string
}.

Definition _estimate_step_duration (step_type : StepType.t)
           (step_template : StepTemplate.t) : Q :=
  match step_type with
  | StepType.ACTION => 5.0
  | StepType.SYSTEM_RESPONSE => 2.0
  | StepType.DECISION_POINT => 10.0
  | _ =>
      if contains "wait"
           (lower (get (StepTemplate.description step_template) ""))
      then 120.0
      else 3.0
  end.

Definition _simulate_regular_step (step_num : Z) (step_type : StepType.t)
           (step_template : StepTemplate.t) (churn_calc : ChurnCalculator.t)
           (frustration_events : list FrustrationEvent)
           (cumulative_time step_duration : Q) : outcome JourneyStep.t :=
  let description :=
    get (StepTemplate.description step_template) "User takes action" in
  let expected_outcome :=
    get (StepTemplate.expected_outcome step_template) "success" in
  let '(emotional_state, frustration) :=
    if contains "error" (lower description)
       || contains "fail" (lower expected_outcome)
    then (EmotionalState.FRUSTRATED, 7.0)
    else if contains "success" (lower expected_outcome)
    then (EmotionalState.HOPEFUL, 3.0)
    else (EmotionalState.NEUTRAL, 5.0) in
  let context :=
    {| time_invested_seconds := Some cumulative_time;
       urgency := None; alternatives_available := None;
       failure_count := None |} in
  and_then
    (lift (ChurnCalculator.calculate_churn churn_calc frustration_events
             context 0))
    (fun churn_analysis =>
  lift
    (JourneyStep.validate
       {| JourneyStep.step_number := step_num;
          JourneyStep.step_type := step_type;
          JourneyStep.description := description;
          JourneyStep.user_action :=
            if StepType.eqb step_type StepType.ACTION
            then Some description else None;
          JourneyStep.system_response :=
            if StepType.eqb step_type StepType.SYSTEM_RESPONSE
            then Some expected_outcome else None;
          JourneyStep.emotional_state := emotional_state;
          JourneyStep.frustration_level := frustration;
          JourneyStep.churn_analysis := Some churn_analysis;
          JourneyStep.is_decision_point := false;
          JourneyStep.decision_options := [];
          JourneyStep.chosen_option := None;
          JourneyStep.decision_reasoning := None;
          JourneyStep.time_elapsed := cumulative_time;
          JourneyStep.step_duration := step_duration |})).

(** [enumerate(step_template.get("options", []))] into options *)
Fixpoint build_options (idx : nat) (descriptions : list string)
  : list DecisionOption.t :=
  match descriptions with
  | [] => []
  | opt_desc :: r =>
      {| DecisionOption.option_id := "option_" ++ str_nat (idx + 1);
         DecisionOption.description := opt_desc;
         DecisionOption.consequences :=
           "Potential outcome of choosing: " ++ opt_desc |}
        :: build_options (S idx) r
  end.

(** The context dict of a decision step, without its ["current_step"]
    entry, which only the prompt reads. *)
Definition decision_context (virtual_user : SimulatedUser)
           (options : list DecisionOption.t)
           (frustration_events : list FrustrationEvent)
           (cumulative_time : Q) : Context :=
  {| time_invested_seconds := Some cumulative_time;
     urgency :=
       Some (if contains "urgent" (lower (problem_context virtual_user))
             then "high" else "medium");
     alternatives_available := Some (2 <? List.length options)%nat;
     failure_count :=
       Some (Z.of_nat
               (List.length
                  (filter (fun e => contains "error" (get (event e) ""))
                     frustration_events))) |}.

Definition _simulate_decision_step (r : AIDecisionEngine.reply)
           (step_num : Z) (step_template : StepTemplate.t)
           (virtual_user : SimulatedUser) (churn_calc : ChurnCalculator.t)
           (frustration_events : list FrustrationEvent)
           (cumulative_time step_duration : Q) : outcome JourneyStep.t :=
  let options :=
    build_options 0 (get (StepTemplate.options step_template) []) in
  and_then (subscript (StepTemplate.description step_template))
    (fun current_step =>
  let context :=
    decision_context virtual_user options frustration_events
      cumulative_time in
  and_then
    (lift (ChurnCalculator.calculate_churn churn_calc frustration_events
             context 0))
    (fun churn_analysis =>
  and_then (AIDecisionEngine.make_decision r options)
    (fun '(chosen_id, reasoning, context_adj, emotional_state) =>
  and_then
    (lift (ChurnCalculator.calculate_churn churn_calc frustration_events
             context context_adj))
    (fun final_churn_analysis =>
  lift
    (JourneyStep.validate
       {| JourneyStep.step_number := step_num;
          JourneyStep.step_type := StepType.DECISION_POINT;
          JourneyStep.description := current_step;
          JourneyStep.user_action := None;
          JourneyStep.system_response := None;
          JourneyStep.emotional_state := emotional_state;
          JourneyStep.frustration_level :=
            min (final_churn_probability final_churn_analysis / 10) 10;
          JourneyStep.churn_analysis := Some final_churn_analysis;
          JourneyStep.is_decision_point := true;
          JourneyStep.decision_options := options;
          JourneyStep.chosen_option := Some chosen_id;
          JourneyStep.decision_reasoning := Some reasoning;
          JourneyStep.time_elapsed := cumulative_time;
          JourneyStep.step_duration := step_duration |}))))).

Definition error_encountered : FrustrationEvent :=
  {| event := Some "error_encountered"; severity := Some 1.0 |}.

(** What the loop of [_simulate_scenario] carries from step to step. *)
Record LoopState : Type := {
  simulated_steps : list JourneyStep.t;
  cumulative_time : Q;
  frustration_events : list FrustrationEvent;
  current_churn : Q
}.

Definition churn_of (step : JourneyStep.t) (default : Q) : Q :=
  match JourneyStep.churn_analysis step with
  | Some analysis => final_churn_probability analysis
  | None => default
  end.

(** One turn of the loop; [idx] counts from 0 and [r] is the reply the
    engine gets if the step is a decision point. *)
Definition simulate_step (r : AIDecisionEngine.reply)
           (virtual_user : SimulatedUser) (churn_calc : ChurnCalculator.t)
           (idx : nat) (step_template : StepTemplate.t) (st : LoopState)
  : outcome LoopState :=
  let step_num := (Z.of_nat idx + 1)%Z in
  match StepType.of_value
          (get (StepTemplate.step_type step_template) "action") with
  | None => Throw ValueError
  | Some step_type =>
      let step_duration := _estimate_step_duration step_type step_template in
      let cumulative_time := cumulative_time st + step_duration in
      let is_decision :=
        StepType.eqb step_type StepType.DECISION_POINT
        || match StepTemplate.decision_needed step_template with
           | Some _ => true
           | None => false
           end in
      if is_decision then
        and_then
          (_simulate_decision_step r step_num step_template virtual_user
             churn_calc (frustration_events st) cumulative_time
             step_duration)
          (fun step =>
             Return
               {| simulated_steps := append (simulated_steps st) step;
                  cumulative_time := cumulative_time;
                  frustration_events := frustration_events st;
                  current_churn :=
                    if Qlt_le_dec (current_churn st)
                         (churn_of step (current_churn st))
                    then churn_of step (current_churn st)
                    else current_churn st |})
      else
        and_then
          (_simulate_regular_step step_num step_type step_template
             churn_calc (frustration_events st) cumulative_time
             step_duration)
          (fun step =>
             Return
               {| simulated_steps := append (simulated_steps st) step;
                  cumulative_time := cumulative_time;
                  frustration_events :=
                    if StepType.eqb step_type StepType.ERROR
                       || contains "error"
                            (lower
                               (get (StepTemplate.description step_template)
                                  ""))
                    then append (frustration_events st) error_encountered
                    else frustration_events st;
                  current_churn := current_churn st |})
  end.

Fixpoint simulate_steps (replies : nat -> AIDecisionEngine.reply)
         (virtual_user : SimulatedUser) (churn_calc : ChurnCalculator.t)
         (idx : nat) (templates : list StepTemplate.t) (st : LoopState)
  : outcome LoopState :=
  match templates with
  | [] => Return st
  | step_template :: rest =>
      and_then
        (simulate_step (replies idx) virtual_user churn_calc idx
           step_template st)
        (simulate_steps replies virtual_user churn_calc (S idx) rest)
  end.

(** [simulated_steps[-1]] *)
Definition last_step (l : list JourneyStep.t) : outcome JourneyStep.t :=
  match rev l with
  | [] => Throw IndexError
  | step :: _ => Return step
  end.

Definition _simulate_scenario (replies : nat -> AIDecisionEngine.reply)
           (template : Template.t) (virtual_user : SimulatedUser)
  : outcome Scenario.t :=
  let churn_calc := ChurnCalculator.__init__ (profile virtual_user) in
  and_then (subscript (Template.scenario_name template)) (fun name =>
  let scenario_id := replace " " "_" (lower name) in
  match ScenarioType.of_value
          (get (Template.scenario_type template) "happy_path") with
  | None => Throw ValueError
  | Some scenario_type =>
      and_then (subscript (Template.steps template)) (fun templates =>
      and_then
        (simulate_steps replies virtual_user churn_calc 0 templates
           {| simulated_steps := []; cumulative_time := 0;
              frustration_events := [];
              current_churn := base_churn_risk (profile virtual_user) |})
        (fun st =>
      and_then (last_step (simulated_steps st)) (fun final_step =>
      let final_churn := churn_of final_step (current_churn st) in
      let outcome :=
        if Qlt_le_dec 75 final_churn
        then "User churned - Gave up completely"
        else if Qlt_le_dec 50 final_churn
        then "Partial success - User frustrated but completed"
        else "Success - User achieved goal" in
      and_then (subscript (Template.description template))
        (fun description =>
      Return
        {| Scenario.scenario_id := scenario_id;
           Scenario.scenario_name := name;
           Scenario.scenario_type := scenario_type;
           Scenario.description := description;
           Scenario.steps := simulated_steps st;
           Scenario.outcome := outcome;
           Scenario.final_churn_probability := final_churn |}))))
  end).

End ScenarioSimulator.

End UserSim.

(** * The research and prioritization service (app) *)

Module App.

(** ** models/prioritization.py

    The free-text fields that only carry formatted prose
    ([reach_justification], [impact_reasoning], [confidence_basis] and the
    [justification] block) feed no score and no ranking; they are left out
    of the records. *)

Module OpportunityCategory.
Inductive t : Type := UNDERSERVED | OVERSERVED | WELLSERVED.

Definition value (c : t) : string :=
  match c with
  | UNDERSERVED => "underserved"
  | OVERSERVED => "overserved"
  | WELLSERVED => "wellserved"
  end.

(** [OpportunityCategory(s)]; [None] stands for the [ValueError]. *)
Definition of_value (s : string) : option t :=
  if String.eqb s "underserved" then Some UNDERSERVED
  else if String.eqb s "overserved" then Some OVERSERVED
  else if String.eqb s "wellserved" then Some WELLSERVED
  else None.
End OpportunityCategory.

Module JTBDScore.
Record t : Type := {
  job_statement : string;
  importance : Q;
  satisfaction : Q;
  opportunity_score : Q;
  category : OpportunityCategory.t;
  reasoning : string
}.

(** The field constraints [ge=0, le=10] of [importance] and
    [satisfaction], checked when the model is constructed. *)
Definition validate (x : t) : pyresult t :=
  if Qle_bool 0 (importance x) && Qle_bool (importance x) 10
     && Qle_bool 0 (satisfaction x) && Qle_bool (satisfaction x) 10
  then Ok x else Raise ValidationError.
End JTBDScore.

Module RICEScore.
Record t : Type := {
  reach : Z;
  impact : Q;
  confidence : Q;
  effort : Q;
  effort_breakdown : list (string * Q);
  rice_score : Q
}.

(** [reach ge=0], [confidence ge=0, le=1], [effort gt=0]. *)
Definition validate (x : t) : pyresult t :=
  if (0 <=? reach x)%Z
     && Qle_bool 0 (confidence x) && Qle_bool (confidence x) 1
     && negb (Qle_bool (effort x) 0)
  then Ok x else Raise ValidationError.
End RICEScore.

Module PersonaAlignment.
Record t : Type := {
  affected_personas : list string;
  coverage : Q;
  affinities : list (string * string);
  weight : Q
}.

(** [coverage ge=0, le=1]. *)
Definition validate (x : t) : pyresult t :=
  if Qle_bool 0 (coverage x) && Qle_bool (coverage x) 1
  then Ok x else Raise ValidationError.
End PersonaAlignment.

Module PrioritizedPainPoint.
Record t : Type := {
  pain_point_id : string;
  description : string;
  original_severity : string;
  priority_rank : Z;
  final_score : Q;
  jtbd : JTBDScore.t;
  rice : RICEScore.t;
  persona_alignment : PersonaAlignment.t
}.

(** [pp.priority_rank = rank] *)
Definition set_priority_rank (rank : Z) (pp : t) : t :=
  {| pain_point_id := pain_point_id pp;
     description := description pp;
     original_severity := original_severity pp;
     priority_rank := rank;
     final_score := final_score pp;
     jtbd := jtbd pp;
     rice := rice pp;
     persona_alignment := persona_alignment pp |}.
End PrioritizedPainPoint.

(** ** The dicts the service receives

    A pain point and a persona are dicts; each key the service reads may be
    absent. *)

Record PainPoint : Type := {
  description : option string;
  quote : option string;
  severity : option string;
  frequency : option Z
}.

Record Persona : Type := {
  name : option string;
  pain_points : option (list string);
  behaviors : option (list string);
  goals : option (list string)
}.

(** ** The reasoning collaborator

    The JSON object found in a reply, after [json.loads] and the
    conversions of the call site ([float(...)], the string fields); each key
    may be absent.  A parsed reply is [None] when the search for the
    braces, [json.loads] or one of those conversions raises.  The effort
    prompt is sent inside the [try] of [_estimate_effort], so there [None]
    also stands for a call that raises.  The JTBD prompt is sent before
    the [try] of [_calculate_jtbd_score]: see [JTBDCall] below. *)

Module JTBDReply.
Record t : Type := {
  job_statement : option string;
  importance : option Q;
  satisfaction : option Q;
  opportunity_score : option Q;
  category : option string;
  reasoning : option string
}.
End JTBDReply.

Module EffortReply.
Record t : Type := {
  ui_frontend : option Q;
  backend_api : option Q;
  infrastructure : option Q;
  testing_qa : option Q;
  total_effort : option Q
}.
End EffortReply.

(** What [self.client.messages.create(...)] and [response.content[0]]
    give the JTBD step.  Both stand before the method's [try]: when one of
    them raises, the exception leaves the method.  Otherwise there is a
    text, given here by what the [try] block reads in it. *)
Module JTBDCall.
Inductive t : Type :=
| Fails (e : exception)
| Text (parsed : option JTBDReply.t).
End JTBDCall.

(** ** services/market_sizing.py *)

Module MarketSizingEngine.

Record Market : Type := {
  market_size_usd : Z;
  growth_rate : string;
  active_users : Z;
  tam_description : string;
  sources : list string
}.

Definition default_market : Market :=
  {| market_size_usd := 10000000000; growth_rate := "15% CAGR";
     active_users := 50000000;
     tam_description := "Indian Consumer Market";
     sources := ["Market Estimates"] |}.

Definition MARKET_DATA : list (string * Market) :=
  [ ("cab_booking",
     {| market_size_usd := 22250000000; growth_rate := "7.89% CAGR";
        active_users := 50000000;
        tam_description := "India Taxi Market";
        sources := ["Mordor Intelligence India Taxi Market Report 2025"] |});
    ("qcommerce",
     {| market_size_usd := 5380000000; growth_rate := "16.07% CAGR";
        active_users := 25000000;
        tam_description := "India Quick Commerce Market";
        sources := ["Market Research Reports 2025"] |});
    ("ecommerce",
     {| market_size_usd := 85000000000; growth_rate := "18% CAGR";
        active_users := 200000000;
        tam_description := "India E-commerce Market";
        sources := ["Industry Reports 2025"] |});
    ("fintech",
     {| market_size_usd := 150000000000; growth_rate := "22% CAGR";
        active_users := 300000000;
        tam_description := "India Fintech Market";
        sources := ["Fintech Market Analysis 2025"] |});
    ("food_delivery",
     {| market_size_usd := 15000000000; growth_rate := "25% CAGR";
        active_users := 80000000;
        tam_description := "India Food Delivery Market";
        sources := ["Food Tech Market Reports 2025"] |});
    ("developer_tools",
     {| market_size_usd := 5000000000; growth_rate := "20% CAGR";
        active_users := 5000000;
        tam_description := "India Developer Tools Market";
        sources := ["Tech Industry Reports 2025"] |});
    ("default", default_market) ].

Definition category_keywords : list (string * list string) :=
  [ ("cab_booking",
     ["cab"; "taxi"; "uber"; "ola"; "rapido"; "ride"; "booking"; "transport"]);
    ("qcommerce",
     ["qcommerce"; "quick commerce"; "grocery"; "zepto"; "blinkit";
      "instamart"; "delivery"; "instant"]);
    ("ecommerce",
     ["ecommerce"; "shopping"; "online shopping"; "amazon"; "flipkart";
      "meesho"]);
    ("fintech",
     ["payment"; "wallet"; "upi"; "banking"; "loan"; "credit"; "paytm";
      "phonepe"]);
    ("food_delivery",
     ["food delivery"; "swiggy"; "zomato"; "restaurant"; "order food"]);
    ("developer_tools",
     ["api"; "developer"; "coding"; "programming"; "kubernetes";
      "deployment"; "devops"; "cloud"]) ].

Fixpoint first_category (cats : list (string * list string)) (text : string)
  : string :=
  match cats with
  | [] => "default"
  | (category, keywords) :: r =>
      if any (fun keyword => contains keyword text) keywords
      then category
      else first_category r text
  end.

Definition identify_market_category (problem_statement target_users : string)
  : string :=
  let text := lower (problem_statement ++ " " ++ target_users) in
  first_category category_keywords text.

Definition _calculate_penetration_rate (frequency num_comments : Z)
           (severity : string) : Q :=
  let base_rate :=
    if (10 <=? frequency)%Z then 0.40
    else if (5 <=? frequency)%Z then 0.30
    else if (3 <=? frequency)%Z then 0.20
    else 0.10 in
  let comment_multiplier :=
    if (100 <=? num_comments)%Z then 1.2
    else if (50 <=? num_comments)%Z then 1.1
    else if (20 <=? num_comments)%Z then 1.0
    else 0.8 in
  let severity_multiplier :=
    dict_get [("High", 1.2); ("Medium", 1.0); ("Low", 0.7)] severity 1.0 in
  let penetration := base_rate * comment_multiplier * severity_multiplier in
  min penetration 0.50.

(** The reach of [estimate_reach]; its second component, the
    justification text, is left out. *)
Definition estimate_reach (problem_statement target_users : string)
           (frequency num_comments : Z) (severity : string) : Z :=
  let category := identify_market_category problem_statement target_users in
  let market := dict_get MARKET_DATA category default_market in
  let base_users := active_users market in
  let penetration_rate :=
    _calculate_penetration_rate frequency num_comments severity in
  int (inject_Z base_users * penetration_rate).

End MarketSizingEngine.

(** ** services/prioritization_service.py *)

Module PrioritizationService.

(** *** JTBD scoring *)

Definition default_jtbd (pain_point : PainPoint) : JTBDScore.t :=
  {| JTBDScore.job_statement :=
       "When users face " ++ get (description pain_point) ""
         ++ ", they want a solution";
     JTBDScore.importance := 7.0;
     JTBDScore.satisfaction := 3.0;
     JTBDScore.opportunity_score := 11.0;
     JTBDScore.category := OpportunityCategory.UNDERSERVED;
     JTBDScore.reasoning := "Default scoring due to parsing error" |}.

Definition _calculate_jtbd_score (call : JTBDCall.t)
           (pain_point : PainPoint) : outcome JTBDScore.t :=
  match call with
  | JTBDCall.Fails e => Throw e
  | JTBDCall.Text None => Return (default_jtbd pain_point)
  | JTBDCall.Text (Some data) =>
      match OpportunityCategory.of_value
              (get (JTBDReply.category data) "wellserved") with
      | None => Return (default_jtbd pain_point)
      | Some cat =>
          match JTBDScore.validate
                  {| JTBDScore.job_statement :=
                       get (JTBDReply.job_statement data) "";
                     JTBDScore.importance :=
                       get (JTBDReply.importance data) 5.0;
                     JTBDScore.satisfaction :=
                       get (JTBDReply.satisfaction data) 5.0;
                     JTBDScore.opportunity_score :=
                       get (JTBDReply.opportunity_score data) 10.0;
                     JTBDScore.category := cat;
                     JTBDScore.reasoning :=
                       get (JTBDReply.reasoning data) "" |} with
          | Ok score => Return score
          | Raise _ => Return (default_jtbd pain_point)
          end
      end
  end.

(** *** RICE scoring *)

Definition severity_map : list (string * Q) :=
  [("High", 2.0); ("Medium", 1.0); ("Low", 0.5)].

Definition blocking_words : list string :=
  ["can't"; "unable"; "impossible"; "blocks"; "prevents"; "stuck"].

Definition _estimate_impact (severity : string) (importance : Q)
           (quote : string) : Q :=
  let base_impact := dict_get severity_map severity 1.0 in
  let importance_multiplier :=
    if Qle_bool 9.0 importance then 1.5
    else if Qle_bool 7.0 importance then 1.2
    else 1.0 in
  let quote_multiplier :=
    if any (fun word => contains word (lower quote)) blocking_words
    then 1.2 else 1.0 in
  let impact := base_impact * importance_multiplier * quote_multiplier in
  min (max impact 0.25) 3.0.

Definition _estimate_confidence (frequency num_sources : Z)
           (severity : string) : Q :=
  let freq_conf :=
    if (10 <=? frequency)%Z then 0.95
    else if (5 <=? frequency)%Z then 0.85
    else if (3 <=? frequency)%Z then 0.75
    else 0.60 in
  let source_multiplier := min (inject_Z num_sources / 3.0) 1.0 in
  let severity_boost := if String.eqb severity "High" then 0.05 else 0.0 in
  let confidence := (freq_conf * source_multiplier) + severity_boost in
  min confidence 1.0.

Definition default_effort : Q * list (string * Q) :=
  (2.0, [ ("UI/Frontend", 0.5); ("Backend/API", 1.0);
          ("Infrastructure", 0.3); ("Testing & QA", 0.2) ]).

Definition _estimate_effort (reply : option EffortReply.t)
  : Q * list (string * Q) :=
  match reply with
  | None => default_effort
  | Some data =>
      let breakdown :=
        [ ("UI/Frontend", get (EffortReply.ui_frontend data) 0.5);
          ("Backend/API", get (EffortReply.backend_api data) 1.0);
          ("Infrastructure", get (EffortReply.infrastructure data) 0.3);
          ("Testing & QA", get (EffortReply.testing_qa data) 0.3) ] in
      let total :=
        get (EffortReply.total_effort data) (sum (map snd breakdown)) in
      (total, breakdown)
  end.

(** The conditional expression that computes [rice_score]: the division
    is only reached when [effort > 0]. *)
Definition rice_score_expr (reach : Z) (impact confidence effort : Q)
  : pyresult Q :=
  if Qlt_le_dec 0 effort
  then truediv (inject_Z reach * impact * confidence) effort
  else Ok 0.

Definition _calculate_rice_score (effort_reply : option EffortReply.t)
           (pain_point : PainPoint) (problem_statement target_users : string)
           (jtbd_score : JTBDScore.t) : pyresult RICEScore.t :=
  let frequency := get (frequency pain_point) 1%Z in
  let severity := get (severity pain_point) "Medium" in
  let num_comments := 50%Z in
  let reach :=
    MarketSizingEngine.estimate_reach problem_statement target_users
      frequency num_comments severity in
  let impact :=
    _estimate_impact severity (JTBDScore.importance jtbd_score)
      (get (quote pain_point) "") in
  let confidence := _estimate_confidence frequency 2 severity in
  let '(effort, effort_breakdown) := _estimate_effort effort_reply in
  bind (rice_score_expr reach impact confidence effort) (fun rice_score =>
    RICEScore.validate
      {| RICEScore.reach := reach;
         RICEScore.impact := impact;
         RICEScore.confidence := confidence;
         RICEScore.effort := effort;
         RICEScore.effort_breakdown := effort_breakdown;
         RICEScore.rice_score := rice_score |}).

(** *** Persona alignment *)

(** [d[k] = v] on a dict kept in insertion order: an existing key keeps
    its place and takes the new value. *)
Fixpoint dict_set (d : list (string * string)) (k v : string)
  : list (string * string) :=
  match d with
  | [] => [(k, v)]
  | (k', v') :: r =>
      if String.eqb k' k then (k', v) :: r else (k', v') :: dict_set r k v
  end.

Definition first5 (l : list string) : list string := firstn 5 l.

(** The inner loop over a persona's pain points. *)
Definition match_count (description_lower : string)
           (persona_pain_points : list string) : nat :=
  List.length
    (filter
       (fun pp =>
          any (fun word => contains word description_lower)
              (first5 (split (lower pp))))
       persona_pain_points).

(** The affinity of one persona, and whether the persona is appended to
    [affected]. *)
Definition affinity_of (description_lower : string) (persona : Persona)
  : string * bool :=
  let persona_pain_points := get (pain_points persona) [] in
  let n := match_count description_lower persona_pain_points in
  if (2 <=? n)%nat then ("VERY HIGH", true)
  else if (1 <=? n)%nat then ("HIGH", true)
  else
    let behaviors := lower (join " " (get (behaviors persona) [])) in
    let goals := lower (join " " (get (goals persona) [])) in
    if any (fun word => contains word behaviors || contains word goals)
           (first5 (split description_lower))
    then ("MEDIUM", true)
    else ("LOW", false).

Fixpoint personas_loop (description_lower : string)
         (affected : list string) (affinities : list (string * string))
         (personas : list Persona)
  : list string * list (string * string) :=
  match personas with
  | [] => (affected, affinities)
  | persona :: r =>
      let persona_name := get (name persona) "Unknown" in
      let '(affinity, hit) := affinity_of description_lower persona in
      let affected := if hit then append affected persona_name else affected in
      personas_loop description_lower affected
        (dict_set affinities persona_name affinity) r
  end.

Definition affinity_scores : list (string * Z) :=
  [("VERY HIGH", 10); ("HIGH", 7); ("MEDIUM", 4); ("LOW", 1)]%Z.

Definition len {A} (l : list A) : Q := inject_Z (Z.of_nat (List.length l)).

(** In the branch below the list of personas is not empty, so the two
    divisions by its length are defined. *)
Definition _calculate_persona_alignment (pain_point : PainPoint)
           (personas : list Persona) : pyresult PersonaAlignment.t :=
  match personas with
  | [] =>
      PersonaAlignment.validate
        {| PersonaAlignment.affected_personas := [];
           PersonaAlignment.coverage := 0.0;
           PersonaAlignment.affinities := [];
           PersonaAlignment.weight := 0.0 |}
  | _ :: _ =>
      let description_lower := lower (get (description pain_point) "") in
      let '(affected, affinities) :=
        personas_loop description_lower [] [] personas in
      let coverage := len affected / len personas in
      let total_weight :=
        fold_left Z.add
          (map (fun kv => dict_get affinity_scores (snd kv) 0%Z) affinities)
          0%Z in
      let weight := inject_Z total_weight / len personas in
      PersonaAlignment.validate
        {| PersonaAlignment.affected_personas := affected;
           PersonaAlignment.coverage := coverage;
           PersonaAlignment.affinities := affinities;
           PersonaAlignment.weight := weight |}
  end.

(** *** Final score, ranking

    [math.log10] and the collaborator's replies are taken as given: what
    the call with the JTBD prompt gives and the reply to the effort prompt
    of the pain point at each position. *)

Section WithCollaborators.

Variable log10 : Q -> Q.
Variable jtbd_call : nat -> JTBDCall.t.
Variable effort_reply : nat -> option EffortReply.t.

Definition _calculate_final_score (jtbd_score : JTBDScore.t)
           (rice_score : RICEScore.t)
           (persona_alignment : PersonaAlignment.t) : Q :=
  let jtbd_normalized :=
    (JTBDScore.opportunity_score jtbd_score / 20.0) * 100 in
  let rice_normalized :=
    min (log10 (max (RICEScore.rice_score rice_score) 1) * 20) 100 in
  let persona_normalized :=
    (PersonaAlignment.weight persona_alignment / 10.0) * 100 in
  let final :=
    (jtbd_normalized * 0.4) + (rice_normalized * 0.4)
    + (persona_normalized * 0.2) in
  round2 final.

(** The body of the loop of [prioritize_pain_points] for the pain point
    at position [idx]. *)
Definition prioritize_one (personas : list Persona)
           (problem_statement target_users : string)
           (idx : nat) (pain_point : PainPoint)
  : outcome PrioritizedPainPoint.t :=
  and_then (_calculate_jtbd_score (jtbd_call idx) pain_point)
    (fun jtbd_score =>
  and_then
    (lift (_calculate_rice_score (effort_reply idx) pain_point
             problem_statement target_users jtbd_score))
    (fun rice_score =>
  and_then (lift (_calculate_persona_alignment pain_point personas))
    (fun persona_alignment =>
  let final_score :=
    _calculate_final_score jtbd_score rice_score persona_alignment in
  Return
    {| PrioritizedPainPoint.pain_point_id := "pp_" ++ str_nat idx;
       PrioritizedPainPoint.description :=
         get (description pain_point) "";
       PrioritizedPainPoint.original_severity :=
         get (severity pain_point) "Medium";
       PrioritizedPainPoint.priority_rank := 0;
       PrioritizedPainPoint.final_score := final_score;
       PrioritizedPainPoint.jtbd := jtbd_score;
       PrioritizedPainPoint.rice := rice_score;
       PrioritizedPainPoint.persona_alignment := persona_alignment |}))).

Fixpoint prioritize_loop (personas : list Persona)
         (problem_statement target_users : string)
         (idx : nat) (pain_points : list PainPoint)
  : outcome (list PrioritizedPainPoint.t) :=
  match pain_points with
  | [] => Return []
  | pain_point :: r =>
      and_then (prioritize_one personas problem_statement target_users
                  idx pain_point) (fun pp =>
      and_then (prioritize_loop personas problem_statement target_users
                  (S idx) r) (fun rest =>
      Return (pp :: rest)))
  end.

(** [prioritized.sort(key=lambda x: x.final_score, reverse=True)]: the
    list sort is stable, also in reverse; an item is placed before the
    first one whose score is not larger than its own. *)
Fixpoint insert_desc (x : PrioritizedPainPoint.t)
         (l : list PrioritizedPainPoint.t) : list PrioritizedPainPoint.t :=
  match l with
  | [] => [x]
  | y :: r =>
      if Qlt_le_dec (PrioritizedPainPoint.final_score x)
                    (PrioritizedPainPoint.final_score y)
      then y :: insert_desc x r
      else x :: y :: r
  end.

Fixpoint sort_desc (l : list PrioritizedPainPoint.t)
  : list PrioritizedPainPoint.t :=
  match l with
  | [] => []
  | x :: r => insert_desc x (sort_desc r)
  end.

(** [for rank, pp in enumerate(prioritized, 1): pp.priority_rank = rank] *)
Fixpoint assign_ranks (rank : Z) (l : list PrioritizedPainPoint.t)
  : list PrioritizedPainPoint.t :=
  match l with
  | [] => []
  | pp :: r =>
      PrioritizedPainPoint.set_priority_rank rank pp
        :: assign_ranks (rank + 1) r
  end.

Definition prioritize_pain_points (pain_points : list PainPoint)
           (personas : list Persona)
           (problem_statement target_users : string)
  : outcome (list PrioritizedPainPoint.t) :=
  match pain_points with
  | [] => Return []
  | _ :: _ =>
      and_then (prioritize_loop personas problem_statement target_users
                  0 pain_points) (fun prioritized =>
      Return (assign_ranks 1 (sort_desc prioritized)))
  end.

End WithCollaborators.

End PrioritizationService.

(** ** routers/prioritization.py

    The endpoint answers with a response body or with an HTTP error.  The
    [top_opportunity] text of the body is formatted prose; it is left
    out. *)

Module PrioritizationRouter.

Record PrioritizationRequest : Type := {
  request_pain_points : list PainPoint;
  request_personas : list Persona;
  request_problem_statement : string;
  request_target_users : string
}.

Record PrioritizationResponse : Type := {
  prioritized_pain_points : list PrioritizedPainPoint.t;
  total_analyzed : Z;
  methodology : string
}.

(** [prioritize_pain_points(request)]; [anthropic_api_key] is the key of
    the settings, empty when it is not configured. *)
Definition prioritize_pain_points (log10 : Q -> Q)
           (jtbd_call : nat -> JTBDCall.t)
           (effort_reply : nat -> option EffortReply.t)
           (anthropic_api_key : string) (request : PrioritizationRequest)
  : outcome PrioritizationResponse :=
  try_except
    (if String.eqb anthropic_api_key ""
     then Throw (HTTPException 400)
     else
       and_then
         (PrioritizationService.prioritize_pain_points log10 jtbd_call
            effort_reply (request_pain_points request)
            (request_personas request)
            (request_problem_statement request)
            (request_target_users request))
         (fun prioritized =>
            match prioritized with
            | [] => Throw (HTTPException 500)
            | _ :: _ =>
                Return
                  {| prioritized_pain_points := prioritized;
                     total_analyzed :=
                       Z.of_nat (List.length prioritized);
                     methodology :=
                       "JTBD + RICE Hybrid (40% JTBD + 40% RICE + 20% Persona Alignment)" |}
            end))
    (fun e => Throw (HTTPException 500)).

End PrioritizationRouter.

End App.

(** * What the specification says, in its own words *)

Module Spec.

(** [clamp(x, lo, hi)] *)
Definition clamp (x lo hi : Q) : Q := Qmax lo (Qmin x hi).

(** The risk bands [0,30], (30,50], (50,75], (75,100]. *)
Definition risk_band (p : Q) : option string :=
  if Qle_bool 0 p && Qle_bool p 30 then Some "LOW"
  else if Qle_bool 0 p && Qle_bool p 50 then Some "MEDIUM"
  else if Qle_bool 0 p && Qle_bool p 75 then Some "HIGH"
  else if Qle_bool 0 p && Qle_bool p 100 then Some "CRITICAL"
  else None.

(** The sunk-cost term: three points off per minute, floored at -10. *)
Definition sunk_cost (t : Q) : Q := Qmax (-10) (- (t / 60) * 3).

(** [importance + max(importance - satisfaction, 0)] *)
Definition opportunity (importance satisfaction : Q) : Q :=
  importance + Qmax (importance - satisfaction) 0.

(** underserved above 10, wellserved from 8 to 10, overserved below 8. *)
Definition category_of (score : Q) : App.OpportunityCategory.t :=
  if Qle_bool score 10
  then if Qle_bool 8 score
       then App.OpportunityCategory.WELLSERVED
       else App.OpportunityCategory.OVERSERVED
  else App.OpportunityCategory.UNDERSERVED.

Definition jtbd_consistent (s : App.JTBDScore.t) : Prop :=
  App.JTBDScore.opportunity_score s
    == opportunity (App.JTBDScore.importance s) (App.JTBDScore.satisfaction s)
  /\ App.JTBDScore.category s
     = category_of (App.JTBDScore.opportunity_score s).

(** The tiers of the penetration rate. *)
Definition base_rate (frequency : Z) : Q :=
  if (10 <=? frequency)%Z then 0.40
  else if (5 <=? frequency)%Z then 0.30
  else if (3 <=? frequency)%Z then 0.20
  else 0.10.

Definition comment_multiplier (comment_volume : Z) : Q :=
  if (100 <=? comment_volume)%Z then 1.2
  else if (50 <=? comment_volume)%Z then 1.1
  else if (20 <=? comment_volume)%Z then 1.0
  else 0.8.

Definition severity_multiplier (severity : string) : Q :=
  if String.eqb severity "High" then 1.2
  else if String.eqb severity "Medium" then 1.0
  else if String.eqb severity "Low" then 0.7
  else 1.0.

(** The final score, before and after rounding. *)
Definition final_score_exact (log10 : Q -> Q)
           (opportunity_score rice_score weight : Q) : Q :=
  0.4 * (opportunity_score / 20 * 100)
  + 0.4 * Qmin (log10 (Qmax rice_score 1) * 20) 100
  + 0.2 * (weight / 10 * 100).

Definition final_score (log10 : Q -> Q)
           (opportunity_score rice_score weight : Q) : Q :=
  Py.round2 (final_score_exact log10 opportunity_score rice_score weight).

End Spec.

(** * Concrete inputs used in the evaluations below *)

Module Examples.

Import UserSim.

Definition no_context : Context :=
  {| time_invested_seconds := None; urgency := None;
     alternatives_available := None; failure_count := None |}.

Definition after_seconds (t : Q) : Context :=
  {| time_invested_seconds := Some t; urgency := None;
     alternatives_available := None; failure_count := None |}.

(** The default base risk with each patience level, no triggers. *)
Definition patient_user : VirtualUser :=
  {| patience_level := PatienceLevel.HIGH; frustration_triggers := [];
     base_churn_risk := 10 |}.

Definition impatient_user : VirtualUser :=
  {| patience_level := PatienceLevel.LOW; frustration_triggers := [];
     base_churn_risk := 10 |}.

(** A commuter of medium patience whose own trigger is a price rise. *)
Definition commuter : VirtualUser :=
  {| patience_level := PatienceLevel.MEDIUM;
     frustration_triggers :=
       [ {| trigger := "price_increase"; threshold := 5; impact := 20 |} ];
     base_churn_risk := 10 |}.

Definition long_wait : FrustrationEvent :=
  {| event := Some "long_wait"; severity := Some 1.0 |}.

Definition mild_retry : FrustrationEvent :=
  {| event := Some "retry_required"; severity := Some 0.52 |}.

(** Replies of the reasoning collaborator to the JTBD prompt: one whose
    score and category disagree with its own ratings, and one that is
    consistent. *)
Definition careless_reply : App.JTBDReply.t :=
  {| App.JTBDReply.job_statement := Some "When users commute";
     App.JTBDReply.importance := Some 9.0;
     App.JTBDReply.satisfaction := Some 2.0;
     App.JTBDReply.opportunity_score := Some 3.0;
     App.JTBDReply.category := Some "overserved";
     App.JTBDReply.reasoning := Some "" |}.

(** Two personas that carry the same name, with nothing in common with
    the pain point below. *)
Definition asha : App.Persona :=
  {| App.name := Some "Asha Rao";
     App.pain_points := Some ["Payment fails at checkout"];
     App.behaviors := Some ["Shops on the phone"];
     App.goals := Some ["Spend less"] |}.

Definition namesake : App.Persona :=
  {| App.name := Some "Asha Rao";
     App.pain_points := Some ["Delivery slots vanish"];
     App.behaviors := Some ["Orders late at night"];
     App.goals := Some ["Save effort"] |}.

(** A persona dict without any of the keys. *)
Definition anonymous : App.Persona :=
  {| App.name := None; App.pain_points := None;
     App.behaviors := None; App.goals := None |}.

Definition cooking : App.PainPoint :=
  {| App.description := Some "X";
     App.quote := Some "I can't find time to cook";
     App.severity := Some "High";
     App.frequency := Some 10%Z |}.

Definition slow_search : App.PainPoint :=
  {| App.description := Some "Search is slow";
     App.quote := Some "It takes a while";
     App.severity := Some "Low";
     App.frequency := Some 2%Z |}.

(** The JSON object [{}]: a reply that carries none of the keys. *)
Definition empty_object : App.JTBDReply.t :=
  {| App.JTBDReply.job_statement := None;
     App.JTBDReply.importance := None;
     App.JTBDReply.satisfaction := None;
     App.JTBDReply.opportunity_score := None;
     App.JTBDReply.category := None;
     App.JTBDReply.reasoning := None |}.

(** The collaborator answers the second JTBD prompt carelessly and the
    others with a text that holds no JSON; every effort prompt gets a
    total of three person-months. *)
Definition jtbd_replies (idx : nat) : App.JTBDCall.t :=
  match idx with
  | 1%nat => App.JTBDCall.Text (Some careless_reply)
  | _ => App.JTBDCall.Text None
  end.


Definition effort_replies (idx : nat) : option App.EffortReply.t :=
  Some {| App.EffortReply.ui_frontend := Some 0.5;
          App.EffortReply.backend_api := None;
          App.EffortReply.infrastructure := None;
          App.EffortReply.testing_qa := None;
          App.EffortReply.total_effort := Some 3.0 |}.

(** The whole part of the decimal logarithm of a number from 1 upwards,
    which stands in for [math.log10] in the evaluations. *)
Definition log10_whole (x : Q) : Q :=
  inject_Z (Z.of_nat (Decimal.nb_digits (N.to_uint (Z.to_N (Qfloor x)))) - 1).

(** A RICE record and an alignment record as the service builds them. *)
Definition sample_rice : App.RICEScore.t :=
  {| App.RICEScore.reach := 25000000;
     App.RICEScore.impact := 2.88;
     App.RICEScore.confidence := 0.5;
     App.RICEScore.effort := 2;
     App.RICEScore.effort_breakdown := [];
     App.RICEScore.rice_score := 18000000 |}.

Definition sample_alignment : App.PersonaAlignment.t :=
  {| App.PersonaAlignment.affected_personas := ["Asha Rao"];
     App.PersonaAlignment.coverage := 1;
     App.PersonaAlignment.affinities := [("Asha Rao", "MEDIUM")];
     App.PersonaAlignment.weight := 4 |}.

(** An effort reply whose total is zero. *)
Definition free_lunch (idx : nat) : option App.EffortReply.t :=
  Some {| App.EffortReply.ui_frontend := None;
          App.EffortReply.backend_api := None;
          App.EffortReply.infrastructure := None;
          App.EffortReply.testing_qa := None;
          App.EffortReply.total_effort := Some 0 |}.

(** Three options of a decision point, and replies of the engine's
    collaborator: one that picks the second option and lowers the churn
    by far more than allowed, one that is no JSON at all. *)
Definition three_options : list UserSim.DecisionOption.t :=
  UserSim.ScenarioSimulator.build_options 0
    ["Retry immediately"; "Try alternative service"; "Give up"].

Definition eager_reply : UserSim.AIDecisionEngine.reply :=
  UserSim.AIDecisionEngine.Text
    (UserSim.AIDecisionEngine.Parsed
       {| UserSim.AIDecisionEngine.DecisionReply.chosen_option := Some 2%Z;
          UserSim.AIDecisionEngine.DecisionReply.reasoning := None;
          UserSim.AIDecisionEngine.DecisionReply.emotional_state :=
            Some "Hopeful";
          UserSim.AIDecisionEngine.DecisionReply.context_adjustment :=
            Some (-80);
          UserSim.AIDecisionEngine.DecisionReply.context_explanation :=
            None |}).

Definition prose_reply : UserSim.AIDecisionEngine.reply :=
  UserSim.AIDecisionEngine.Text
    (UserSim.AIDecisionEngine.Garbled "I would retry."%string).

(** A decision point with three options, and the patient user with a
    problem context. *)
Definition no_ride : UserSim.ScenarioSimulator.StepTemplate.t :=
  {| UserSim.ScenarioSimulator.StepTemplate.step_type :=
       Some "decision_point";
     UserSim.ScenarioSimulator.StepTemplate.description :=
       Some "System shows no available options";
     UserSim.ScenarioSimulator.StepTemplate.expected_outcome := None;
     UserSim.ScenarioSimulator.StepTemplate.decision_needed :=
       Some "What should user do?";
     UserSim.ScenarioSimulator.StepTemplate.options :=
       Some ["Retry immediately"; "Try alternative service"; "Give up"] |}.

Definition open_app : UserSim.ScenarioSimulator.StepTemplate.t :=
  {| UserSim.ScenarioSimulator.StepTemplate.step_type := Some "action";
     UserSim.ScenarioSimulator.StepTemplate.description :=
       Some "User opens the app";
     UserSim.ScenarioSimulator.StepTemplate.expected_outcome :=
       Some "App loads successfully";
     UserSim.ScenarioSimulator.StepTemplate.decision_needed := None;
     UserSim.ScenarioSimulator.StepTemplate.options := None |}.

Definition payment_error : UserSim.ScenarioSimulator.StepTemplate.t :=
  {| UserSim.ScenarioSimulator.StepTemplate.step_type := Some "error";
     UserSim.ScenarioSimulator.StepTemplate.description :=
       Some "Payment error, please wait";
     UserSim.ScenarioSimulator.StepTemplate.expected_outcome :=
       Some "Payment fails";
     UserSim.ScenarioSimulator.StepTemplate.decision_needed := None;
     UserSim.ScenarioSimulator.StepTemplate.options := None |}.

Definition patient_rider : UserSim.ScenarioSimulator.SimulatedUser :=
  {| UserSim.ScenarioSimulator.profile := patient_user;
     UserSim.ScenarioSimulator.problem_context :=
       "Daily commuter looking for a cab" |}.

Definition rider_journey (steps : list UserSim.ScenarioSimulator.StepTemplate.t)
  : UserSim.ScenarioSimulator.Template.t :=
  {| UserSim.ScenarioSimulator.Template.scenario_name :=
       Some "Edge Case - No Ride";
     UserSim.ScenarioSimulator.Template.scenario_type := Some "edge_case";
     UserSim.ScenarioSimulator.Template.description :=
       Some "No ride is available";
     UserSim.ScenarioSimulator.Template.steps := Some steps |}.

(** A step function, 0 below ten and 1 from ten upwards: non-negative and
    non-decreasing, as the decimal logarithm is from 1 upwards. *)
Definition log10_step (x : Q) : Q := if Qle_bool 10 x then 1 else 0.

End Examples.

(** * Vocabulary of the statements *)

Module Notions.

Import App App.PrioritizationService.

(** The four affinity levels, and a dict entry that holds one of them. *)
Definition affinity_levels : list string :=
  ["VERY HIGH"; "HIGH"; "MEDIUM"; "LOW"].

Definition graded (kv : string * string) : Prop :=
  In (snd kv) affinity_levels.

(** The key under which a persona's affinity is stored. *)
Definition persona_name (persona : Persona) : string :=
  get (name persona) "Unknown".

(** Descending order of the final score. *)
Definition by_score_desc (a b : PrioritizedPainPoint.t) : Prop :=
  PrioritizedPainPoint.final_score b <= PrioritizedPainPoint.final_score a.

(** An item as it was before the ranks were written. *)
Definition unranked (p : PrioritizedPainPoint.t) : PrioritizedPainPoint.t :=
  PrioritizedPainPoint.set_priority_rank 0 p.

Definition same_score (v : Q) (p : PrioritizedPainPoint.t) : bool :=
  Qeq_bool (PrioritizedPainPoint.final_score p) v.

(** The call with the JTBD prompt comes back with a text. *)
Definition jtbd_answers (call : JTBDCall.t) : Prop :=
  match call with
  | JTBDCall.Text _ => True
  | JTBDCall.Fails _ => False
  end.

(** The effort estimate that the reply leads to is positive. *)
Definition effort_ok (reply : option EffortReply.t) : Prop :=
  0 < fst (_estimate_effort reply).

(** The steps of a journey that goes on from step number [n] with [t]
    seconds on the clock: numbered in sequence, each one's elapsed time
    the previous one's plus its own duration, each with a churn
    analysis. *)
Fixpoint journey_from (n : Z) (t : Q) (steps : list UserSim.JourneyStep.t)
  : Prop :=
  match steps with
  | [] => True
  | s :: rest =>
      UserSim.JourneyStep.step_number s = n
      /\ UserSim.JourneyStep.time_elapsed s
         = t + UserSim.JourneyStep.step_duration s
      /\ 2 <= UserSim.JourneyStep.step_duration s <= 120
      /\ 0 <= UserSim.JourneyStep.frustration_level s <= 10
      /\ (exists a,
            UserSim.JourneyStep.churn_analysis s = Some a
            /\ UserSim.final_churn_probability a <= 100)
      /\ journey_from (n + 1) (UserSim.JourneyStep.time_elapsed s) rest
  end.

(** A step of a template that the simulator treats as a regular step:
    its type is a step type other than decision_point, and it has no
    decision_needed key. *)
Definition is_regular
           (step_template : UserSim.ScenarioSimulator.StepTemplate.t)
  : bool :=
  match UserSim.StepType.of_value
          (get (UserSim.ScenarioSimulator.StepTemplate.step_type
                  step_template) "action") with
  | Some step_type =>
      negb (UserSim.StepType.eqb step_type UserSim.StepType.DECISION_POINT)
      && match UserSim.ScenarioSimulator.StepTemplate.decision_needed
                 step_template with
         | Some _ => false
         | None => true
         end
  | None => false
  end.

(** The context dict of a regular step: only the time invested. *)
Definition regular_context (cumulative_time : Q) : UserSim.Context :=
  {| UserSim.time_invested_seconds := Some cumulative_time;
     UserSim.urgency := None; UserSim.alternatives_available := None;
     UserSim.failure_count := None |}.

(** The churn probabilities of the steps of a journey, in order. *)
Definition churn_trace (steps : list UserSim.JourneyStep.t) : list Q :=
  map (fun s => UserSim.ScenarioSimulator.churn_of s 0) steps.

End Notions.

Import Notions.

(** * Properties of the churn calculator *)

Section ChurnProperties.

Import UserSim UserSim.ChurnCalculator.

Lemma first_band_proper (levels : list (Z * Z * string)) (p q : Q) :
  p == q -> first_band levels p = first_band levels q.
Proof.
  intros Hpq. induction levels as [|[[lo hi] lvl] r IH]; simpl.
  - reflexivity.
  - rewrite Hpq, IH. reflexivity.
Qed.

Lemma _get_risk_level_proper (p q : Q) :
  p == q -> _get_risk_level p = _get_risk_level q.
Proof. apply first_band_proper. Qed.

(** The table read as it is written: a value between two of its rows
    falls through to the default. *)
Lemma _get_risk_level_rows (p : Q) :
  _get_risk_level p =
    if Qle_bool 0 p && Qle_bool p 30 then "LOW"
    else if Qle_bool 31 p && Qle_bool p 50 then "MEDIUM"
    else if Qle_bool 51 p && Qle_bool p 75 then "HIGH"
    else "CRITICAL".
Proof.
  unfold _get_risk_level, RISK_LEVELS, first_band.
  change (inject_Z 0) with 0. change (inject_Z 30) with 30.
  change (inject_Z 31) with 31. change (inject_Z 50) with 50.
  change (inject_Z 51) with 51. change (inject_Z 75) with 75.
  destruct (Qle_bool 0 p && Qle_bool p 30); [reflexivity|].
  destruct (Qle_bool 31 p && Qle_bool p 50); [reflexivity|].
  destruct (Qle_bool 51 p && Qle_bool p 75); [reflexivity|].
  destruct (Qle_bool (inject_Z 76) p && Qle_bool p (inject_Z 100));
    reflexivity.
Qed.

(** On the rows themselves the table gives the bands of the
    specification. *)
Lemma _get_risk_level_on_rows (p : Q) :
  0 <= p <= 100 ->
  p <= 30 \/ (31 <= p /\ p <= 50) \/ (51 <= p /\ p <= 75) \/ 76 <= p ->
  Spec.risk_band p = Some (_get_risk_level p).
Proof.
  intros [H0 H100] Hrows. rewrite _get_risk_level_rows.
  unfold Spec.risk_band.
  repeat match goal with
         | |- context [Qle_bool ?a ?b] =>
             let E := fresh "E" in
             destruct (Qle_bool a b) eqn:E;
             [apply Qle_bool_iff in E
             |apply not_true_iff_false in E; rewrite Qle_bool_iff in E]
         end;
    cbn [andb]; try reflexivity; exfalso;
    destruct Hrows as [Hr|[[Hr Hr']|[[Hr Hr']|Hr]]]; lra.
Qed.

(** A trigger that no event carries leaves the running sum alone. *)
Lemma any_event_is_single (name n : string) (s : option Q) :
  any_event_is name [ {| event := Some n; severity := s |} ]
  = Ok (String.eqb n name).
Proof. simpl. destruct (String.eqb n name); reflexivity. Qed.

Lemma triggers_loop_no_match (evs : list FrustrationEvent) (acc : Q)
      (details : list contribution) (ts : list FrustrationTrigger) :
  Forall (fun tr => any_event_is (trigger tr) evs = Ok false) ts ->
  triggers_loop evs acc details ts = Ok (acc, details).
Proof.
  induction 1 as [|tr r Htr _ IH]; simpl.
  - reflexivity.
  - rewrite Htr. simpl. exact IH.
Qed.

(** Whenever [calculate_churn] returns, the probability is the sum capped
    at 100, and nothing more. *)
Lemma calculate_churn_final (self : ChurnCalculator.t)
      (evs : list FrustrationEvent) (ctx : Context) (adj : Q)
      (a : ChurnAnalysis) :
  calculate_churn self evs ctx adj = Ok a ->
  final_churn_probability a = Py.min (calculated_risk a + adj) 100
  /\ final_churn_probability a <= 100
  /\ risk_level a = _get_risk_level (final_churn_probability a).
Proof.
  unfold calculate_churn.
  destruct (events_loop 0 [] evs) as [fr det].
  destruct (triggers_loop evs fr det (frustration_triggers (user self)))
    as [[fr' det']|e]; simpl; [|discriminate].
  intros H. injection H as <-. simpl.
  split; [reflexivity|]. split; [apply Q.le_min_r | reflexivity].
Qed.

(** With a sum that is not negative the probability is the clamp of the
    sum into [0,100]. *)
Lemma calculate_churn_clamp_nonneg (self : ChurnCalculator.t)
      (evs : list FrustrationEvent) (ctx : Context) (adj : Q)
      (a : ChurnAnalysis) :
  calculate_churn self evs ctx adj = Ok a ->
  0 <= calculated_risk a + adj ->
  final_churn_probability a == Spec.clamp (calculated_risk a + adj) 0 100
  /\ 0 <= final_churn_probability a <= 100.
Proof.
  intros H Hpos. apply calculate_churn_final in H.
  destruct H as (-> & Hle & _). unfold Spec.clamp, Py.min in *.
  assert (H0 : 0 <= Qmin (calculated_risk a + adj) 100)
    by (apply Q.min_glb; [exact Hpos | discriminate]).
  split; [|split; assumption].
  symmetry. apply Q.max_r. exact H0.
Qed.

(** It returns as soon as every event carries its name. *)
Lemma any_event_is_total (name : string) (evs : list FrustrationEvent) :
  Forall (fun e => event e <> None) evs ->
  exists b, any_event_is name evs = Ok b.
Proof.
  induction 1 as [|e r He _ IH]; simpl.
  - eauto.
  - destruct (event e) as [n|]; [|congruence].
    destruct (String.eqb n name); eauto.
Qed.

Lemma triggers_loop_total (evs : list FrustrationEvent)
      (ts : list FrustrationTrigger) :
  Forall (fun e => event e <> None) evs ->
  forall acc details, exists r, triggers_loop evs acc details ts = Ok r.
Proof.
  intros Hev. induction ts as [|tr r IH]; intros acc details; simpl.
  - eauto.
  - destruct (any_event_is_total (trigger tr) evs Hev) as [b ->]. simpl.
    destruct b; apply IH.
Qed.

Lemma calculate_churn_total (self : ChurnCalculator.t)
      (evs : list FrustrationEvent) (ctx : Context) (adj : Q) :
  Forall (fun e => event e <> None) evs ->
  exists a, calculate_churn self evs ctx adj = Ok a.
Proof.
  intros Hev. unfold calculate_churn.
  destruct (events_loop 0 [] evs) as [fr det].
  destruct (triggers_loop_total evs (frustration_triggers (user self)) Hev
              fr det) as [[fr' det'] ->].
  simpl. eauto.
Qed.

End ChurnProperties.

Section ChurnClaims.

Import UserSim UserSim.ChurnCalculator Examples.

(** With time invested, the first entry of the decomposition is the
    sunk-cost one, and its amount is [min(-10, -(t/60)*3)]: at most -10,
    whatever the time. *)
Lemma _parse_ai_adjustments_sunk_cost (ctx : Context) (adj t : Q) :
  time_invested_seconds ctx = Some t -> 0 < t ->
  exists rest,
    _parse_ai_adjustments ctx adj
    = ("sunk_cost_effect", Py.min (-10) (- (t / 60) * 3)) :: rest
    /\ Py.min (-10) (- (t / 60) * 3) <= -10.
Proof.
  intros Ht Hpos. unfold _parse_ai_adjustments. rewrite Ht. simpl Py.get.
  destruct (Qlt_le_dec 0 t) as [_|Hle]; [|lra].
  repeat match goal with
         | |- context [if ?b then _ else _] => destruct b
         end;
    simpl; eexists; (split; [reflexivity | apply Q.le_min_l]).
Qed.

(** C1 (the code's side).  A user of high patience at the default base
    risk, no frustration event, and the adjustment -50 that the decision
    engine may pass: the returned probability is -40, below zero and so
    not the clamp of the sum into [0,100]; the same analysis is labelled
    CRITICAL while its reasoning text opens with the low-risk sentence. *)
Theorem calculate_churn_below_zero :
  exists a,
    calculate_churn (__init__ patient_user) [] no_context (-50) = Ok a
    /\ final_churn_probability a == -40
    /\ ~ (0 <= final_churn_probability a)
    /\ ~ (final_churn_probability a
          == Spec.clamp (calculated_risk a + -50) 0 100)
    /\ risk_level a = "CRITICAL"
    /\ prefix "Low churn risk." (reasoning a) = true.
Proof.
  eexists. split; [reflexivity|]. simpl.
  split; [reflexivity|].
  split; [intros H; vm_compute in H; apply H; reflexivity|].
  split; [intros H; vm_compute in H; discriminate H|].
  split; reflexivity.
Qed.

(** C2 (the code's side).  The rows of the table are whole numbers, 0-30,
    31-50, 51-75 and 76-100, so a probability strictly between two rows
    matches none and takes the fall-through value: 30.01 and 30.4 are
    CRITICAL where the bands say MEDIUM, 50.5 is CRITICAL where they say
    HIGH.  The value 30.4 is what an impatient user gets after one mild
    retry. *)
Theorem risk_level_between_rows :
  _get_risk_level 30.01 = "CRITICAL"
  /\ Spec.risk_band 30.01 = Some "MEDIUM"
  /\ _get_risk_level 50.5 = "CRITICAL"
  /\ Spec.risk_band 50.5 = Some "HIGH"
  /\ exists a,
       calculate_churn (__init__ impatient_user) [mild_retry] no_context 0
       = Ok a
       /\ final_churn_probability a == 30.4
       /\ risk_level a = "CRITICAL"
       /\ Spec.risk_band (final_churn_probability a) = Some "MEDIUM".
Proof.
  repeat (split; [reflexivity|]).
  eexists. split; [reflexivity|]. simpl.
  repeat split; reflexivity.
Qed.

(** C4 (the code's side).  After one minute the sunk-cost entry is -10,
    not -3; after ten minutes it is -30, below the floor of -10. *)
Theorem sunk_cost_after_one_and_ten_minutes :
  (exists v rest,
     _parse_ai_adjustments (after_seconds 60) 0
     = ("sunk_cost_effect", v) :: rest
     /\ v == -10 /\ Spec.sunk_cost 60 == -3)
  /\ (exists v rest,
        _parse_ai_adjustments (after_seconds 600) 0
        = ("sunk_cost_effect", v) :: rest
        /\ v == -30 /\ v < -10 /\ Spec.sunk_cost 600 == -10).
Proof.
  split; do 2 eexists; (split; [reflexivity|]); repeat split; reflexivity.
Qed.

(** C6.  A user with base risk 10 and medium patience, none of whose
    triggers is named long_wait, one long_wait event of severity 1.0 and
    the adjustment -10: the calculator returns, with formula risk 40,
    calculated risk 60, probability 50 and level MEDIUM. *)
Theorem calculate_churn_long_wait_example (u : VirtualUser) (ctx : Context) :
  base_churn_risk u == 10 ->
  patience_level u = PatienceLevel.MEDIUM ->
  Forall (fun tr => trigger tr <> "long_wait") (frustration_triggers u) ->
  exists a,
    calculate_churn (__init__ u) [long_wait] ctx (-10) = Ok a
    /\ patience_multiplier a == 1.5
    /\ formula_risk a == 40
    /\ formula_risk a
       == base_churn_risk u
          + Py.sum (map snd (frustration_events a))
    /\ calculated_risk a == 60
    /\ calculated_risk a == formula_risk a * patience_multiplier a
    /\ final_churn_probability a == 50
    /\ risk_level a = "MEDIUM".
Proof.
  intros Hbase Hpat Htr.
  unfold calculate_churn. cbn [events_loop long_wait].
  rewrite triggers_loop_no_match.
  2:{ eapply Forall_impl; [|exact Htr]. intros tr Hne.
      unfold long_wait. rewrite any_event_is_single.
      f_equal. apply String.eqb_neq. congruence. }
  cbn [Py.bind]. eexists. split; [reflexivity|].
  cbn [patience_multiplier formula_risk calculated_risk frustration_events
       final_churn_probability risk_level __init__ user
       self_patience_multiplier].
  rewrite Hpat. cbn [PATIENCE_MULTIPLIERS].
  assert (Hev : snd (event_risk {| event := Some "long_wait";
                                   severity := Some 1.0 |}) == 30)
    by reflexivity.
  assert (Hform : base_churn_risk u
                  + (0 + snd (event_risk {| event := Some "long_wait";
                                            severity := Some 1.0 |})) == 40)
    by (rewrite Hbase, Hev; reflexivity).
  assert (Hfinal : Py.min ((base_churn_risk u
                  + (0 + snd (event_risk {| event := Some "long_wait";
                                            severity := Some 1.0 |})))
                           * (3 # 2) + -10) 100 == 50).
  { unfold Py.min. rewrite Hform. reflexivity. }
  split; [reflexivity|]. split; [exact Hform|].
  split; [unfold Py.append, Py.sum; simpl; lra|].
  split; [rewrite Hform; reflexivity|].
  split; [reflexivity|].
  split; [exact Hfinal|].
  rewrite (_get_risk_level_proper _ 50); [reflexivity | exact Hfinal].
Qed.

Lemma calculate_churn_long_wait_example_witness :
  base_churn_risk commuter == 10
  /\ patience_level commuter = PatienceLevel.MEDIUM
  /\ Forall (fun tr => trigger tr <> "long_wait")
            (frustration_triggers commuter)
  /\ exists a,
       calculate_churn (__init__ commuter) [long_wait] (after_seconds 45)
         (-10) = Ok a
       /\ final_churn_probability a == 50
       /\ risk_level a = "MEDIUM".
Proof.
  assert (H1 : base_churn_risk commuter == 10) by reflexivity.
  assert (H2 : patience_level commuter = PatienceLevel.MEDIUM)
    by reflexivity.
  assert (H3 : Forall (fun tr => trigger tr <> "long_wait")
                      (frustration_triggers commuter))
    by (repeat constructor; simpl; discriminate).
  repeat (split; [assumption|]).
  destruct (calculate_churn_long_wait_example commuter (after_seconds 45)
              H1 H2 H3) as (a & Ha & _ & _ & _ & _ & _ & Hf & Hl).
  exists a. auto.
Defined.

End ChurnClaims.

(** * Properties of the market reach estimator *)

Section MarketProperties.

Import App App.MarketSizingEngine.

Lemma base_rate_monotone (f1 f2 : Z) :
  (f1 <= f2)%Z -> Spec.base_rate f1 <= Spec.base_rate f2.
Proof.
  intros H. unfold Spec.base_rate.
  destruct (10 <=? f1)%Z eqn:A1; destruct (10 <=? f2)%Z eqn:A2;
    destruct (5 <=? f1)%Z eqn:B1; destruct (5 <=? f2)%Z eqn:B2;
    destruct (3 <=? f1)%Z eqn:C1; destruct (3 <=? f2)%Z eqn:C2;
    try (vm_compute; discriminate); exfalso; lia.
Qed.

Lemma comment_multiplier_pos (c : Z) : 0 < Spec.comment_multiplier c.
Proof.
  unfold Spec.comment_multiplier.
  repeat match goal with
         | |- context [if ?b then _ else _] => destruct b
         end; reflexivity.
Qed.

Lemma severity_multiplier_pos (s : string) : 0 < Spec.severity_multiplier s.
Proof.
  unfold Spec.severity_multiplier.
  repeat match goal with
         | |- context [if ?b then _ else _] => destruct b
         end; reflexivity.
Qed.

Lemma base_rate_pos (f : Z) : 0 < Spec.base_rate f.
Proof.
  unfold Spec.base_rate.
  repeat match goal with
         | |- context [if ?b then _ else _] => destruct b
         end; reflexivity.
Qed.

(** The method computes the product of the three tiers, capped. *)
Lemma _calculate_penetration_rate_eq (f c : Z) (s : string) :
  _calculate_penetration_rate f c s
  = Qmin (Spec.base_rate f * Spec.comment_multiplier c
          * Spec.severity_multiplier s) 0.50.
Proof.
  unfold _calculate_penetration_rate, Spec.severity_multiplier, Py.min.
  cbn [Py.dict_get].
  destruct (String.eqb "High" s) eqn:E1;
    [apply String.eqb_eq in E1; subst s; reflexivity|].
  destruct (String.eqb "Medium" s) eqn:E2;
    [apply String.eqb_eq in E2; subst s; reflexivity|].
  destruct (String.eqb "Low" s) eqn:E3;
    [apply String.eqb_eq in E3; subst s; reflexivity|].
  rewrite String.eqb_sym in E1. rewrite String.eqb_sym in E2.
  rewrite String.eqb_sym in E3. rewrite E1, E2, E3. reflexivity.
Qed.

Lemma _calculate_penetration_rate_nonneg (f c : Z) (s : string) :
  0 <= _calculate_penetration_rate f c s.
Proof.
  rewrite _calculate_penetration_rate_eq. apply Q.min_glb; [|discriminate].
  pose proof (base_rate_pos f). pose proof (comment_multiplier_pos c).
  pose proof (severity_multiplier_pos s).
  apply Qlt_le_weak. repeat apply Qmult_lt_0_compat; assumption.
Qed.

(** C7.  The penetration rate is the product of the frequency tier, the
    comment-volume tier and the severity tier, capped at 0.50; it never
    exceeds 0.50; and a larger frequency never gives a smaller rate. *)
Theorem penetration_rate_capped_monotone (c : Z) (s : string) :
  (forall f,
      _calculate_penetration_rate f c s
      == Qmin (Spec.base_rate f * Spec.comment_multiplier c
               * Spec.severity_multiplier s) 0.50)
  /\ (forall f, _calculate_penetration_rate f c s <= 0.50)
  /\ (forall f1 f2, (f1 <= f2)%Z ->
        _calculate_penetration_rate f1 c s
        <= _calculate_penetration_rate f2 c s).
Proof.
  split; [intros f; rewrite _calculate_penetration_rate_eq; reflexivity|].
  split; [intros f; rewrite _calculate_penetration_rate_eq;
          apply Q.le_min_r|].
  intros f1 f2 H. rewrite !_calculate_penetration_rate_eq.
  apply Q.min_le_compat_r.
  apply Qmult_le_compat_r; [|apply Qlt_le_weak, severity_multiplier_pos].
  apply Qmult_le_compat_r; [|apply Qlt_le_weak, comment_multiplier_pos].
  apply base_rate_monotone, H.
Qed.

Lemma penetration_rate_capped_monotone_witness :
  _calculate_penetration_rate 2 50 "Medium"
  <= _calculate_penetration_rate 3 50 "Medium"
  /\ _calculate_penetration_rate 3 50 "Medium"
     <= _calculate_penetration_rate 5 50 "Medium"
  /\ _calculate_penetration_rate 5 50 "Medium"
     <= _calculate_penetration_rate 10 50 "Medium"
  /\ _calculate_penetration_rate 10 50 "Medium" <= 0.50.
Proof.
  destruct (penetration_rate_capped_monotone 50 "Medium") as (_ & Hcap & Hmono).
  repeat split.
  - apply (Hmono 2 3)%Z. lia.
  - apply (Hmono 3 5)%Z. lia.
  - apply (Hmono 5 10)%Z. lia.
  - apply Hcap.
Defined.

End MarketProperties.

(** * Properties of the prioritization engine: the scores *)

Section ScoreProperties.

Import App App.PrioritizationService Examples.

Lemma round2_proper (x y : Q) : x == y -> round2 x = round2 y.
Proof.
  intros H. unfold round2. cbv zeta.
  assert (Hf : Qfloor (x * 100) = Qfloor (y * 100))
    by (rewrite H; reflexivity).
  assert (Hc : (x * 100 - inject_Z (Qfloor (x * 100)) ?= 1 # 2)
               = (y * 100 - inject_Z (Qfloor (y * 100)) ?= 1 # 2))
    by (rewrite Hf, H; reflexivity).
  rewrite Hc, Hf. reflexivity.
Qed.

(** C5.  The final score is the weighted blend of the three normalised
    parts, 0.4 of the opportunity score out of 20, 0.4 of twenty times
    the decimal logarithm of the RICE score (taken from 1 upwards, capped
    at 100) and 0.2 of the alignment weight out of 10, rounded to two
    decimals. *)
Theorem final_score_formula (log10 : Q -> Q) (jtbd_score : JTBDScore.t)
        (rice_score : RICEScore.t) (persona_alignment : PersonaAlignment.t) :
  _calculate_final_score log10 jtbd_score rice_score persona_alignment
  = Spec.final_score log10
      (JTBDScore.opportunity_score jtbd_score)
      (RICEScore.rice_score rice_score)
      (PersonaAlignment.weight persona_alignment).
Proof.
  unfold _calculate_final_score, Spec.final_score, Spec.final_score_exact.
  cbv zeta. apply round2_proper. unfold Py.min, Py.max. field.
Qed.

Lemma _estimate_impact_bounds (severity : string) (importance : Q)
      (quote : string) :
  0.25 <= _estimate_impact severity importance quote <= 3.0.
Proof.
  unfold _estimate_impact. cbv zeta. unfold Py.min, Py.max. split.
  - apply Q.min_glb; [apply Q.le_max_r | discriminate].
  - apply Q.le_min_r.
Qed.

Lemma rice_score_expr_guarded (reach : Z) (impact confidence effort : Q) :
  rice_score_expr reach impact confidence effort
  = Ok (if Qlt_le_dec 0 effort
        then inject_Z reach * impact * confidence / effort
        else 0).
Proof.
  unfold rice_score_expr, truediv.
  destruct (Qlt_le_dec 0 effort) as [Hpos|Hle]; [|reflexivity].
  destruct (Qeq_bool effort 0) eqn:E; [|reflexivity].
  apply Qeq_bool_iff in E. rewrite E in Hpos. discriminate Hpos.
Qed.

(** C8 (the code's side).  The estimated impact lies in [0.25, 3.0] for
    every severity, importance and quote.  The guard on the division is
    defeated by the record it feeds: an effort estimate of 0 gets past it
    with the value 0 and no division error, and is then refused when the
    record is built, since [RICEScore] declares [effort gt=0].  With the
    collaborator's total of 0 person-months the scoring raises a
    validation error where the claim has it return the score 0; and so it
    does for every effort estimate that is not positive. *)
Theorem rice_zero_effort_raises :
  (forall severity importance quote,
      0.25 <= _estimate_impact severity importance quote <= 3.0)
  /\ fst (_estimate_effort (free_lunch 0)) == 0
  /\ (forall reach impact confidence,
        rice_score_expr reach impact confidence
          (fst (_estimate_effort (free_lunch 0))) = Ok 0)
  /\ _calculate_rice_score (free_lunch 0) cooking "Cooking at home"
       "busy people" (default_jtbd cooking) = Raise ValidationError
  /\ (forall reply pain_point problem_statement target_users jtbd_score,
        fst (_estimate_effort reply) <= 0 ->
        rice_score_expr
          (MarketSizingEngine.estimate_reach problem_statement target_users
             (get (frequency pain_point) 1%Z) 50
             (get (severity pain_point) "Medium"))
          (_estimate_impact (get (severity pain_point) "Medium")
             (JTBDScore.importance jtbd_score) (get (quote pain_point) ""))
          (_estimate_confidence (get (frequency pain_point) 1%Z) 2
             (get (severity pain_point) "Medium"))
          (fst (_estimate_effort reply)) = Ok 0
        /\ _calculate_rice_score reply pain_point problem_statement
             target_users jtbd_score = Raise ValidationError).
Proof.
  split; [exact _estimate_impact_bounds|].
  split; [reflexivity|].
  split; [intros reach impact confidence; reflexivity|].
  split; [reflexivity|].
  intros reply pain_point ps tu jtbd_score Hle. split.
  - rewrite rice_score_expr_guarded.
    destruct (Qlt_le_dec 0 (fst (_estimate_effort reply))) as [Hpos|_];
      [lra | reflexivity].
  - unfold _calculate_rice_score.
    destruct (_estimate_effort reply) as [effort breakdown]. simpl fst in Hle.
    cbv zeta. rewrite rice_score_expr_guarded. cbn [Py.bind].
    unfold RICEScore.validate. cbn [RICEScore.effort].
    rewrite (proj2 (Qle_bool_iff _ _) Hle). cbn [negb].
    rewrite !andb_false_r. reflexivity.
Qed.

(** *** The stored opportunity score *)

Lemma default_jtbd_consistent (pain_point : PainPoint) :
  Spec.jtbd_consistent (default_jtbd pain_point).
Proof. split; reflexivity. Qed.

Lemma validate_jtbd_ok (x y : JTBDScore.t) :
  JTBDScore.validate x = Ok y ->
  y = x
  /\ 0 <= JTBDScore.importance x <= 10
  /\ 0 <= JTBDScore.satisfaction x <= 10.
Proof.
  unfold JTBDScore.validate.
  destruct (Qle_bool 0 (JTBDScore.importance x)) eqn:A; [|discriminate].
  destruct (Qle_bool (JTBDScore.importance x) 10) eqn:B; [|discriminate].
  destruct (Qle_bool 0 (JTBDScore.satisfaction x)) eqn:C; [|discriminate].
  destruct (Qle_bool (JTBDScore.satisfaction x) 10) eqn:D; [|discriminate].
  cbn. intros H. injection H as <-.
  apply Qle_bool_iff in A, B, C, D. auto.
Qed.

(** Whatever the call comes back with is scored; what it raises leaves
    the method. *)
Lemma _calculate_jtbd_score_text (reply : option JTBDReply.t)
      (pain_point : PainPoint) :
  exists s,
    _calculate_jtbd_score (JTBDCall.Text reply) pain_point = Return s
    /\ 0 <= JTBDScore.importance s <= 10
    /\ 0 <= JTBDScore.satisfaction s <= 10.
Proof.
  assert (Hdef : 0 <= JTBDScore.importance (default_jtbd pain_point) <= 10
                 /\ 0 <= JTBDScore.satisfaction (default_jtbd pain_point)
                    <= 10)
    by (repeat split; discriminate).
  unfold _calculate_jtbd_score.
  destruct reply as [data|]; [|eauto].
  destruct (OpportunityCategory.of_value _) as [cat|]; [|eauto].
  match goal with
  | |- context [JTBDScore.validate ?x] =>
      destruct (JTBDScore.validate x) as [y|e] eqn:Ev
  end; [|eauto].
  apply validate_jtbd_ok in Ev. destruct Ev as (-> & Hi & Hs).
  eexists. split; [reflexivity|]. cbn. split; assumption.
Qed.

(** A JSON object whose category is one of the three and whose ratings
    lie in [0,10] is stored as it came, key by key, with the fixed
    defaults for the keys it lacks: the score and the category are not
    derived from the ratings. *)
Lemma _calculate_jtbd_score_echo (data : JTBDReply.t)
      (cat : OpportunityCategory.t) (pain_point : PainPoint) :
  OpportunityCategory.of_value (get (JTBDReply.category data) "wellserved")
  = Some cat ->
  0 <= get (JTBDReply.importance data) 5.0 <= 10 ->
  0 <= get (JTBDReply.satisfaction data) 5.0 <= 10 ->
  _calculate_jtbd_score (JTBDCall.Text (Some data)) pain_point
  = Return
      {| JTBDScore.job_statement := get (JTBDReply.job_statement data) "";
         JTBDScore.importance := get (JTBDReply.importance data) 5.0;
         JTBDScore.satisfaction := get (JTBDReply.satisfaction data) 5.0;
         JTBDScore.opportunity_score :=
           get (JTBDReply.opportunity_score data) 10.0;
         JTBDScore.category := cat;
         JTBDScore.reasoning := get (JTBDReply.reasoning data) "" |}.
Proof.
  intros Hc [Hi0 Hi1] [Hs0 Hs1]. unfold _calculate_jtbd_score. rewrite Hc.
  unfold JTBDScore.validate.
  cbn [JTBDScore.importance JTBDScore.satisfaction].
  rewrite (proj2 (Qle_bool_iff _ _) Hi0), (proj2 (Qle_bool_iff _ _) Hi1),
    (proj2 (Qle_bool_iff _ _) Hs0), (proj2 (Qle_bool_iff _ _) Hs1).
  reflexivity.
Qed.

(** C3 (the code's side).  The scoring step stores the score and the
    category without deriving or checking them.  For the reply [{}] every
    stored value is one of the step's own defaults: importance 5,
    satisfaction 5, score 10, wellserved, where the formula gives
    5 + max(5 - 5, 0) = 5 and overserved.  For a reply that rates
    importance 9 and satisfaction 2 but reports the score 3 and
    overserved, that is stored, where the formula gives 16 and
    underserved. *)
Theorem jtbd_score_stored_unchecked :
  (exists s,
      _calculate_jtbd_score (JTBDCall.Text (Some empty_object)) cooking
      = Return s
      /\ JTBDScore.importance s == 5
      /\ JTBDScore.satisfaction s == 5
      /\ JTBDScore.opportunity_score s == 10
      /\ JTBDScore.category s = OpportunityCategory.WELLSERVED
      /\ Spec.opportunity (JTBDScore.importance s)
           (JTBDScore.satisfaction s) == 5
      /\ Spec.category_of 5 = OpportunityCategory.OVERSERVED
      /\ ~ Spec.jtbd_consistent s)
  /\ (exists s,
        _calculate_jtbd_score (JTBDCall.Text (Some careless_reply)) cooking
        = Return s
        /\ JTBDScore.importance s == 9
        /\ JTBDScore.satisfaction s == 2
        /\ JTBDScore.opportunity_score s == 3
        /\ JTBDScore.category s = OpportunityCategory.OVERSERVED
        /\ Spec.opportunity (JTBDScore.importance s)
             (JTBDScore.satisfaction s) == 16
        /\ Spec.category_of 16 = OpportunityCategory.UNDERSERVED
        /\ ~ Spec.jtbd_consistent s).
Proof.
  split; eexists; (split; [reflexivity|]); cbn;
    repeat (split; [reflexivity|]);
    intros [Hscore _]; vm_compute in Hscore; discriminate Hscore.
Qed.

End ScoreProperties.

(** * Properties of the prioritization engine: persona alignment *)

Section AlignmentProperties.

Import App App.PrioritizationService Examples.

Lemma affinity_of_graded (description_lower : string) (persona : Persona) :
  In (fst (affinity_of description_lower persona)) affinity_levels.
Proof.
  unfold affinity_of. cbv zeta.
  repeat match goal with
         | |- context [if ?b then _ else _] => destruct b
         end; simpl; auto.
Qed.

Lemma affinity_scores_bounds (aff : string) :
  In aff affinity_levels ->
  (1 <= dict_get affinity_scores aff 0 <= 10)%Z.
Proof.
  simpl. intros [<-|[<-|[<-|[<-|[]]]]]; vm_compute; split; discriminate.
Qed.

Lemma dict_set_graded (d : list (string * string)) (k v : string) :
  Forall graded d -> In v affinity_levels -> Forall graded (dict_set d k v).
Proof.
  intros Hd Hv. induction Hd as [|[k' v'] r Hkv Hr IH]; simpl.
  - constructor; [exact Hv | constructor].
  - destruct (String.eqb k' k); constructor; assumption.
Qed.

Lemma dict_set_length (d : list (string * string)) (k v : string) :
  (List.length d <= List.length (dict_set d k v) <= S (List.length d))%nat
  /\ (1 <= List.length (dict_set d k v))%nat.
Proof.
  induction d as [|[k' v'] r IH]; simpl.
  - lia.
  - destruct (String.eqb k' k); simpl; lia.
Qed.

Lemma dict_set_fresh (d : list (string * string)) (k v : string) :
  ~ In k (map fst d) -> dict_set d k v = List.app d [(k, v)].
Proof.
  induction d as [|[k' v'] r IH]; simpl; intros Hk.
  - reflexivity.
  - destruct (String.eqb k' k) eqn:E.
    + apply String.eqb_eq in E. tauto.
    + rewrite IH; [reflexivity | tauto].
Qed.

(** What the loop over the personas keeps true. *)
Lemma personas_loop_invariant (description_lower : string)
      (personas : list Persona) :
  forall affected affinities affected' affinities',
    personas_loop description_lower affected affinities personas
    = (affected', affinities') ->
    Forall graded affinities ->
    Forall graded affinities'
    /\ (List.length affinities <= List.length affinities'
        <= List.length affinities + List.length personas)%nat
    /\ (personas <> [] -> 1 <= List.length affinities')%nat
    /\ (List.length affected'
        <= List.length affected + List.length personas)%nat.
Proof.
  induction personas as [|persona r IH];
    intros affected affinities affected' affinities'; simpl.
  - intros H Hg. injection H as <- <-. repeat split; auto; try lia.
    congruence.
  - pose proof (affinity_of_graded description_lower persona) as Hlvl.
    destruct (affinity_of description_lower persona) as [affinity hit].
    simpl in Hlvl. intros H Hg.
    apply IH in H; [|apply dict_set_graded; assumption].
    destruct H as (Hg' & Hlen & _ & Haff).
    pose proof (dict_set_length affinities
                  (get (name persona) "Unknown") affinity) as Hset.
    split; [exact Hg'|]. split; [lia|]. split; [intros _; lia|].
    destruct hit; unfold append in Haff; rewrite ?length_app in Haff;
      simpl in Haff; lia.
Qed.

(** With names that are pairwise distinct every persona gets an entry of
    its own. *)
Lemma personas_loop_distinct (description_lower : string)
      (personas : list Persona) :
  forall affected affinities affected' affinities',
    personas_loop description_lower affected affinities personas
    = (affected', affinities') ->
    NoDup (List.app (map fst affinities) (map persona_name personas)) ->
    List.length affinities'
    = (List.length affinities + List.length personas)%nat.
Proof.
  induction personas as [|persona r IH];
    intros affected affinities affected' affinities'; simpl.
  - intros H _. injection H as <- <-. lia.
  - destruct (affinity_of description_lower persona) as [affinity hit].
    intros H Hnd.
    assert (Hfresh : ~ In (persona_name persona) (map fst affinities)).
    { apply NoDup_remove_2 in Hnd. intros Hin. apply Hnd.
      apply in_or_app. left. exact Hin. }
    fold (persona_name persona) in H.
    rewrite (dict_set_fresh _ _ _ Hfresh) in H.
    apply IH in H.
    + rewrite H, length_app. simpl. lia.
    + rewrite map_app. simpl. rewrite <- app_assoc. simpl. exact Hnd.
Qed.

Lemma total_weight_bounds (affinities : list (string * string)) :
  Forall graded affinities ->
  forall acc,
    (acc + Z.of_nat (List.length affinities)
     <= fold_left Z.add
          (map (fun kv => dict_get affinity_scores (snd kv) 0%Z) affinities)
          acc
     <= acc + 10 * Z.of_nat (List.length affinities))%Z.
Proof.
  induction 1 as [|kv r Hkv _ IH]; intros acc;
    cbn [fold_left map List.length].
  - simpl. lia.
  - pose proof (affinity_scores_bounds _ Hkv) as Hb.
    specialize (IH (acc + dict_get affinity_scores (snd kv) 0)%Z).
    rewrite Nat2Z.inj_succ. lia.
Qed.

Lemma len_pos {A} (l : list A) : l <> [] -> 0 < len l.
Proof.
  intros H. unfold len. destruct l; [congruence|].
  unfold Qlt. simpl. lia.
Qed.

(** For every non-empty list of personas the alignment is returned, its
    coverage lies in [0,1] and its weight in (0,10]; the weight is at
    least 1 as soon as the personas' names are pairwise distinct. *)
Lemma _calculate_persona_alignment_weight (pain_point : PainPoint)
      (personas : list Persona) :
  personas <> [] ->
  exists a,
    _calculate_persona_alignment pain_point personas = Ok a
    /\ 0 <= PersonaAlignment.coverage a <= 1
    /\ 0 < PersonaAlignment.weight a <= 10
    /\ (NoDup (map persona_name personas) ->
        1 <= PersonaAlignment.weight a).
Proof.
  intros Hne. unfold _calculate_persona_alignment.
  destruct personas as [|p0 r] eqn:Ep; [congruence|]. rewrite <- Ep in *.
  destruct (personas_loop (lower (get (description pain_point) "")) [] []
              personas) as [affected affinities] eqn:Eloop.
  pose proof (personas_loop_invariant _ _ _ _ _ _ Eloop (Forall_nil _))
    as (Hg & Hlen & Hpos & Haff).
  specialize (Hpos Hne). simpl in Hlen, Haff.
  pose proof (total_weight_bounds _ Hg 0%Z) as Htot.
  pose proof (len_pos personas Hne) as Hn.
  set (total := fold_left Z.add _ 0%Z) in *.
  assert (Hcov : 0 <= len affected / len personas <= 1).
  { split.
    - apply Qle_shift_div_l; [exact Hn|]. rewrite Qmult_0_l.
      unfold len. rewrite <- (Zle_Qle 0). lia.
    - apply Qle_shift_div_r; [exact Hn|]. rewrite Qmult_1_l.
      unfold len. rewrite <- Zle_Qle. lia. }
  unfold PersonaAlignment.validate. cbn [PersonaAlignment.coverage].
  destruct Hcov as [Hc0 Hc1].
  rewrite (proj2 (Qle_bool_iff _ _) Hc0), (proj2 (Qle_bool_iff _ _) Hc1).
  cbn [andb]. eexists. split; [reflexivity|]. cbn.
  split; [split; assumption|]. split; [split|].
  - apply Qlt_shift_div_l; [exact Hn|]. rewrite Qmult_0_l.
    rewrite <- (Zlt_Qlt 0). lia.
  - apply Qle_shift_div_r; [exact Hn|]. unfold len.
    change 10 with (inject_Z 10). rewrite <- inject_Z_mult, <- Zle_Qle. lia.
  - intros Hnd.
    pose proof (personas_loop_distinct _ _ _ _ _ _ Eloop) as Hd.
    simpl in Hd. specialize (Hd Hnd).
    apply Qle_shift_div_l; [exact Hn|]. rewrite Qmult_1_l.
    unfold len. rewrite <- Zle_Qle. lia.
Qed.

(** C10 (the code's side).  The affinities are kept in a dict keyed by
    the persona's name, and the weight divides the sum over that dict by
    the number of personas.  Two personas of one name, both LOW, leave
    one entry: the weight is 1/2, below 1.  Three personas without a
    name all go under the default name: the weight is 1/3. *)
Theorem alignment_weight_same_name :
  (exists a,
      _calculate_persona_alignment cooking [asha; namesake] = Ok a
      /\ PersonaAlignment.affinities a = [("Asha Rao", "LOW")]
      /\ PersonaAlignment.weight a == 1 # 2
      /\ ~ (1 <= PersonaAlignment.weight a))
  /\ (exists a,
        _calculate_persona_alignment cooking
          [anonymous; anonymous; anonymous] = Ok a
        /\ PersonaAlignment.affinities a = [("Unknown", "LOW")]
        /\ PersonaAlignment.weight a == 1 # 3
        /\ ~ (1 <= PersonaAlignment.weight a)).
Proof.
  split; eexists; (split; [reflexivity|]); cbn;
    (split; [reflexivity|]); (split; [reflexivity|]);
    intros H; vm_compute in H; apply H; reflexivity.
Qed.

End AlignmentProperties.

(** * Properties of the prioritization engine: ranking *)

Section RankingProperties.

Import App App.PrioritizationService Examples.

Local Abbreviation score := PrioritizedPainPoint.final_score.
Local Abbreviation rank := PrioritizedPainPoint.priority_rank.

(** *** The sort *)

Lemma insert_desc_perm (x : PrioritizedPainPoint.t)
      (l : list PrioritizedPainPoint.t) :
  Permutation (insert_desc x l) (x :: l).
Proof.
  induction l as [|y r IH]; simpl.
  - apply Permutation_refl.
  - destruct (Qlt_le_dec (score x) (score y)).
    + eapply perm_trans; [apply perm_skip, IH | apply perm_swap].
    + apply Permutation_refl.
Qed.

Lemma sort_desc_perm (l : list PrioritizedPainPoint.t) :
  Permutation (sort_desc l) l.
Proof.
  induction l as [|x r IH]; simpl.
  - apply perm_nil.
  - eapply perm_trans; [apply insert_desc_perm | apply perm_skip, IH].
Qed.

Lemma insert_desc_sorted (x : PrioritizedPainPoint.t)
      (l : list PrioritizedPainPoint.t) :
  StronglySorted by_score_desc l ->
  StronglySorted by_score_desc (insert_desc x l).
Proof.
  induction 1 as [|y r Hr IH Hy]; simpl.
  - repeat constructor.
  - destruct (Qlt_le_dec (score x) (score y)) as [Hlt|Hle].
    + constructor; [exact IH|].
      apply (Permutation_Forall (Permutation_sym (insert_desc_perm x r))).
      constructor; [apply Qlt_le_weak, Hlt | exact Hy].
    + constructor; [constructor; assumption|].
      constructor; [exact Hle|].
      eapply Forall_impl; [|exact Hy]. unfold by_score_desc.
      intros z Hz. eapply Qle_trans; eassumption.
Qed.

Lemma sort_desc_sorted (l : list PrioritizedPainPoint.t) :
  StronglySorted by_score_desc (sort_desc l).
Proof.
  induction l as [|x r IH]; simpl.
  - constructor.
  - apply insert_desc_sorted, IH.
Qed.

(** Stability: the items of one score keep the order they came in. *)
Lemma insert_desc_stable (v : Q) (x : PrioritizedPainPoint.t)
      (l : list PrioritizedPainPoint.t) :
  filter (same_score v) (insert_desc x l) = filter (same_score v) (x :: l).
Proof.
  induction l as [|y r IH]; [reflexivity|].
  cbn [insert_desc].
  destruct (Qlt_le_dec (score x) (score y)) as [Hlt|Hle]; [|reflexivity].
  cbn [filter] in *. rewrite IH.
  destruct (same_score v x) eqn:Ex; destruct (same_score v y) eqn:Ey;
    try reflexivity.
  unfold same_score in Ex, Ey. apply Qeq_bool_iff in Ex, Ey.
  rewrite Ex, Ey in Hlt. exfalso. exact (Qlt_irrefl _ Hlt).
Qed.

Lemma sort_desc_stable (v : Q) (l : list PrioritizedPainPoint.t) :
  filter (same_score v) (sort_desc l) = filter (same_score v) l.
Proof.
  induction l as [|x r IH]; [reflexivity|].
  cbn [sort_desc]. rewrite insert_desc_stable. cbn [filter].
  rewrite IH. reflexivity.
Qed.

(** *** The ranks *)

Lemma assign_ranks_unranked (l : list PrioritizedPainPoint.t) :
  forall k, map unranked (assign_ranks k l) = map unranked l.
Proof.
  induction l as [|p r IH]; intros k; simpl.
  - reflexivity.
  - rewrite IH. reflexivity.
Qed.

Lemma assign_ranks_nth (l : list PrioritizedPainPoint.t) :
  forall k i p,
    nth_error (assign_ranks k l) i = Some p ->
    rank p = (k + Z.of_nat i)%Z.
Proof.
  induction l as [|q r IH]; intros k i p; simpl.
  - destruct i; discriminate.
  - destruct i as [|i]; simpl.
    + intros H. injection H as <-. simpl. lia.
    + intros H. apply IH in H. lia.
Qed.

Lemma sorted_of_unranked (l : list PrioritizedPainPoint.t) :
  StronglySorted by_score_desc (map unranked l) ->
  StronglySorted by_score_desc l.
Proof.
  induction l as [|p r IH]; simpl; intros H.
  - constructor.
  - inversion H as [|? ? Hr Hp]; subst. constructor; [apply IH, Hr|].
    rewrite Forall_map in Hp. exact Hp.
Qed.

Lemma unranked_of_sorted (l : list PrioritizedPainPoint.t) :
  StronglySorted by_score_desc l ->
  StronglySorted by_score_desc (map unranked l).
Proof.
  induction 1 as [|p r Hr IH Hp]; simpl.
  - constructor.
  - constructor; [exact IH|]. rewrite Forall_map. exact Hp.
Qed.

(** *** Each item is scored *)

Lemma int_nonneg (x : Q) : 0 <= x -> (0 <= Py.int x)%Z.
Proof.
  intros H. unfold Py.int. apply Z.quot_pos; [|lia].
  unfold Qle in H. simpl in H. lia.
Qed.

Lemma active_users_nonneg (category : string) :
  (0 <= MarketSizingEngine.active_users
          (dict_get MarketSizingEngine.MARKET_DATA category
             MarketSizingEngine.default_market))%Z.
Proof.
  unfold MarketSizingEngine.MARKET_DATA. cbn [dict_get].
  repeat match goal with
         | |- context [if ?b then _ else _] => destruct b
         end; simpl; lia.
Qed.

Lemma estimate_reach_nonneg (problem_statement target_users : string)
      (frequency num_comments : Z) (severity : string) :
  (0 <= MarketSizingEngine.estimate_reach problem_statement target_users
          frequency num_comments severity)%Z.
Proof.
  unfold MarketSizingEngine.estimate_reach. cbv zeta. apply int_nonneg.
  apply Qmult_le_0_compat.
  - rewrite <- (Zle_Qle 0). apply active_users_nonneg.
  - apply _calculate_penetration_rate_nonneg.
Qed.

Lemma _estimate_confidence_bounds (frequency : Z) (severity : string) :
  0 <= _estimate_confidence frequency 2 severity <= 1.
Proof.
  unfold _estimate_confidence. cbv zeta. unfold Py.min. split.
  - apply Q.min_glb; [|discriminate].
    repeat match goal with
           | |- context [if ?b then _ else _] => destruct b
           end; vm_compute; discriminate.
  - eapply Qle_trans; [apply Q.le_min_r | discriminate].
Qed.

Lemma _calculate_rice_score_total (reply : option EffortReply.t)
      (pain_point : PainPoint) (problem_statement target_users : string)
      (jtbd_score : JTBDScore.t) :
  effort_ok reply ->
  exists r,
    _calculate_rice_score reply pain_point problem_statement target_users
      jtbd_score = Ok r.
Proof.
  unfold effort_ok, _calculate_rice_score.
  destruct (_estimate_effort reply) as [effort breakdown]. simpl fst.
  intros Hpos. cbv zeta. rewrite rice_score_expr_guarded. cbn [Py.bind].
  unfold RICEScore.validate.
  cbn [RICEScore.reach RICEScore.confidence RICEScore.effort].
  pose proof (estimate_reach_nonneg problem_statement target_users
                (get (frequency pain_point) 1%Z) 50
                (get (severity pain_point) "Medium")) as Hreach.
  pose proof (_estimate_confidence_bounds (get (frequency pain_point) 1%Z)
                (get (severity pain_point) "Medium")) as [Hc0 Hc1].
  apply Z.leb_le in Hreach. rewrite Hreach.
  rewrite (proj2 (Qle_bool_iff _ _) Hc0), (proj2 (Qle_bool_iff _ _) Hc1).
  destruct (Qle_bool effort 0) eqn:E.
  - apply Qle_bool_iff in E. lra.
  - cbn. eauto.
Qed.

(** An effort that is not positive gets past the guarded division, and is
    then refused when the record is built. *)
Lemma _calculate_rice_score_refused (reply : option EffortReply.t)
      (pain_point : PainPoint) (problem_statement target_users : string)
      (jtbd_score : JTBDScore.t) :
  fst (_estimate_effort reply) <= 0 ->
  _calculate_rice_score reply pain_point problem_statement target_users
    jtbd_score = Raise ValidationError.
Proof.
  unfold _calculate_rice_score.
  destruct (_estimate_effort reply) as [effort breakdown]. simpl fst.
  intros Hle. cbv zeta. rewrite rice_score_expr_guarded. cbn [Py.bind].
  unfold RICEScore.validate. cbn [RICEScore.effort].
  rewrite (proj2 (Qle_bool_iff _ _) Hle). cbn [negb].
  rewrite !andb_false_r. reflexivity.
Qed.

Lemma _calculate_persona_alignment_total (pain_point : PainPoint)
      (personas : list Persona) :
  exists a, _calculate_persona_alignment pain_point personas = Ok a.
Proof.
  destruct personas as [|p r].
  - eexists. reflexivity.
  - destruct (_calculate_persona_alignment_weight pain_point (p :: r))
      as (a & Ha & _); [discriminate | eauto].
Qed.

Section Collaborators.

Variable log10 : Q -> Q.
Variable jtbd_call : nat -> JTBDCall.t.
Variable effort_reply : nat -> option EffortReply.t.
Variable personas : list Persona.
Variables problem_statement target_users : string.

Local Abbreviation one :=
  (prioritize_one log10 jtbd_call effort_reply personas problem_statement
     target_users).
Local Abbreviation loop :=
  (prioritize_loop log10 jtbd_call effort_reply personas problem_statement
     target_users).

Lemma prioritize_one_total (idx : nat) (pain_point : PainPoint) :
  jtbd_answers (jtbd_call idx) -> effort_ok (effort_reply idx) ->
  exists p, one idx pain_point = Return p.
Proof.
  intros Hj Hok. unfold prioritize_one.
  destruct (jtbd_call idx) as [e|reply]; [contradiction Hj|].
  destruct (_calculate_jtbd_score_text reply pain_point) as (s & -> & _).
  cbn [and_then].
  destruct (_calculate_rice_score_total (effort_reply idx) pain_point
              problem_statement target_users s Hok) as [r ->].
  destruct (_calculate_persona_alignment_total pain_point personas)
    as [a ->].
  cbn [lift and_then]. eauto.
Qed.

Lemma prioritize_one_fields (idx : nat) (pain_point : PainPoint)
      (p : PrioritizedPainPoint.t) :
  one idx pain_point = Return p ->
  unranked p = p
  /\ PrioritizedPainPoint.pain_point_id p = "pp_" ++ str_nat idx
  /\ PrioritizedPainPoint.description p = get (description pain_point) "".
Proof.
  unfold prioritize_one.
  destruct (_calculate_jtbd_score _ _) as [s|e]; cbn [and_then];
    [|discriminate].
  destruct (_calculate_rice_score _ _ _ _ _) as [r|e]; cbn [lift and_then];
    [|discriminate].
  destruct (_calculate_persona_alignment _ _) as [a|e];
    cbn [lift and_then]; [|discriminate].
  cbv zeta. intros H. injection H as <-. repeat split.
Qed.

Lemma prioritize_loop_total (pain_points : list PainPoint) :
  forall idx,
    (forall i, (i < List.length pain_points)%nat ->
               jtbd_answers (jtbd_call (idx + i))
               /\ effort_ok (effort_reply (idx + i))) ->
    exists l, loop idx pain_points = Return l.
Proof.
  induction pain_points as [|pp r IH]; intros idx Hok; simpl.
  - eauto.
  - destruct (prioritize_one_total idx pp) as [p ->].
    { rewrite <- (Nat.add_0_r idx). apply Hok. simpl. lia. }
    { rewrite <- (Nat.add_0_r idx). apply Hok. simpl. lia. }
    destruct (IH (S idx)) as [l ->].
    { intros i Hi. replace (S idx + i)%nat with (idx + S i)%nat by lia.
      apply Hok. simpl. lia. }
    cbn [and_then]. eauto.
Qed.

Lemma prioritize_loop_items (pain_points : list PainPoint) :
  forall idx l,
    loop idx pain_points = Return l ->
    List.length l = List.length pain_points
    /\ Forall (fun p => unranked p = p) l
    /\ (forall i p pp,
          nth_error l i = Some p -> nth_error pain_points i = Some pp ->
          PrioritizedPainPoint.pain_point_id p = "pp_" ++ str_nat (idx + i)
          /\ PrioritizedPainPoint.description p
             = get (description pp) "").
Proof.
  induction pain_points as [|pp r IH]; intros idx l; simpl.
  - intros H. injection H as <-.
    split; [reflexivity|]. split; [constructor|].
    intros [|i] p pp'; discriminate.
  - destruct (one idx pp) as [p|e] eqn:Ep; cbn [and_then]; [|discriminate].
    destruct (loop (S idx) r) as [rest|e] eqn:Er; cbn [and_then];
      [|discriminate].
    intros H. injection H as <-.
    destruct (IH _ _ Er) as (Hlen & Hun & Hnth).
    destruct (prioritize_one_fields _ _ _ Ep) as (Hp0 & Hp1 & Hp2).
    split; [simpl; lia|]. split; [constructor; assumption|].
    intros [|i] q pp'; simpl; intros Hq Hpp.
    + injection Hq as Hq. injection Hpp as Hpp. subst q pp'.
      rewrite Nat.add_0_r. split; assumption.
    + replace (idx + S i)%nat with (S idx + i)%nat by lia.
      apply (Hnth i q pp' Hq Hpp).
Qed.

(** C9.  An empty list of pain points gives an empty list, not an error.
    When every call with the JTBD prompt comes back with a text and every
    effort estimate is positive, every pain point is scored and the list
    is returned.  Whenever it is returned, it holds the scored items,
    each once; it is in descending order of the final score; the ranks
    are 1, 2, ... in list order, so that rank 1 is on a largest score; and
    the items of one score stand in the order of the input. *)
Theorem prioritize_pain_points_sorted_ranked (pain_points : list PainPoint) :
  prioritize_pain_points log10 jtbd_call effort_reply [] personas
    problem_statement target_users = Return []
  /\ ((forall i, (i < List.length pain_points)%nat ->
                 jtbd_answers (jtbd_call i)
                 /\ effort_ok (effort_reply i)) ->
      exists out,
        prioritize_pain_points log10 jtbd_call effort_reply pain_points
          personas problem_statement target_users = Return out)
  /\ (forall out,
        prioritize_pain_points log10 jtbd_call effort_reply pain_points
          personas problem_statement target_users = Return out ->
        exists scored,
          loop 0%nat pain_points = Return scored
          /\ List.length out = List.length pain_points
          /\ (forall i p pp,
                nth_error scored i = Some p ->
                nth_error pain_points i = Some pp ->
                PrioritizedPainPoint.pain_point_id p = "pp_" ++ str_nat i
                /\ PrioritizedPainPoint.description p
                   = get (description pp) "")
          /\ Permutation (map unranked out) scored
          /\ StronglySorted by_score_desc out
          /\ (forall i p, nth_error out i = Some p ->
                          rank p = (Z.of_nat i + 1)%Z)
          /\ (forall top, hd_error out = Some top ->
                          rank top = 1%Z
                          /\ forall p, In p out -> score p <= score top)
          /\ (forall v, filter (same_score v) (map unranked out)
                        = filter (same_score v) scored)).
Proof.
  split; [reflexivity|]. split.
  { intros Hok. unfold prioritize_pain_points.
    destruct pain_points as [|pp r] eqn:E; [eauto|]. rewrite <- E in *.
    destruct (prioritize_loop_total pain_points 0) as [l Hl]; [exact Hok|].
    fold loop. rewrite Hl. cbn [and_then]. eauto. }
  intros out. unfold prioritize_pain_points.
  assert (Hmain : forall scored,
             loop 0%nat pain_points = Return scored ->
             out = assign_ranks 1 (sort_desc scored) ->
             exists scored0,
               loop 0%nat pain_points = Return scored0
               /\ List.length out = List.length pain_points
               /\ (forall i p pp,
                     nth_error scored0 i = Some p ->
                     nth_error pain_points i = Some pp ->
                     PrioritizedPainPoint.pain_point_id p
                     = "pp_" ++ str_nat i
                     /\ PrioritizedPainPoint.description p
                        = get (description pp) "")
               /\ Permutation (map unranked out) scored0
               /\ StronglySorted by_score_desc out
               /\ (forall i p, nth_error out i = Some p ->
                               rank p = (Z.of_nat i + 1)%Z)
               /\ (forall top, hd_error out = Some top ->
                               rank top = 1%Z
                               /\ forall p, In p out -> score p <= score top)
               /\ (forall v, filter (same_score v) (map unranked out)
                             = filter (same_score v) scored0)).
  { intros scored Hloop ->.
    destruct (prioritize_loop_items _ _ _ Hloop) as (Hlen & Hun & Hnth).
    assert (Hmap : map unranked (assign_ranks 1 (sort_desc scored))
                   = sort_desc scored).
    { rewrite assign_ranks_unranked.
      rewrite <- (map_id (sort_desc scored)) at 2.
      apply map_ext_in. intros p Hp.
      apply (Permutation_in _ (sort_desc_perm scored)) in Hp.
      rewrite Forall_forall in Hun. apply Hun, Hp. }
    assert (Hsorted : StronglySorted by_score_desc
                        (assign_ranks 1 (sort_desc scored))).
    { apply sorted_of_unranked. rewrite Hmap. apply sort_desc_sorted. }
    assert (Hrank : forall i p,
               nth_error (assign_ranks 1 (sort_desc scored)) i = Some p ->
               rank p = (Z.of_nat i + 1)%Z).
    { intros i p Hp. apply assign_ranks_nth in Hp. lia. }
    exists scored. split; [exact Hloop|].
    split.
    { rewrite <- Hlen, <- (length_map unranked), Hmap.
      apply Permutation_length, sort_desc_perm. }
    split; [exact Hnth|].
    split; [rewrite Hmap; apply sort_desc_perm|].
    split; [exact Hsorted|].
    split; [exact Hrank|].
    split; [|intros v; rewrite Hmap; apply sort_desc_stable].
    intros top Htop. split; [apply (Hrank 0%nat top); exact Htop|].
    destruct (assign_ranks 1 (sort_desc scored)) as [|t r] eqn:E;
      [discriminate|].
    injection Htop as <-. inversion Hsorted as [|? ? _ Hall]; subst.
    intros p [<-|Hin]; [apply Qle_refl|].
    rewrite Forall_forall in Hall. apply Hall, Hin. }
  destruct pain_points as [|pp r] eqn:E.
  - intros H. injection H as <-. apply (Hmain []); reflexivity.
  - rewrite <- E in *. fold loop.
    destruct (loop 0%nat pain_points) as [scored|e] eqn:Eloop;
      cbn [and_then]; [|discriminate].
    intros H. injection H as <-.
    apply (Hmain scored); reflexivity.
Qed.

End Collaborators.

Lemma prioritize_pain_points_sorted_ranked_witness :
  (forall i, (i < 3)%nat ->
             jtbd_answers (jtbd_replies i) /\ effort_ok (effort_replies i))
  /\ exists out,
       prioritize_pain_points log10_whole jtbd_replies effort_replies
         [cooking; slow_search; cooking] [asha]
         "Cooking at home" "busy people" = Return out
       /\ map PrioritizedPainPoint.pain_point_id out
          = ["pp_0"; "pp_2"; "pp_1"]
       /\ map rank out = [1; 2; 3]%Z
       /\ StronglySorted by_score_desc out.
Proof.
  assert (Hok : forall i, (i < 3)%nat ->
                jtbd_answers (jtbd_replies i)
                /\ effort_ok (effort_replies i)).
  { intros i _. split; [|reflexivity].
    destruct i as [|[|i]]; exact I. }
  split; [exact Hok|].
  destruct (prioritize_pain_points_sorted_ranked log10_whole jtbd_replies
              effort_replies [asha] "Cooking at home" "busy people"
              [cooking; slow_search; cooking]) as (_ & Htotal & Hsorted).
  destruct (Htotal Hok) as [out Hout].
  destruct (Hsorted out Hout) as (scored & _ & _ & _ & _ & Hs & _).
  exists out. split; [exact Hout|].
  split; [|split; [|exact Hs]];
    vm_compute in Hout; injection Hout as <-; reflexivity.
Defined.

End RankingProperties.

(** * Further properties of the churn calculator *)

Section ChurnFurther.

Import UserSim UserSim.ChurnCalculator Examples.

Lemma fold_Qplus_acc (l : list Q) (a : Q) :
  fold_left Qplus l a == a + fold_left Qplus l 0.
Proof.
  revert a. induction l as [|x r IH]; intros a; simpl.
  - ring.
  - rewrite (IH (a + x)), (IH (0 + x)). ring.
Qed.

Lemma sum_app (l r : list Q) : Py.sum (List.app l r) == Py.sum l + Py.sum r.
Proof.
  unfold Py.sum. rewrite fold_left_app. apply fold_Qplus_acc.
Qed.

Lemma sum_cons (x : Q) (l : list Q) : Py.sum (x :: l) == x + Py.sum l.
Proof.
  unfold Py.sum. simpl. rewrite fold_Qplus_acc. ring.
Qed.

(** The first loop adds one entry per event, in order, and the running
    sum grows by what the entries say. *)
Lemma events_loop_entries (evs : list FrustrationEvent) :
  forall acc details,
    snd (events_loop acc details evs)
    = List.app details (map event_risk evs)
    /\ fst (events_loop acc details evs)
       == acc + Py.sum (map snd (map event_risk evs)).
Proof.
  induction evs as [|e r IH]; intros acc details;
    cbn [events_loop map fst snd].
  - rewrite app_nil_r. split; [reflexivity | unfold Py.sum; simpl; ring].
  - destruct (IH (acc + snd (event_risk e)) (append details (event_risk e)))
      as [Hd Ha].
    split.
    + rewrite Hd. unfold append. rewrite <- app_assoc. reflexivity.
    + rewrite Ha, sum_cons. ring.
Qed.

(** The second loop only appends entries, and the running sum grows by
    what they say. *)
Lemma triggers_loop_entries (evs : list FrustrationEvent)
      (ts : list FrustrationTrigger) :
  forall acc details acc' details',
    triggers_loop evs acc details ts = Ok (acc', details') ->
    exists added,
      details' = List.app details added
      /\ acc' == acc + Py.sum (map snd added).
Proof.
  induction ts as [|tr r IH]; intros acc details acc' details';
    cbn [triggers_loop].
  - intros H. injection H as <- <-. exists []. rewrite app_nil_r.
    split; [reflexivity | unfold Py.sum; simpl; ring].
  - destruct (any_event_is (trigger tr) evs) as [[|]|e]; cbn [Py.bind];
      [| |discriminate]; intros H; apply IH in H;
      destruct H as (added & -> & Hacc).
    + exists ((trigger tr ++ "_user_specific", impact tr) :: added).
      split; [unfold append; rewrite <- app_assoc; reflexivity|].
      rewrite Hacc. cbn [map snd]. rewrite sum_cons. ring.
    + exists added. split; [reflexivity | exact Hacc].
Qed.

Lemma triggers_loop_length (evs : list FrustrationEvent)
      (ts : list FrustrationTrigger) :
  forall acc details acc' details',
    triggers_loop evs acc details ts = Ok (acc', details') ->
    (List.length details <= List.length details'
     <= List.length details + List.length ts)%nat.
Proof.
  induction ts as [|tr r IH]; intros acc details acc' details';
    cbn [triggers_loop].
  - intros H. injection H as _ <-. simpl. lia.
  - destruct (any_event_is (trigger tr) evs) as [[|]|e]; cbn [Py.bind];
      [| |discriminate]; intros H; apply IH in H.
    + unfold append in H. rewrite length_app in H. simpl in *. lia.
    + simpl. lia.
Qed.

Lemma weights_pos (event_name : string) :
  0 < dict_get FRUSTRATION_WEIGHTS event_name 15.
Proof.
  unfold FRUSTRATION_WEIGHTS. cbn [dict_get].
  repeat match goal with
         | |- context [if ?b then _ else _] => destruct b
         end; reflexivity.
Qed.

Lemma patience_multiplier_pos (p : PatienceLevel.t) :
  0 < PATIENCE_MULTIPLIERS p.
Proof. destruct p; reflexivity. Qed.

Lemma sum_nonneg (l : list Q) : Forall (fun q => 0 <= q) l -> 0 <= Py.sum l.
Proof.
  induction 1 as [|x r Hx _ IH].
  - apply Qle_refl.
  - rewrite sum_cons. lra.
Qed.

(** With impacts that are not negative the second loop never lowers the
    running sum. *)
Lemma triggers_loop_nonneg (evs : list FrustrationEvent)
      (ts : list FrustrationTrigger) :
  Forall (fun tr => 0 <= impact tr) ts ->
  forall acc details acc' details',
    triggers_loop evs acc details ts = Ok (acc', details') ->
    acc <= acc'.
Proof.
  induction 1 as [|tr r Htr _ IH]; intros acc details acc' details';
    cbn [triggers_loop].
  - intros H. injection H as <- _. apply Qle_refl.
  - destruct (any_event_is (trigger tr) evs) as [[|]|e]; cbn [Py.bind];
      [| |discriminate]; intros H; apply IH in H; lra.
Qed.

(** The calculated risk is not negative when nothing that goes into it
    is: the base risk, the impacts of the user's triggers, the severities
    of the events. *)
Lemma calculated_risk_nonneg (u : VirtualUser)
      (evs : list FrustrationEvent) (ctx : Context) (adj : Q)
      (a : ChurnAnalysis) :
  0 <= base_churn_risk u ->
  Forall (fun tr => 0 <= impact tr) (frustration_triggers u) ->
  Forall (fun e => 0 <= get (severity e) 1) evs ->
  calculate_churn (__init__ u) evs ctx adj = Ok a ->
  0 <= calculated_risk a.
Proof.
  intros Hbase Himp Hsev. unfold calculate_churn.
  cbn [__init__ user self_patience_multiplier].
  pose proof (events_loop_entries evs 0 []) as [_ Ha].
  destruct (events_loop 0 [] evs) as [fr det]. cbn [fst] in Ha.
  assert (Hfr : 0 <= fr).
  { rewrite Ha, Qplus_0_l. apply sum_nonneg.
    rewrite !Forall_map. eapply Forall_impl; [|exact Hsev].
    intros e He. cbv beta in He. unfold event_risk. cbn [snd].
    apply Qmult_le_0_compat; [apply Qlt_le_weak, weights_pos | exact He]. }
  destruct (triggers_loop evs fr det (frustration_triggers u))
    as [[fr' det']|e] eqn:Et; cbn [Py.bind]; [|discriminate].
  intros H. injection H as <-. cbn [calculated_risk].
  pose proof (triggers_loop_nonneg _ _ Himp _ _ _ _ Et) as Hle.
  apply Qmult_le_0_compat;
    [lra | apply Qlt_le_weak, patience_multiplier_pos].
Qed.

(** X1.  Every analysis that is returned has a probability of at most
    100.  As soon as calculated risk plus adjustment is not negative, the
    probability is the clamp of that sum into [0,100], and so not
    negative.  For a user whose base risk and trigger impacts are not
    negative and events whose severities are not negative, the calculated
    risk is not negative; so with an adjustment that is not negative
    either, the probability lies in [0,100]. *)
Theorem final_churn_bounds (u : VirtualUser)
        (evs : list FrustrationEvent) (ctx : Context) (adj : Q)
        (a : ChurnAnalysis) :
  calculate_churn (__init__ u) evs ctx adj = Ok a ->
  final_churn_probability a <= 100
  /\ (0 <= calculated_risk a + adj ->
      final_churn_probability a
      == Qmax 0 (Qmin (calculated_risk a + adj) 100)
      /\ 0 <= final_churn_probability a)
  /\ (0 <= base_churn_risk u ->
      Forall (fun tr => 0 <= impact tr) (frustration_triggers u) ->
      Forall (fun e => 0 <= get (severity e) 1) evs ->
      0 <= calculated_risk a
      /\ (0 <= adj -> 0 <= final_churn_probability a <= 100)).
Proof.
  intros H.
  destruct (calculate_churn_final _ _ _ _ _ H) as (_ & Hle & _).
  split; [exact Hle|]. split.
  - intros Hpos.
    destruct (calculate_churn_clamp_nonneg _ _ _ _ _ H Hpos) as [Hc [H0 _]].
    split; [exact Hc | exact H0].
  - intros Hbase Himp Hsev.
    pose proof (calculated_risk_nonneg _ _ _ _ _ Hbase Himp Hsev H) as Hcalc.
    split; [exact Hcalc|]. intros Hadj.
    assert (Hpos : 0 <= calculated_risk a + adj) by lra.
    destruct (calculate_churn_clamp_nonneg _ _ _ _ _ H Hpos) as [_ Hb].
    exact Hb.
Qed.

Lemma final_churn_bounds_witness :
  exists a,
    calculate_churn (__init__ commuter) [long_wait; mild_retry] no_context 5
    = Ok a
    /\ 0 <= final_churn_probability a <= 100.
Proof.
  destruct (calculate_churn_total (__init__ commuter) [long_wait; mild_retry]
              no_context 5) as [a Ha]; [repeat constructor; discriminate|].
  exists a. split; [exact Ha|].
  destruct (final_churn_bounds _ _ _ _ _ Ha) as (_ & _ & Hin).
  apply Hin.
  - discriminate.
  - repeat constructor; discriminate.
  - repeat constructor; discriminate.
  - discriminate.
Defined.

(** X2.  For a calculator built from a user, whatever analysis is
    returned adds up: the base risk is the user's, the formula risk is the
    base risk plus the sum of the listed contributions, the multiplier is
    the one of the user's patience level, and the calculated risk is their
    product. *)
Theorem churn_breakdown_adds_up (u : VirtualUser)
        (evs : list FrustrationEvent) (ctx : Context) (adj : Q)
        (a : ChurnAnalysis) :
  calculate_churn (__init__ u) evs ctx adj = Ok a ->
  base_risk a = base_churn_risk u
  /\ formula_risk a
     == base_risk a + Py.sum (map snd (frustration_events a))
  /\ patience_multiplier a = PATIENCE_MULTIPLIERS (patience_level u)
  /\ calculated_risk a == formula_risk a * patience_multiplier a
  /\ (List.length evs <= List.length (frustration_events a)
      <= List.length evs + List.length (frustration_triggers u))%nat.
Proof.
  unfold calculate_churn. cbn [__init__ user self_patience_multiplier].
  pose proof (events_loop_entries evs 0 []) as [Hd Ha].
  destruct (events_loop 0 [] evs) as [fr det]. cbn [fst snd] in Hd, Ha.
  destruct (triggers_loop evs fr det (frustration_triggers u))
    as [[fr' det']|e] eqn:Et; cbn [Py.bind]; [|discriminate].
  intros H. injection H as <-.
  cbn [base_risk formula_risk frustration_events patience_multiplier
       calculated_risk].
  destruct (triggers_loop_entries _ _ _ _ _ _ Et) as (added & -> & Hacc).
  pose proof (triggers_loop_length _ _ _ _ _ _ Et) as Hlen.
  rewrite length_app in Hlen.
  split; [reflexivity|]. split.
  { rewrite Hacc, Ha, Hd. cbn [List.app]. rewrite map_app, sum_app.
    unfold contribution. ring. }
  split; [reflexivity|]. split; [reflexivity|].
  rewrite length_app. subst det. cbn [List.app] in *.
  rewrite !length_map in Hlen. rewrite length_map. exact Hlen.
Qed.

Lemma churn_breakdown_adds_up_witness :
  exists a,
    calculate_churn (__init__ commuter) [long_wait; mild_retry]
      (after_seconds 45) 0 = Ok a
    /\ formula_risk a
       == base_risk a + Py.sum (map snd (frustration_events a))
    /\ calculated_risk a == formula_risk a * patience_multiplier a.
Proof.
  destruct (calculate_churn_total (__init__ commuter) [long_wait; mild_retry]
              (after_seconds 45) 0) as [a Ha];
    [repeat constructor; discriminate|].
  exists a. split; [exact Ha|].
  destruct (churn_breakdown_adds_up _ _ _ _ _ Ha) as (_ & H1 & _ & H2 & _).
  split; assumption.
Defined.

(** X3.  The calculator raises nothing but [KeyError], and only
    through the subscript [e["event"]] of the trigger loop: a user without
    triggers, or a list of events that all carry the key, always gets an
    analysis; a user with a trigger and a first event without the key
    gets [KeyError], although the first loop read the same event with a
    default. *)
Theorem calculate_churn_raises_only_key_error :
  (forall self evs ctx adj x,
      calculate_churn self evs ctx adj = Raise x -> x = KeyError)
  /\ (forall self evs ctx adj,
        frustration_triggers (user self) = [] ->
        exists a, calculate_churn self evs ctx adj = Ok a)
  /\ (forall self evs ctx adj,
        Forall (fun e => event e <> None) evs ->
        exists a, calculate_churn self evs ctx adj = Ok a)
  /\ (forall self e evs tr ts ctx adj,
        event e = None ->
        frustration_triggers (user self) = tr :: ts ->
        calculate_churn self (e :: evs) ctx adj = Raise KeyError).
Proof.
  split.
  { intros self evs ctx adj x. unfold calculate_churn.
    destruct (events_loop 0 [] evs) as [fr det].
    assert (Hk : forall ts acc d y,
               triggers_loop evs acc d ts = Raise y -> y = KeyError).
    { induction ts as [|tr r IH]; intros acc d y; cbn [triggers_loop].
      - discriminate.
      - destruct (any_event_is (trigger tr) evs) as [[|]|e] eqn:E;
          cbn [Py.bind]; try apply IH.
        intros H. injection H as <-. clear - E.
        induction evs as [|ev r IH]; simpl in E; [discriminate|].
        destruct (event ev) as [n|]; [|congruence].
        destruct (String.eqb n (trigger tr)); [discriminate | auto]. }
    destruct (triggers_loop evs fr det (frustration_triggers (user self)))
      as [[fr' det']|e] eqn:Et; cbn [Py.bind]; [discriminate|].
    intros H. injection H as <-. eapply Hk, Et. }
  split.
  { intros self evs ctx adj Hnil. unfold calculate_churn. rewrite Hnil.
    destruct (events_loop 0 [] evs) as [fr det]. cbn. eauto. }
  split; [intros; apply calculate_churn_total; assumption|].
  intros self e evs tr ts ctx adj He Hts. unfold calculate_churn.
  rewrite Hts. destruct (events_loop 0 [] (e :: evs)) as [fr det].
  cbn [triggers_loop any_event_is]. rewrite He. reflexivity.
Qed.

Lemma calculate_churn_raises_only_key_error_witness :
  event {| event := None; severity := Some 2 |} = None
  /\ calculate_churn (__init__ commuter)
       [ {| event := None; severity := Some 2 |} ] no_context 0
     = Raise KeyError
  /\ exists a,
       calculate_churn (__init__ patient_user)
         [ {| event := None; severity := Some 2 |} ] no_context 0 = Ok a.
Proof.
  destruct calculate_churn_raises_only_key_error as (_ & Hnone & _ & Hkey).
  split; [reflexivity|]. split.
  - eapply Hkey; reflexivity.
  - apply Hnone. reflexivity.
Defined.

(** X4.  The entries of the decomposition always account for
    the supplied total to within 0.1.  Either they sum to the total
    exactly, or there is no other_context entry among them. *)
Theorem adjustments_account_for_total (ctx : Context) (total : Q) :
  let adjustments := _parse_ai_adjustments ctx total in
  Qabs (total - Py.sum (map snd adjustments)) <= 0.1
  /\ (Py.sum (map snd adjustments) == total
      \/ ~ In "other_context" (map fst adjustments)).
Proof.
  cbv zeta. unfold _parse_ai_adjustments. cbv zeta.
  match goal with
  | |- context [if Qlt_le_dec _ _ then append ?l _ else _] =>
      set (named := l)
  end.
  match goal with
  | |- context [Qlt_le_dec ?c ?d] =>
      destruct (Qlt_le_dec c d) as [Hgt|Hle]
  end.
  - assert (Hs : Py.sum
                   (map snd
                      (append named
                         ("other_context",
                          total - Py.sum (map snd named)))) == total).
    { unfold append. rewrite map_app, sum_app. cbn [map snd].
      rewrite sum_cons. change (Py.sum []) with 0. ring. }
    split; [|left; exact Hs].
    rewrite Hs. setoid_replace (total - total) with 0 by ring.
    discriminate.
  - split; [exact Hle|]. right. subst named.
    repeat match goal with
           | |- context [if ?b then _ else _] => destruct b
           end;
      cbn; intuition discriminate.
Qed.

(** *** More events, more risk *)

Lemma any_event_is_app (name n : string) (e : FrustrationEvent)
      (evs : list FrustrationEvent) (b : bool) :
  event e = Some n ->
  any_event_is name evs = Ok b ->
  any_event_is name (List.app evs [e]) = Ok (b || String.eqb n name).
Proof.
  intros He. revert b. induction evs as [|x r IH]; intros b; simpl.
  - intros H. injection H as <-. rewrite He.
    destruct (String.eqb n name); reflexivity.
  - destruct (event x) as [m|]; [|discriminate].
    destruct (String.eqb m name); [|apply IH].
    intros H. injection H as <-. reflexivity.
Qed.

Lemma triggers_loop_mono (evs : list FrustrationEvent) (e : FrustrationEvent)
      (n : string) (ts : list FrustrationTrigger) :
  event e = Some n ->
  Forall (fun tr => 0 <= impact tr) ts ->
  forall acc1 acc2 d1 d2 acc1' d1',
    acc1 <= acc2 ->
    triggers_loop evs acc1 d1 ts = Ok (acc1', d1') ->
    exists acc2' d2',
      triggers_loop (List.app evs [e]) acc2 d2 ts = Ok (acc2', d2')
      /\ acc1' <= acc2'.
Proof.
  intros He Himp. induction Himp as [|tr r Htr _ IH];
    intros acc1 acc2 d1 d2 acc1' d1' Hle; cbn [triggers_loop].
  - intros H. injection H as <- <-. eauto.
  - destruct (any_event_is (trigger tr) evs) as [b|x] eqn:E;
      cbn [Py.bind]; [|discriminate].
    rewrite (any_event_is_app _ _ _ _ _ He E). cbn [Py.bind].
    destruct b; cbn [orb].
    + apply IH. lra.
    + destruct (String.eqb n (trigger tr)); apply IH; lra.
Qed.

Lemma calculate_churn_append_mono (u : VirtualUser)
        (evs : list FrustrationEvent) (e : FrustrationEvent) (n : string)
        (ctx : Context) (adj : Q) (a : ChurnAnalysis) :
  event e = Some n ->
  0 <= get (severity e) 1 ->
  Forall (fun tr => 0 <= impact tr) (frustration_triggers u) ->
  calculate_churn (__init__ u) evs ctx adj = Ok a ->
  exists a',
    calculate_churn (__init__ u) (List.app evs [e]) ctx adj = Ok a'
    /\ final_churn_probability a <= final_churn_probability a'.
Proof.
  intros He Hsev Himp. unfold calculate_churn.
  cbn [__init__ user self_patience_multiplier].
  pose proof (events_loop_entries evs 0 []) as [_ H1].
  pose proof (events_loop_entries (List.app evs [e]) 0 []) as [_ H2].
  destruct (events_loop 0 [] evs) as [fr1 det1].
  destruct (events_loop 0 [] (List.app evs [e])) as [fr2 det2].
  cbn [fst] in H1, H2.
  assert (Hfr : fr1 <= fr2).
  { rewrite H1, H2, !map_app, sum_app. cbn [map]. rewrite sum_cons.
    change (Py.sum []) with 0.
    assert (0 <= snd (event_risk e)).
    { unfold event_risk. cbn [snd]. apply Qmult_le_0_compat;
        [apply Qlt_le_weak, weights_pos | exact Hsev]. }
    unfold contribution in *. lra. }
  destruct (triggers_loop evs fr1 det1 (frustration_triggers u))
    as [[fr1' det1']|x] eqn:Et; cbn [Py.bind]; [|discriminate].
  intros H. injection H as <-.
  destruct (triggers_loop_mono evs e n _ He Himp _ _ _ det2 _ _ Hfr Et)
    as (fr2' & det2' & -> & Hle).
  cbn [Py.bind]. eexists. split; [reflexivity|].
  cbn [final_churn_probability]. unfold Py.min.
  apply Q.min_le_compat_r. apply Qplus_le_compat; [|apply Qle_refl].
  apply Qmult_le_compat_r;
    [lra | apply Qlt_le_weak, patience_multiplier_pos].
Qed.

(** X5.  For a calculator built from a user whose triggers all
    have a non-negative impact: when an analysis is returned for a list of
    events, one is returned too after one more event that carries its name
    and a non-negative severity, and its probability is not lower. *)
Theorem more_events_never_lower_churn (u : VirtualUser)
        (evs : list FrustrationEvent) (e : FrustrationEvent) (n : string)
        (ctx : Context) (adj : Q) (a : ChurnAnalysis) :
  event e = Some n ->
  0 <= get (severity e) 1 ->
  Forall (fun tr => 0 <= impact tr) (frustration_triggers u) ->
  calculate_churn (__init__ u) evs ctx adj = Ok a ->
  exists a',
    calculate_churn (__init__ u) (List.app evs [e]) ctx adj = Ok a'
    /\ final_churn_probability a <= final_churn_probability a'.
Proof. apply calculate_churn_append_mono. Qed.

(** The context only feeds the decomposition: it changes neither whether
    an analysis is returned nor its probability. *)
Lemma calculate_churn_any_context (self : ChurnCalculator.t)
      (evs : list FrustrationEvent) (ctx ctx' : Context) (adj : Q)
      (a : ChurnAnalysis) :
  calculate_churn self evs ctx adj = Ok a ->
  exists a',
    calculate_churn self evs ctx' adj = Ok a'
    /\ final_churn_probability a' = final_churn_probability a.
Proof.
  unfold calculate_churn.
  destruct (events_loop 0 [] evs) as [fr det].
  destruct (triggers_loop evs fr det (frustration_triggers (user self)))
    as [[fr' det']|x]; cbn [Py.bind]; [|discriminate].
  intros H. injection H as <-. eexists. split; reflexivity.
Qed.

Lemma more_events_never_lower_churn_witness :
  exists a a',
    calculate_churn (__init__ commuter) [long_wait] no_context 0 = Ok a
    /\ calculate_churn (__init__ commuter) [long_wait; mild_retry]
         no_context 0 = Ok a'
    /\ final_churn_probability a <= final_churn_probability a'.
Proof.
  destruct (calculate_churn_total (__init__ commuter) [long_wait] no_context
              0) as [a Ha]; [repeat constructor; discriminate|].
  destruct (more_events_never_lower_churn commuter [long_wait] mild_retry
              "retry_required" no_context 0 a) as (a' & Ha' & Hle).
  - reflexivity.
  - discriminate.
  - repeat constructor. discriminate.
  - exact Ha.
  - exists a, a'. auto.
Defined.

(** X6.  On whole-number probabilities the table has no holes: 0 to
    30 is LOW, 31 to 50 MEDIUM, 51 to 75 HIGH, and 76 upwards CRITICAL, as
    is every negative number.  Any probability below 0 or above 100 falls
    through to CRITICAL. *)
Theorem risk_level_of_whole_numbers :
  (forall n : Z,
      ((0 <= n <= 30)%Z -> _get_risk_level (inject_Z n) = "LOW")
      /\ ((31 <= n <= 50)%Z -> _get_risk_level (inject_Z n) = "MEDIUM")
      /\ ((51 <= n <= 75)%Z -> _get_risk_level (inject_Z n) = "HIGH")
      /\ ((76 <= n \/ n < 0)%Z -> _get_risk_level (inject_Z n) = "CRITICAL"))
  /\ (forall p : Q, p < 0 \/ 100 < p -> _get_risk_level p = "CRITICAL").
Proof.
  split.
  - intros n. repeat split; intros H; rewrite _get_risk_level_rows;
      repeat match goal with
             | |- context [Qle_bool ?a ?b] =>
                 let E := fresh "E" in
                 destruct (Qle_bool a b) eqn:E;
                 [apply Qle_bool_iff in E
                 |apply not_true_iff_false in E; rewrite Qle_bool_iff in E]
             end;
      cbn [andb]; try reflexivity; exfalso;
      unfold Qle, inject_Z in *; simpl in *; lia.
  - intros p H. rewrite _get_risk_level_rows.
    repeat match goal with
           | |- context [Qle_bool ?a ?b] =>
               let E := fresh "E" in
               destruct (Qle_bool a b) eqn:E;
               [apply Qle_bool_iff in E
               |apply not_true_iff_false in E; rewrite Qle_bool_iff in E]
           end;
      cbn [andb]; try reflexivity; exfalso; destruct H; lra.
Qed.

Lemma risk_level_of_whole_numbers_witness :
  _get_risk_level (inject_Z 30) = "LOW"
  /\ _get_risk_level (inject_Z 31) = "MEDIUM"
  /\ _get_risk_level (inject_Z 75) = "HIGH"
  /\ _get_risk_level (inject_Z 76) = "CRITICAL"
  /\ _get_risk_level (-(1 # 2)) = "CRITICAL".
Proof.
  destruct risk_level_of_whole_numbers as [Hz Hq].
  split; [apply (Hz 30%Z); lia|].
  split; [apply (Hz 31%Z); lia|].
  split; [apply (Hz 75%Z); lia|].
  split; [apply (Hz 76%Z); lia|].
  apply Hq. left. reflexivity.
Defined.

(** *** The label and the sentence *)

Lemma calculate_churn_reasoning (self : ChurnCalculator.t)
      (evs : list FrustrationEvent) (ctx : Context) (adj : Q)
      (a : ChurnAnalysis) :
  calculate_churn self evs ctx adj = Ok a ->
  risk_level a = _get_risk_level (final_churn_probability a)
  /\ reasoning a
     = _generate_reasoning (final_churn_probability a)
         (frustration_events a) (ai_adjustments a).
Proof.
  unfold calculate_churn.
  destruct (events_loop 0 [] evs) as [fr det].
  destruct (triggers_loop evs fr det (frustration_triggers (user self)))
    as [[fr' det']|e]; cbn [Py.bind]; [|discriminate].
  intros H. injection H as <-. split; reflexivity.
Qed.

Ltac decide_bands :=
  repeat match goal with
         | |- context [Qle_bool ?a ?b] =>
             let E := fresh "E" in
             destruct (Qle_bool a b) eqn:E;
             [apply Qle_bool_iff in E
             |apply not_true_iff_false in E; rewrite Qle_bool_iff in E]
         | |- context [Qlt_le_dec ?a ?b] => destruct (Qlt_le_dec a b)
         end;
  cbn [andb]; try reflexivity; try (exfalso; lra).

(** X7.  The level and the opening sentence of the reasoning are cut
    at different places.  They name the same band when the probability is
    in [0,30), [31,50), [51,75) or from 76 upwards; at exactly 30, 50 and
    75 the level is still the lower band while the sentence already names
    the next one. *)
Theorem level_and_reasoning_bands (self : ChurnCalculator.t)
        (evs : list FrustrationEvent) (ctx : Context) (adj : Q)
        (a : ChurnAnalysis) :
  calculate_churn self evs ctx adj = Ok a ->
  let p := final_churn_probability a in
  (0 <= p < 30 ->
   risk_level a = "LOW" /\ prefix "Low churn risk." (reasoning a) = true)
  /\ (31 <= p < 50 ->
      risk_level a = "MEDIUM"
      /\ prefix "Medium churn risk." (reasoning a) = true)
  /\ (51 <= p < 75 ->
      risk_level a = "HIGH"
      /\ prefix "High churn risk." (reasoning a) = true)
  /\ (76 <= p ->
      risk_level a = "CRITICAL"
      /\ prefix "Critical churn risk." (reasoning a) = true)
  /\ (p == 30 ->
      risk_level a = "LOW"
      /\ prefix "Medium churn risk." (reasoning a) = true)
  /\ (p == 50 ->
      risk_level a = "MEDIUM"
      /\ prefix "High churn risk." (reasoning a) = true)
  /\ (p == 75 ->
      risk_level a = "HIGH"
      /\ prefix "Critical churn risk." (reasoning a) = true).
Proof.
  intros H. apply calculate_churn_reasoning in H. destruct H as [-> ->].
  cbv zeta. generalize (final_churn_probability a) as p.
  generalize (frustration_events a) as events.
  generalize (ai_adjustments a) as adjustments. clear.
  intros adjustments events p.
  repeat match goal with |- _ /\ _ => split end;
    intros Hp;
    match type of Hp with
    | _ /\ _ => destruct Hp as [Hlo Hhi]
    | _ => idtac
    end;
    (split;
     [rewrite _get_risk_level_rows; decide_bands
     |unfold _generate_reasoning; cbv zeta; decide_bands]).
Qed.

Lemma level_and_reasoning_bands_witness :
  exists a,
    calculate_churn (__init__ commuter) [long_wait] no_context (-10) = Ok a
    /\ final_churn_probability a == 50
    /\ risk_level a = "MEDIUM"
    /\ prefix "High churn risk." (reasoning a) = true.
Proof.
  destruct (calculate_churn_total (__init__ commuter) [long_wait] no_context
              (-10)) as [a Ha]; [repeat constructor; discriminate|].
  assert (Hp : final_churn_probability a == 50).
  { pose proof Ha as Hc. vm_compute in Hc. injection Hc as <-. reflexivity. }
  exists a. split; [exact Ha|]. split; [exact Hp|].
  destruct (level_and_reasoning_bands _ _ _ _ _ Ha)
    as (_ & _ & _ & _ & _ & H50 & _).
  apply H50, Hp.
Defined.

(** *** The shared weight table *)

Lemma weights_set_get (weights : list (string * Q)) (k : string) (v d : Q) :
  dict_get (weights_set weights k v) k d = v.
Proof.
  induction weights as [|[k' v'] r IH]; simpl.
  - rewrite String.eqb_refl. reflexivity.
  - destruct (String.eqb k' k) eqn:E; simpl; rewrite E; auto.
Qed.

Lemma weights_set_get_other (weights : list (string * Q)) (k k2 : string)
      (v d : Q) :
  k2 <> k ->
  dict_get (weights_set weights k v) k2 d = dict_get weights k2 d.
Proof.
  intros Hne. induction weights as [|[k' v'] r IH]; simpl.
  - destruct (String.eqb k k2) eqn:E; [|reflexivity].
    apply String.eqb_eq in E. congruence.
  - destruct (String.eqb k' k) eqn:E; simpl.
    + apply String.eqb_eq in E. subst k'.
      destruct (String.eqb k k2) eqn:E2; [|reflexivity].
      apply String.eqb_eq in E2. congruence.
    + destruct (String.eqb k' k2); [reflexivity | exact IH].
Qed.

Lemma events_loop_in_declared (evs : list FrustrationEvent) :
  forall acc details,
    events_loop_in FRUSTRATION_WEIGHTS acc details evs
    = events_loop acc details evs.
Proof.
  induction evs as [|e r IH]; intros acc details; simpl.
  - reflexivity.
  - apply IH.
Qed.

(** X8.  Writing a custom weight and reading it back: afterwards an
    event of that name contributes the new weight times its severity,
    whether the name was in the table or not; every other event
    contributes what it did before; the table keeps its length when the
    name was there and grows by one entry otherwise.  On the table as
    declared the calculator is [calculate_churn]. *)
Theorem custom_weight_round_trip (weights : list (string * Q))
        (event_name : string) (weight : Q) :
  let weights' := add_custom_frustration_weight weights event_name weight in
  (forall e,
      event e = Some event_name ->
      event_risk_in weights' e
      = (event_name, weight * get (severity e) 1))
  /\ (forall e,
        get (event e) "" <> event_name ->
        event_risk_in weights' e = event_risk_in weights e)
  /\ (forall d, dict_get weights' event_name d = weight)
  /\ (In event_name (map fst weights) ->
      map fst weights' = map fst weights)
  /\ (~ In event_name (map fst weights) ->
      map fst weights' = List.app (map fst weights) [event_name])
  /\ (forall self evs ctx adj,
        calculate_churn_in FRUSTRATION_WEIGHTS self evs ctx adj
        = calculate_churn self evs ctx adj).
Proof.
  cbv zeta. unfold add_custom_frustration_weight.
  split.
  { intros e He. unfold event_risk_in. rewrite He. cbn [get].
    rewrite weights_set_get. reflexivity. }
  split.
  { intros e Hne. unfold event_risk_in.
    rewrite weights_set_get_other by exact Hne. reflexivity. }
  split; [intros d; apply weights_set_get|].
  split.
  { induction weights as [|[k v] r IH]; simpl; [tauto|].
    intros Hin. destruct (String.eqb k event_name) eqn:E; simpl.
    - reflexivity.
    - f_equal. apply IH. destruct Hin as [->|Hin]; [|exact Hin].
      rewrite String.eqb_refl in E. discriminate. }
  split.
  { induction weights as [|[k v] r IH]; simpl; [reflexivity|].
    intros Hnin. destruct (String.eqb k event_name) eqn:E; simpl.
    - apply String.eqb_eq in E. tauto.
    - f_equal. apply IH. tauto. }
  intros self evs ctx adj. unfold calculate_churn_in, calculate_churn.
  rewrite events_loop_in_declared. reflexivity.
Qed.

Lemma custom_weight_round_trip_witness :
  event_risk_in
    (add_custom_frustration_weight FRUSTRATION_WEIGHTS "surge_pricing" 45)
    {| event := Some "surge_pricing"; severity := Some 2 |}
  = ("surge_pricing", 45 * 2)
  /\ event_risk_in
       (add_custom_frustration_weight FRUSTRATION_WEIGHTS "surge_pricing" 45)
       long_wait
     = event_risk_in FRUSTRATION_WEIGHTS long_wait.
Proof.
  destruct (custom_weight_round_trip FRUSTRATION_WEIGHTS "surge_pricing" 45)
    as (Hsame & Hother & _).
  split.
  - apply (Hsame {| event := Some "surge_pricing"; severity := Some 2 |}).
    reflexivity.
  - apply Hother. discriminate.
Defined.

End ChurnFurther.

(** * Further properties of the market reach estimator *)

Section MarketFurther.

Import App App.MarketSizingEngine.

Lemma map_string_app (f : ascii -> ascii) (a b : string) :
  map_string f (a ++ b) = map_string f a ++ map_string f b.
Proof.
  induction a as [|c r IH]; simpl; [reflexivity|]. rewrite IH. reflexivity.
Qed.

Lemma first_category_known (cats : list (string * list string))
      (text : string) :
  In (first_category cats text) (List.app (map fst cats) ["default"]).
Proof.
  induction cats as [|[category keywords] r IH]; simpl.
  - auto.
  - destruct (any (fun keyword => contains keyword text) keywords);
      [left; reflexivity | right; exact IH].
Qed.

Lemma int_lower (k : Z) (x : Q) : inject_Z k <= x -> (k <= Py.int x)%Z.
Proof.
  intros H. unfold Py.int. apply Z.quot_le_lower_bound; [lia|].
  unfold Qle in H. simpl in H. lia.
Qed.

Lemma int_upper (k : Z) (x : Q) :
  0 <= x -> x <= inject_Z k -> (Py.int x <= k)%Z.
Proof.
  intros H0 H. unfold Py.int.
  unfold Qle in H0, H. simpl in H0, H.
  apply Z.quot_le_upper_bound; lia.
Qed.

Lemma active_users_range (category : string) :
  (5000000
   <= active_users (dict_get MARKET_DATA category default_market)
   <= 300000000)%Z.
Proof.
  unfold MARKET_DATA. cbn [dict_get].
  repeat match goal with
         | |- context [if ?b then _ else _] => destruct b
         end; simpl; lia.
Qed.

Lemma penetration_rate_floor (f c : Z) (s : string) :
  0.056 <= _calculate_penetration_rate f c s.
Proof.
  rewrite _calculate_penetration_rate_eq.
  apply Q.min_glb; [|discriminate].
  unfold Spec.base_rate, Spec.comment_multiplier, Spec.severity_multiplier.
  repeat match goal with
         | |- context [if ?b then _ else _] => destruct b
         end; vm_compute; discriminate.
Qed.

(** X9.  The category found is always one that [MARKET_DATA] has
    an entry for, so the lookup never needs its default; and only the
    lower-cased text counts: two pairs of texts that are equal up to the
    case of their letters get the same category. *)
Theorem market_category_known_and_caseless :
  (forall problem_statement target_users,
      In (identify_market_category problem_statement target_users)
         (map fst MARKET_DATA))
  /\ (forall ps tu ps' tu',
        lower ps = lower ps' -> lower tu = lower tu' ->
        identify_market_category ps tu = identify_market_category ps' tu').
Proof.
  split.
  - intros ps tu. unfold identify_market_category. cbv zeta.
    pose proof (first_category_known category_keywords
                  (lower (ps ++ " " ++ tu))) as H.
    cbn in H. cbn. tauto.
  - intros ps tu ps' tu' H1 H2. unfold identify_market_category, lower.
    cbv zeta. rewrite !map_string_app. unfold lower in H1, H2.
    rewrite H1, H2. reflexivity.
Qed.

Lemma market_category_known_and_caseless_witness :
  identify_market_category "Booking a CAB is hard" "Commuters"
  = identify_market_category "booking a cab is hard" "commuters".
Proof.
  destruct market_category_known_and_caseless as [_ H].
  apply H; reflexivity.
Defined.

(** X10.  The estimated reach is always positive, never more than
    half of the active users of the category found, and hence never above
    150,000,000. *)
Theorem estimate_reach_bounds (problem_statement target_users : string)
        (frequency num_comments : Z) (severity : string) :
  let reach :=
    estimate_reach problem_statement target_users frequency num_comments
      severity in
  let market :=
    dict_get MARKET_DATA
      (identify_market_category problem_statement target_users)
      default_market in
  (0 < reach <= 150000000)%Z
  /\ (2 * reach <= active_users market)%Z.
Proof.
  cbv zeta. unfold estimate_reach. cbv zeta.
  set (market := dict_get MARKET_DATA _ default_market).
  pose proof (active_users_range
                (identify_market_category problem_statement target_users))
    as Hu. fold market in Hu.
  pose proof (penetration_rate_floor frequency num_comments severity) as Hlo.
  pose proof (_calculate_penetration_rate_eq frequency num_comments severity)
    as Heq.
  assert (Hhi : _calculate_penetration_rate frequency num_comments severity
                <= 1 # 2).
  { rewrite Heq. eapply Qle_trans; [apply Q.le_min_r | discriminate]. }
  set (pen := _calculate_penetration_rate frequency num_comments severity)
    in *.
  set (users := active_users market) in *.
  assert (Hu0 : 0 <= inject_Z users)
    by (rewrite <- (Zle_Qle 0); lia).
  assert (Hu5 : inject_Z 5000000 <= inject_Z users)
    by (rewrite <- Zle_Qle; lia).
  assert (Hlow : (280000 <= Py.int (inject_Z users * pen))%Z).
  { apply int_lower.
    apply Qle_trans with (inject_Z 5000000 * 0.056); [discriminate|].
    apply Qle_trans with (inject_Z users * 0.056).
    - apply Qmult_le_compat_r; [exact Hu5 | discriminate].
    - rewrite !(Qmult_comm (inject_Z users)).
      apply Qmult_le_compat_r; assumption. }
  assert (Hhalf : (2 * Py.int (inject_Z users * pen) <= users)%Z).
  { assert (Hx : inject_Z users * pen <= inject_Z users * (1 # 2)).
    { rewrite !(Qmult_comm (inject_Z users)).
      apply Qmult_le_compat_r; assumption. }
    assert (H0 : 0 <= inject_Z users * pen).
    { apply Qmult_le_0_compat; [exact Hu0|].
      eapply Qle_trans; [|exact Hlo]. discriminate. }
    unfold Py.int.
    set (x := inject_Z users * pen) in *. clearbody x.
    assert (Hq : (0 <= Qnum x)%Z)
      by (unfold Qle in H0; simpl in H0; lia).
    assert (Hd : (2 * Qnum x <= users * Zpos (Qden x))%Z).
    { unfold Qle in Hx. simpl in Hx. lia. }
    pose proof (Z.mul_quot_le (Qnum x) (Zpos (Qden x)) Hq) as Hm.
    assert (Hm' : (Zpos (Qden x) * (Qnum x ÷ Zpos (Qden x)) <= Qnum x)%Z)
      by (apply Hm; lia).
    nia. }
  split; [split; lia | exact Hhalf].
Qed.

End MarketFurther.

(** * Further properties of the prioritization engine *)

Section PrioritizationFurther.

Import App App.PrioritizationService Examples.

(** *** Rounding to two decimals *)

Lemma round2_mono (x y : Q) : x <= y -> round2 x <= round2 y.
Proof.
  intros Hxy.
  assert (Hxy' : x * 100 <= y * 100)
    by (apply Qmult_le_compat_r; [exact Hxy | discriminate]).
  pose proof (Qfloor_resp_le _ _ Hxy') as Hfl.
  unfold round2. cbv zeta.
  set (f := Qfloor (x * 100)) in *. set (g := Qfloor (y * 100)) in *.
  assert (Hle : forall a b : Z, (a <= b)%Z -> a # 100 <= b # 100)
    by (intros a b Hab; unfold Qle; simpl; lia).
  destruct (Z.eq_dec f g) as [Efg|Nfg].
  - rewrite <- Efg.
    destruct (x * 100 - inject_Z f ?= 1 # 2) eqn:Ex;
      destruct (y * 100 - inject_Z f ?= 1 # 2) eqn:Ey;
      try (apply Hle; destruct (Z.even f); lia);
      exfalso;
      repeat match goal with
             | H : (_ ?= _) = Eq |- _ => apply Qeq_alt in H
             | H : (_ ?= _) = Lt |- _ => apply Qlt_alt in H
             | H : (_ ?= _) = Gt |- _ => apply Qgt_alt in H
             end; lra.
  - apply Hle.
    destruct (x * 100 - inject_Z f ?= 1 # 2);
      destruct (y * 100 - inject_Z g ?= 1 # 2);
      destruct (Z.even f); destruct (Z.even g); lia.
Qed.

Lemma round2_whole (k : Z) : round2 (inject_Z k) == inject_Z k.
Proof.
  unfold round2. cbv zeta.
  assert (Hf : Qfloor (inject_Z k * 100) = (k * 100)%Z).
  { change 100 with (inject_Z 100). rewrite <- inject_Z_mult.
    apply Qfloor_Z. }
  rewrite Hf.
  assert (Hc : (inject_Z k * 100 - inject_Z (k * 100) ?= 1 # 2) = Lt).
  { apply Qlt_alt. change 100 with (inject_Z 100).
    rewrite <- inject_Z_mult. setoid_replace
      (inject_Z (k * 100) - inject_Z (k * 100)) with 0 by ring.
    reflexivity. }
  rewrite Hc. unfold Qeq. simpl. lia.
Qed.

(** *** The final score *)

Lemma final_score_linear (log10 : Q -> Q) (j : JTBDScore.t)
      (r : RICEScore.t) (p : PersonaAlignment.t) :
  _calculate_final_score log10 j r p
  = round2
      (2 * JTBDScore.opportunity_score j
       + (2 # 5)
         * Py.min (log10 (Py.max (RICEScore.rice_score r) 1) * 20) 100
       + 2 * PersonaAlignment.weight p).
Proof.
  unfold _calculate_final_score. cbv zeta. apply round2_proper. field.
Qed.

(** X11.  With a logarithm that is non-negative and non-decreasing
    from 1 upwards: an opportunity score in [0,20] and an alignment weight
    in [0,10] give a final score in [0,100], whatever the RICE score; and
    the final score never decreases when one of the three inputs grows
    and the other two stay. *)
Theorem final_score_range_and_monotone (log10 : Q -> Q) :
  (forall x, 1 <= x -> 0 <= log10 x) ->
  (forall x y, 1 <= x -> x <= y -> log10 x <= log10 y) ->
  (forall j r p,
      0 <= JTBDScore.opportunity_score j <= 20 ->
      0 <= PersonaAlignment.weight p <= 10 ->
      0 <= _calculate_final_score log10 j r p <= 100)
  /\ (forall j1 j2 r p,
        JTBDScore.opportunity_score j1 <= JTBDScore.opportunity_score j2 ->
        _calculate_final_score log10 j1 r p
        <= _calculate_final_score log10 j2 r p)
  /\ (forall j r1 r2 p,
        RICEScore.rice_score r1 <= RICEScore.rice_score r2 ->
        _calculate_final_score log10 j r1 p
        <= _calculate_final_score log10 j r2 p)
  /\ (forall j r p1 p2,
        PersonaAlignment.weight p1 <= PersonaAlignment.weight p2 ->
        _calculate_final_score log10 j r p1
        <= _calculate_final_score log10 j r p2).
Proof.
  intros Hpos Hmono.
  assert (Hrice : forall r,
             0 <= Py.min (log10 (Py.max (RICEScore.rice_score r) 1) * 20) 100
             <= 100).
  { intros r. unfold Py.min, Py.max. split; [|apply Q.le_min_r].
    apply Q.min_glb; [|discriminate].
    apply Qmult_le_0_compat; [|discriminate].
    apply Hpos, Q.le_max_r. }
  split.
  { intros j r p [Hj0 Hj1] [Hp0 Hp1]. rewrite final_score_linear.
    destruct (Hrice r) as [Hr0 Hr1].
    set (m := Py.min _ 100) in *. clearbody m.
    split.
    - rewrite <- (round2_whole 0). apply round2_mono.
      change (inject_Z 0) with 0. lra.
    - rewrite <- (round2_whole 100). apply round2_mono.
      change (inject_Z 100) with 100. lra. }
  split.
  { intros j1 j2 r p H. rewrite !final_score_linear.
    apply round2_mono. set (m := Py.min _ 100). clearbody m. lra. }
  split.
  { intros j r1 r2 p H. rewrite !final_score_linear.
    apply round2_mono.
    assert (Hm : Py.min (log10 (Py.max (RICEScore.rice_score r1) 1) * 20) 100
                 <= Py.min (log10 (Py.max (RICEScore.rice_score r2) 1) * 20)
                      100).
    { unfold Py.min, Py.max. apply Q.min_le_compat_r.
      apply Qmult_le_compat_r; [|discriminate].
      apply Hmono; [apply Q.le_max_r | apply Q.max_le_compat_r, H]. }
    set (m1 := Py.min _ 100) in *. set (m2 := Py.min _ 100) in *.
    clearbody m1 m2. lra. }
  intros j r p1 p2 H. rewrite !final_score_linear.
  apply round2_mono. set (m := Py.min _ 100). clearbody m. lra.
Qed.

Lemma log10_step_pos (x : Q) : 1 <= x -> 0 <= log10_step x.
Proof.
  intros _. unfold log10_step. destruct (Qle_bool 10 x); discriminate.
Qed.

Lemma log10_step_mono (x y : Q) :
  1 <= x -> x <= y -> log10_step x <= log10_step y.
Proof.
  intros _ H. unfold log10_step.
  destruct (Qle_bool 10 x) eqn:Ex; destruct (Qle_bool 10 y) eqn:Ey;
    try discriminate.
  apply Qle_bool_iff in Ex. apply not_true_iff_false in Ey.
  rewrite Qle_bool_iff in Ey. exfalso. apply Ey. lra.
Qed.

Lemma final_score_range_and_monotone_witness :
  0 <= _calculate_final_score log10_step (default_jtbd cooking) sample_rice
         sample_alignment <= 100.
Proof.
  destruct (final_score_range_and_monotone log10_step log10_step_pos
              log10_step_mono) as (Hrange & _).
  apply Hrange; split; discriminate.
Defined.

(** *** Confidence and impact *)

(** X12.  The confidence never exceeds 1; with a number of
    sources that is not negative it is not negative either, and it never
    decreases when the frequency grows. *)
Theorem confidence_bounds_and_monotone :
  (forall frequency num_sources severity,
      _estimate_confidence frequency num_sources severity <= 1)
  /\ (forall frequency num_sources severity,
        (0 <= num_sources)%Z ->
        0 <= _estimate_confidence frequency num_sources severity)
  /\ (forall f1 f2 num_sources severity,
        (0 <= num_sources)%Z -> (f1 <= f2)%Z ->
        _estimate_confidence f1 num_sources severity
        <= _estimate_confidence f2 num_sources severity).
Proof.
  assert (Hsrc : forall n, (0 <= n)%Z ->
                           0 <= Py.min (inject_Z n / 3.0) 1.0).
  { intros n Hn. unfold Py.min. apply Q.min_glb; [|discriminate].
    apply Qle_shift_div_l; [reflexivity|]. rewrite Qmult_0_l.
    rewrite <- (Zle_Qle 0). exact Hn. }
  split.
  { intros f n s. unfold _estimate_confidence. cbv zeta. unfold Py.min at 1.
    eapply Qle_trans; [apply Q.le_min_r | discriminate]. }
  split.
  { intros f n s Hn. unfold _estimate_confidence. cbv zeta.
    unfold Py.min at 1. apply Q.min_glb; [|discriminate].
    specialize (Hsrc n Hn). set (m := Py.min _ 1.0) in *. clearbody m.
    repeat match goal with
           | |- context [if ?b then _ else _] => destruct b
           end; nra. }
  intros f1 f2 n s Hn Hf. unfold _estimate_confidence. cbv zeta.
  unfold Py.min at 1 3. apply Q.min_le_compat_r.
  specialize (Hsrc n Hn). set (m := Py.min _ 1.0) in *. clearbody m.
  apply Qplus_le_compat; [|apply Qle_refl].
  apply Qmult_le_compat_r; [|exact Hsrc].
  destruct (10 <=? f1)%Z eqn:A1; destruct (10 <=? f2)%Z eqn:A2;
    destruct (5 <=? f1)%Z eqn:B1; destruct (5 <=? f2)%Z eqn:B2;
    destruct (3 <=? f1)%Z eqn:C1; destruct (3 <=? f2)%Z eqn:C2;
    try (vm_compute; discriminate); exfalso; lia.
Qed.

Lemma confidence_bounds_and_monotone_witness :
  0 <= _estimate_confidence 2 2 "High"
  /\ _estimate_confidence 2 2 "High" <= _estimate_confidence 10 2 "High"
  /\ _estimate_confidence 10 2 "High" <= 1.
Proof.
  destruct confidence_bounds_and_monotone as (Hle & Hpos & Hmono).
  split; [apply Hpos; lia|]. split; [apply Hmono; lia | apply Hle].
Defined.

(** X13.  The impact never decreases when the importance grows, the
    severity and the quote being the same. *)
Theorem impact_monotone_in_importance (severity quote : string)
        (i1 i2 : Q) :
  i1 <= i2 ->
  _estimate_impact severity i1 quote <= _estimate_impact severity i2 quote.
Proof.
  intros H. unfold _estimate_impact. cbv zeta. unfold Py.min, Py.max.
  apply Q.min_le_compat_r, Q.max_le_compat_r.
  apply Qmult_le_compat_r.
  2:{ destruct (any _ blocking_words); discriminate. }
  assert (Hsev : 0 <= dict_get severity_map severity 1.0).
  { unfold severity_map. cbn [dict_get].
    repeat match goal with
           | |- context [if ?b then _ else _] => destruct b
           end; discriminate. }
  rewrite !(Qmult_comm (dict_get severity_map severity 1.0)).
  apply Qmult_le_compat_r; [|exact Hsev].
  destruct (Qle_bool 9.0 i1) eqn:A1; destruct (Qle_bool 9.0 i2) eqn:A2;
    destruct (Qle_bool 7.0 i1) eqn:B1; destruct (Qle_bool 7.0 i2) eqn:B2;
    try (vm_compute; discriminate); exfalso;
    repeat match goal with
           | H : Qle_bool _ _ = true |- _ => apply Qle_bool_iff in H
           | H : Qle_bool _ _ = false |- _ =>
               apply not_true_iff_false in H; rewrite Qle_bool_iff in H
           end; lra.
Qed.

Lemma impact_monotone_in_importance_witness :
  _estimate_impact "High" 6.5 "I can't find time to cook"
  <= _estimate_impact "High" 9.5 "I can't find time to cook".
Proof.
  apply impact_monotone_in_importance. discriminate.
Defined.

(** *** When a RICE record is returned *)



(** *** Who is affected *)

Lemma dict_set_keys (d : list (string * string)) (k v : string) :
  forall k2,
    In k2 (map fst (dict_set d k v)) <-> k2 = k \/ In k2 (map fst d).
Proof.
  induction d as [|[k' v'] r IH]; intros k2; simpl.
  - split; [intros [<-|[]]; auto | intros [->|[]]; auto].
  - destruct (String.eqb k' k) eqn:E; simpl.
    + apply String.eqb_eq in E. subst k'. intuition congruence.
    + rewrite IH. tauto.
Qed.

Lemma dict_set_nodup (d : list (string * string)) (k v : string) :
  NoDup (map fst d) -> NoDup (map fst (dict_set d k v)).
Proof.
  induction d as [|[k' v'] r IH]; simpl; intros H.
  - constructor; [tauto | constructor].
  - inversion H as [|? ? Hnin Hr]; subst.
    destruct (String.eqb k' k) eqn:E; simpl.
    + constructor; assumption.
    + constructor; [|apply IH, Hr].
      rewrite dict_set_keys. intros [->|Hin]; [|tauto].
      rewrite String.eqb_refl in E. discriminate.
Qed.

Lemma personas_loop_affected (description_lower : string)
      (personas : list Persona) :
  forall affected affinities affected' affinities',
    personas_loop description_lower affected affinities personas
    = (affected', affinities') ->
    affected'
    = List.app affected
        (map persona_name
           (filter (fun p => snd (affinity_of description_lower p))
              personas))
    /\ (NoDup (map fst affinities) -> NoDup (map fst affinities'))
    /\ (forall n,
          In n (map fst affinities')
          <-> In n (map fst affinities)
              \/ In n (map persona_name personas)).
Proof.
  induction personas as [|persona r IH];
    intros affected affinities affected' affinities'; cbn [personas_loop].
  - intros H. injection H as <- <-. rewrite app_nil_r.
    split; [reflexivity|]. split; [auto|]. intros n. simpl. tauto.
  - cbn [filter map].
    destruct (affinity_of description_lower persona) as [affinity hit].
    cbn [snd]. intros H. apply IH in H. destruct H as (Ha & Hn & Hk).
    split.
    { rewrite Ha. destruct hit; [|reflexivity].
      unfold append. rewrite <- app_assoc. reflexivity. }
    split; [intros Hd; apply Hn, dict_set_nodup, Hd|].
    intros n. rewrite Hk, dict_set_keys. cbn [map In].
    unfold persona_name. intuition (subst; auto).
Qed.

Lemma affinity_of_low (description_lower : string) (persona : Persona) :
  snd (affinity_of description_lower persona)
  = negb (String.eqb (fst (affinity_of description_lower persona)) "LOW").
Proof.
  unfold affinity_of. cbv zeta.
  repeat match goal with
         | |- context [if ?b then _ else _] => destruct b
         end; reflexivity.
Qed.

(** X15.  The personas listed as affected are, in order, those
    whose own affinity is not LOW; the affinities have one entry per
    distinct persona name, and no other. *)
Theorem affected_are_the_personas_above_low (pain_point : PainPoint)
        (personas : list Persona) (a : PersonaAlignment.t) :
  _calculate_persona_alignment pain_point personas = Ok a ->
  let description_lower := lower (get (description pain_point) "") in
  PersonaAlignment.affected_personas a
  = map persona_name
      (filter
         (fun p =>
            negb (String.eqb (fst (affinity_of description_lower p)) "LOW"))
         personas)
  /\ NoDup (map fst (PersonaAlignment.affinities a))
  /\ (forall n,
        In n (map fst (PersonaAlignment.affinities a))
        <-> In n (map persona_name personas)).
Proof.
  unfold _calculate_persona_alignment. destruct personas as [|p0 r] eqn:Ep.
  - cbn. intros H. injection H as <-. cbn.
    split; [reflexivity|]. split; [constructor | tauto].
  - rewrite <- Ep. clear Ep.
    destruct (personas_loop (lower (get (description pain_point) "")) [] []
                personas) as [affected affinities] eqn:Eloop.
    unfold PersonaAlignment.validate.
    match goal with |- context [if ?b then _ else _] => destruct b end;
      [|discriminate].
    intros H. injection H as <-. cbv zeta.
    cbn [PersonaAlignment.affected_personas PersonaAlignment.affinities].
    destruct (personas_loop_affected _ _ _ _ _ _ Eloop) as (Ha & Hn & Hk).
    split.
    + rewrite Ha. cbn [List.app]. f_equal. apply filter_ext.
      intros p. apply affinity_of_low.
    + split; [apply Hn; constructor|].
      intros n. rewrite Hk. cbn. tauto.
Qed.

Lemma affected_are_the_personas_above_low_witness :
  exists a,
    _calculate_persona_alignment cooking [asha; namesake; anonymous] = Ok a
    /\ PersonaAlignment.affected_personas a = []
    /\ NoDup (map fst (PersonaAlignment.affinities a)).
Proof.
  destruct (_calculate_persona_alignment_total cooking
              [asha; namesake; anonymous]) as [a Ha].
  destruct (affected_are_the_personas_above_low _ _ _ Ha) as (Haff & Hnd & _).
  exists a. split; [exact Ha|]. split; [|exact Hnd].
  rewrite Haff. reflexivity.
Defined.

(** X16.  An alignment is always returned.  Without personas it
    is the empty one, with coverage 0 and weight 0.  With personas the
    coverage lies in [0,1] and the weight in (0,10]; the weight is at
    least 1 when the personas' names are pairwise distinct. *)
Theorem persona_alignment_bounds (pain_point : PainPoint)
        (personas : list Persona) :
  exists a,
    _calculate_persona_alignment pain_point personas = Ok a
    /\ 0 <= PersonaAlignment.coverage a <= 1
    /\ 0 <= PersonaAlignment.weight a <= 10
    /\ (personas = [] ->
        PersonaAlignment.affected_personas a = []
        /\ PersonaAlignment.affinities a = []
        /\ PersonaAlignment.coverage a == 0
        /\ PersonaAlignment.weight a == 0)
    /\ (personas <> [] -> 0 < PersonaAlignment.weight a)
    /\ (personas <> [] -> NoDup (map persona_name personas) ->
        1 <= PersonaAlignment.weight a).
Proof.
  destruct personas as [|p0 r].
  - eexists. split; [reflexivity|]. cbn.
    repeat split; try discriminate; try congruence.
  - destruct (_calculate_persona_alignment_weight pain_point (p0 :: r))
      as (a & Ha & Hc & [Hw0 Hw1] & Hd); [discriminate|].
    exists a. split; [exact Ha|]. split; [exact Hc|].
    split; [split; [apply Qlt_le_weak, Hw0 | exact Hw1]|].
    split; [discriminate|]. split; [intros _; exact Hw0|].
    intros _. exact Hd.
Qed.

Lemma persona_alignment_bounds_witness :
  [asha] <> []
  /\ NoDup (map persona_name [asha])
  /\ exists a,
       _calculate_persona_alignment cooking [asha] = Ok a
       /\ 1 <= PersonaAlignment.weight a.
Proof.
  assert (H1 : [asha] <> []) by discriminate.
  assert (H2 : NoDup (map persona_name [asha]))
    by (repeat constructor; simpl; tauto).
  split; [exact H1|]. split; [exact H2|].
  destruct (persona_alignment_bounds cooking [asha])
    as (a & Ha & _ & _ & _ & _ & Hd).
  exists a. split; [exact Ha | exact (Hd H1 H2)].
Defined.

End PrioritizationFurther.

(** * When the prioritization fails *)

Section PrioritizeFailure.

Import App App.PrioritizationService Examples.

Variable log10 : Q -> Q.
Variable jtbd_call : nat -> JTBDCall.t.
Variable effort_reply : nat -> option EffortReply.t.
Variable personas : list Persona.
Variables problem_statement target_users : string.

Local Abbreviation one :=
  (prioritize_one log10 jtbd_call effort_reply personas problem_statement
     target_users).
Local Abbreviation loop :=
  (prioritize_loop log10 jtbd_call effort_reply personas problem_statement
     target_users).
Local Abbreviation prioritize :=
  (fun pain_points =>
     prioritize_pain_points log10 jtbd_call effort_reply pain_points
       personas problem_statement target_users).

Lemma prioritize_one_effort (idx : nat) (pain_point : PainPoint) :
  (forall p, one idx pain_point = Return p ->
             jtbd_answers (jtbd_call idx) /\ effort_ok (effort_reply idx))
  /\ (forall x, one idx pain_point = Throw x ->
                jtbd_call idx = JTBDCall.Fails x
                \/ (jtbd_answers (jtbd_call idx)
                    /\ x = Builtin ValidationError
                    /\ ~ effort_ok (effort_reply idx))).
Proof.
  unfold prioritize_one.
  destruct (jtbd_call idx) as [e|reply].
  - cbn [_calculate_jtbd_score and_then]. split; [discriminate|].
    intros x H. injection H as <-. left. reflexivity.
  - destruct (_calculate_jtbd_score_text reply pain_point) as (s & -> & _).
    cbn [and_then].
    destruct (Qlt_le_dec 0 (fst (_estimate_effort (effort_reply idx))))
      as [Hpos|Hle].
    + destruct (_calculate_rice_score_total (effort_reply idx) pain_point
                  problem_statement target_users s Hpos) as [r ->].
      destruct (_calculate_persona_alignment_total pain_point personas)
        as [a ->].
      cbn [lift and_then].
      split; [intros; split; [exact I | exact Hpos] | discriminate].
    + rewrite (_calculate_rice_score_refused _ _ _ _ _ Hle).
      cbn [lift and_then]. split; [discriminate|].
      intros x H. injection H as <-. right.
      split; [exact I|]. split; [reflexivity|]. unfold effort_ok. lra.
Qed.

Lemma prioritize_loop_effort (pain_points : list PainPoint) :
  forall idx,
    (forall l, loop idx pain_points = Return l ->
               forall i, (i < List.length pain_points)%nat ->
                         jtbd_answers (jtbd_call (idx + i))
                         /\ effort_ok (effort_reply (idx + i)))
    /\ (forall x, loop idx pain_points = Throw x ->
                  x = Builtin ValidationError
                  \/ exists i, (i < List.length pain_points)%nat
                               /\ jtbd_call (idx + i) = JTBDCall.Fails x).
Proof.
  induction pain_points as [|pp r IH]; intros idx; cbn [prioritize_loop].
  - split; [intros l _ i Hi; simpl in Hi; lia | discriminate].
  - destruct (prioritize_one_effort idx pp) as [Hok Hraise].
    destruct (IH (S idx)) as [IHok IHraise].
    destruct (one idx pp) as [p|x] eqn:Ep; cbn [and_then].
    + destruct (loop (S idx) r) as [rest|y] eqn:Er; cbn [and_then].
      * split; [|discriminate]. intros l _ [|i] Hi.
        -- rewrite Nat.add_0_r. eapply Hok. reflexivity.
        -- replace (idx + S i)%nat with (S idx + i)%nat by lia.
           eapply IHok; [reflexivity | simpl in Hi; lia].
      * split; [discriminate|]. intros x H. injection H as <-.
        destruct (IHraise y eq_refl) as [->|(i & Hi & Hf)]; [left; reflexivity|].
        right. exists (S i). split; [simpl; lia|].
        replace (idx + S i)%nat with (S idx + i)%nat by lia. exact Hf.
    + split; [discriminate|]. intros y H. injection H as <-.
      destruct (Hraise x eq_refl) as [Hf|(_ & -> & _)]; [|left; reflexivity].
      right. exists 0%nat. split; [simpl; lia|].
      rewrite Nat.add_0_r. exact Hf.
Qed.



End PrioritizeFailure.


(** * Properties of the decision engine *)

Section DecisionEngineProperties.

Import UserSim UserSim.AIDecisionEngine Examples.

(** X18.  Parsing the name of an emotional state gives the state
    back, in any casing of its letters; a string that is no state's name
    in any casing parses to NEUTRAL. *)
Theorem emotional_state_round_trip (state_str : string) :
  (forall e, _parse_emotional_state (EmotionalState.value e) = e)
  /\ (forall e,
        lower state_str = EmotionalState.value e ->
        _parse_emotional_state state_str = e)
  /\ ((forall e, lower state_str <> EmotionalState.value e) ->
      _parse_emotional_state state_str = EmotionalState.NEUTRAL).
Proof.
  split; [intros e; destruct e; reflexivity|]. split.
  - intros e H. unfold _parse_emotional_state. rewrite H.
    destruct e; reflexivity.
  - intros H. unfold _parse_emotional_state, state_map. cbn [dict_get].
    repeat match goal with
           | |- context [String.eqb ?a ?b] =>
               let E := fresh "E" in
               destruct (String.eqb a b) eqn:E;
               [apply String.eqb_eq in E | ]
           end; try reflexivity; exfalso.
    all: match goal with
         | E : _ = lower _ |- _ =>
             first
               [ apply (H EmotionalState.SATISFIED); symmetry; exact E
               | apply (H EmotionalState.HOPEFUL); symmetry; exact E
               | apply (H EmotionalState.FRUSTRATED); symmetry; exact E
               | apply (H EmotionalState.ANNOYED); symmetry; exact E
               | apply (H EmotionalState.ANGRY); symmetry; exact E
               | apply (H EmotionalState.DELIGHTED); symmetry; exact E ]
         end.
Qed.

Lemma emotional_state_round_trip_witness :
  lower "FRUSTRATED" = EmotionalState.value EmotionalState.FRUSTRATED
  /\ _parse_emotional_state "FRUSTRATED" = EmotionalState.FRUSTRATED
  /\ _parse_emotional_state "Confused" = EmotionalState.NEUTRAL.
Proof.
  assert (H : lower "FRUSTRATED"
              = EmotionalState.value EmotionalState.FRUSTRATED)
    by reflexivity.
  split; [exact H|]. split.
  - apply (emotional_state_round_trip "FRUSTRATED"), H.
  - apply (emotional_state_round_trip "Confused").
    intros e; destruct e; discriminate.
Defined.

Lemma option_id_at_member (options : list DecisionOption.t) (i : nat)
      (id : string) :
  option_id_at options i = Return id ->
  In id (map DecisionOption.option_id options).
Proof.
  unfold option_id_at. destruct (nth_error options i) as [o|] eqn:E;
    [|discriminate].
  intros H. injection H as <-. apply in_map. eapply nth_error_In, E.
Qed.

Lemma clamp_50 (x : Q) : -50 <= Py.max (-50) (Py.min 50 x) <= 50.
Proof.
  unfold Py.max, Py.min. split; [apply Q.le_max_l|].
  apply Q.max_lub; [discriminate | apply Q.le_min_l].
Qed.

(** What [make_decision] returns when there is an option. *)
Lemma make_decision_with_options (r : reply) (o : DecisionOption.t)
      (rest : list DecisionOption.t) :
  exists id reasoning adj emo,
    make_decision r (o :: rest) = Return (id, reasoning, adj, emo)
    /\ In id (map DecisionOption.option_id (o :: rest))
    /\ -50 <= adj <= 50.
Proof.
  destruct r as [message|[text|result]].
  - do 4 eexists. split; [reflexivity|]. split; [left; reflexivity|].
    split; discriminate.
  - do 4 eexists. split; [reflexivity|]. split; [left; reflexivity|].
    split; discriminate.
  - unfold make_decision, _parse_decision_response. cbv zeta.
    match goal with
    | |- context [and_then ?m _] => destruct m as [id|e] eqn:E
    end.
    + cbn [and_then try_except].
      do 4 eexists. split; [reflexivity|]. split; [|apply clamp_50].
      match type of E with
      | (if ?b then _ else _) = _ => destruct b
      end; apply option_id_at_member in E; exact E.
    + exfalso.
      match type of E with
      | (if ?b then _ else _) = _ => destruct b eqn:Eb
      end; [|discriminate].
      unfold option_id_at in E.
      destruct (nth_error (o :: rest) _) eqn:En; [discriminate|].
      apply nth_error_None in En.
      apply andb_prop in Eb. destruct Eb as [E0 E1].
      apply Z.leb_le in E0. apply Z.ltb_lt in E1. lia.
Qed.

(** X19.  Without options every decision fails with an index
    error, the fallbacks included.  With at least one option a decision is
    always returned: the chosen id is the id of one of the options, and
    the context adjustment lies in [-50, 50].  A reply that names option
    k, for k from 1 to the number of options, chooses that option; any
    other number, and no number, choose as the number 1 does. *)
Theorem decision_always_within_options :
  (forall r, make_decision r [] = Throw IndexError)
  /\ (forall r options,
        options <> [] ->
        exists id reasoning adj emo,
          make_decision r options = Return (id, reasoning, adj, emo)
          /\ In id (map DecisionOption.option_id options)
          /\ -50 <= adj <= 50)
  /\ (forall result options k o,
        DecisionReply.chosen_option result = Some k ->
        nth_error options (Z.to_nat (k - 1)) = Some o ->
        (1 <= k)%Z ->
        exists reasoning adj emo,
          make_decision (Text (Parsed result)) options
          = Return (DecisionOption.option_id o, reasoning, adj, emo))
  /\ (forall result options k o,
        DecisionReply.chosen_option result = Some k ->
        (k < 1 \/ Z.of_nat (List.length options) < k)%Z ->
        nth_error options 0 = Some o ->
        exists reasoning adj emo,
          make_decision (Text (Parsed result)) options
          = Return (DecisionOption.option_id o, reasoning, adj, emo)).
Proof.
  split.
  { intros [message|[text|result]]; try reflexivity.
    unfold make_decision, _parse_decision_response. cbv zeta.
    match goal with
    | |- context [if ?b then _ else _] => destruct b eqn:Eb
    end; [|reflexivity].
    apply andb_prop in Eb. destruct Eb as [E0 E1].
    apply Z.leb_le in E0. apply Z.ltb_lt in E1. simpl in E1. lia. }
  split.
  { intros r [|o rest] Hne; [congruence|].
    apply make_decision_with_options. }
  split.
  { intros result options k o Hk Hnth H1. unfold make_decision.
    unfold _parse_decision_response. cbv zeta. rewrite Hk. cbn [get].
    assert (Hlen : (Z.to_nat (k - 1) < List.length options)%nat)
      by (apply nth_error_Some; congruence).
    assert (Hb : ((0 <=? k - 1)%Z
                  && (k - 1 <? Z.of_nat (List.length options))%Z) = true).
    { apply andb_true_intro. split; [apply Z.leb_le; lia|].
      apply Z.ltb_lt. lia. }
    rewrite Hb. unfold option_id_at at 1. rewrite Hnth. cbn.
    do 3 eexists. reflexivity. }
  intros result options k o Hk Hout Hnth. unfold make_decision.
  unfold _parse_decision_response. cbv zeta. rewrite Hk. cbn [get].
  assert (Hb : ((0 <=? k - 1)%Z
                && (k - 1 <? Z.of_nat (List.length options))%Z) = false).
  { apply andb_false_iff. destruct Hout as [H|H].
    - left. apply Z.leb_gt. lia.
    - right. apply Z.ltb_ge. lia. }
  rewrite Hb. unfold option_id_at at 1. rewrite Hnth. cbn.
  do 3 eexists. reflexivity.
Qed.

Lemma decision_always_within_options_witness :
  three_options <> []
  /\ (exists reasoning adj emo,
         make_decision eager_reply three_options
         = Return ("option_2", reasoning, adj, emo)
         /\ adj == -50)
  /\ exists id reasoning adj emo,
       make_decision prose_reply three_options
       = Return (id, reasoning, adj, emo)
       /\ -50 <= adj <= 50.
Proof.
  assert (Hne : three_options <> []) by discriminate.
  destruct decision_always_within_options as (_ & Hsome & Hkth & _).
  split; [exact Hne|]. split.
  - destruct (Hkth
                {| DecisionReply.chosen_option := Some 2%Z;
                   DecisionReply.reasoning := None;
                   DecisionReply.emotional_state := Some "Hopeful";
                   DecisionReply.context_adjustment := Some (-80);
                   DecisionReply.context_explanation := None |}
                three_options 2%Z
                {| DecisionOption.option_id := "option_2";
                   DecisionOption.description := "Try alternative service";
                   DecisionOption.consequences :=
                     "Potential outcome of choosing: Try alternative service"
                |} eq_refl eq_refl) as (reasoning & adj & emo & H);
      [lia|].
    exists reasoning, adj, emo. split; [exact H|].
    vm_compute in H. injection H as _ <- _. reflexivity.
  - destruct (Hsome prose_reply three_options Hne)
      as (id & reasoning & adj & emo & H & _ & Hadj).
    exists id, reasoning, adj, emo. auto.
Defined.

End DecisionEngineProperties.

(** * Properties of the prioritization endpoint *)

Section RouterProperties.

Import App App.PrioritizationService App.PrioritizationRouter Examples.

Variable log10 : Q -> Q.
Variable jtbd_call : nat -> JTBDCall.t.
Variable effort_reply : nat -> option EffortReply.t.

Local Abbreviation endpoint :=
  (PrioritizationRouter.prioritize_pain_points log10 jtbd_call
     effort_reply).

(** X20.  The endpoint either answers with a ranked list that is
    not empty and as long as the request's list of pain points, or fails
    with status 500.  It never fails with another status: a key that is
    not configured raises 400 inside the handler's own [try], and is
    re-raised as 500.  An empty list of pain points is a 500 too, and so
    is one effort estimate that is not positive. *)
Theorem endpoint_answers_200_or_500 (anthropic_api_key : string)
        (request : PrioritizationRequest) :
  (forall e, endpoint anthropic_api_key request = Throw e ->
             e = HTTPException 500)
  /\ (forall response,
        endpoint anthropic_api_key request = Return response ->
        prioritized_pain_points response <> []
        /\ List.length (prioritized_pain_points response)
           = List.length (request_pain_points request)
        /\ total_analyzed response
           = Z.of_nat (List.length (request_pain_points request))
        /\ anthropic_api_key <> "")
  /\ (anthropic_api_key = "" ->
      endpoint anthropic_api_key request = Throw (HTTPException 500))
  /\ (request_pain_points request = [] ->
      endpoint anthropic_api_key request = Throw (HTTPException 500))
  /\ (forall i,
        (i < List.length (request_pain_points request))%nat ->
        ~ effort_ok (effort_reply i) ->
        endpoint anthropic_api_key request = Throw (HTTPException 500)).
Proof.
  unfold PrioritizationRouter.prioritize_pain_points.
  set (service :=
         PrioritizationService.prioritize_pain_points log10 jtbd_call
           effort_reply (request_pain_points request)
           (request_personas request) (request_problem_statement request)
           (request_target_users request)).
  assert (Hlen : forall out, service = Return out ->
                 List.length out
                 = List.length (request_pain_points request)).
  { intros out. subst service.
    unfold PrioritizationService.prioritize_pain_points.
    destruct (request_pain_points request) as [|pp r] eqn:Ep;
      [intros H; injection H as <-; reflexivity|].
    destruct (prioritize_loop _ _ _ _ _ _ 0 (pp :: r)) as [l|x] eqn:El;
      cbn [and_then]; [|discriminate].
    intros H. injection H as <-.
    destruct (prioritize_loop_items _ _ _ _ _ _ _ _ _ El) as (Hl & _).
    rewrite <- Hl, <- (length_map unranked), assign_ranks_unranked,
      length_map.
    apply Permutation_length, sort_desc_perm. }
  split.
  { intros e. destruct (String.eqb anthropic_api_key ""); cbn.
    - intros H. injection H as <-. reflexivity.
    - destruct service as [[|p r]|x]; cbn; try discriminate;
        intros H; injection H as <-; reflexivity. }
  split.
  { intros response.
    destruct (String.eqb anthropic_api_key "") eqn:Ek; cbn;
      [discriminate|].
    destruct service as [[|p r]|x] eqn:Es; cbn; try discriminate.
    intros H. injection H as <-. cbn.
    pose proof (Hlen _ eq_refl) as Hl.
    split; [discriminate|]. split; [exact Hl|].
    split; [rewrite <- Hl; reflexivity|].
    intros ->. discriminate. }
  split; [intros ->; reflexivity|].
  split.
  { intros Hnil. destruct (String.eqb anthropic_api_key ""); cbn;
      [reflexivity|].
    subst service. rewrite Hnil. reflexivity. }
  intros i Hi Hbad.
  destruct (String.eqb anthropic_api_key ""); cbn; [reflexivity|].
  destruct (prioritize_loop_effort log10 jtbd_call effort_reply
              (request_personas request) (request_problem_statement request)
              (request_target_users request) (request_pain_points request)
              0) as [Hok _].
  subst service. unfold PrioritizationService.prioritize_pain_points.
  destruct (request_pain_points request) as [|pp r] eqn:Ep;
    [simpl in Hi; lia|].
  destruct (prioritize_loop _ _ _ _ _ _ 0 (pp :: r)) as [l|x] eqn:El;
    cbn; [|reflexivity].
  exfalso. apply Hbad. apply (Hok l eq_refl i Hi).
Qed.

End RouterProperties.

Lemma endpoint_answers_200_or_500_witness :
  App.PrioritizationRouter.prioritize_pain_points Examples.log10_whole
    Examples.jtbd_replies Examples.effort_replies ""
    {| App.PrioritizationRouter.request_pain_points := [Examples.cooking];
       App.PrioritizationRouter.request_personas := [Examples.asha];
       App.PrioritizationRouter.request_problem_statement :=
         "Cooking at home";
       App.PrioritizationRouter.request_target_users := "busy people" |}
  = Throw (HTTPException 500).
Proof.
  match goal with
  | |- _ _ _ _ _ ?request = _ =>
      destruct (endpoint_answers_200_or_500 Examples.log10_whole
                  Examples.jtbd_replies Examples.effort_replies "" request)
        as (_ & _ & Hkey & _)
  end.
  apply Hkey. reflexivity.
Defined.

(** * Properties of the scenario simulator *)

Section SimulatorProperties.

Import UserSim UserSim.ChurnCalculator UserSim.AIDecisionEngine.
Import UserSim.ScenarioSimulator Examples.

Lemma validate_step_ok (x y : JourneyStep.t) :
  JourneyStep.validate x = Ok y ->
  y = x /\ 0 <= JourneyStep.frustration_level x <= 10.
Proof.
  unfold JourneyStep.validate.
  destruct (Qle_bool 0 (JourneyStep.frustration_level x)) eqn:A;
    [|discriminate].
  destruct (Qle_bool (JourneyStep.frustration_level x) 10) eqn:B;
    [|discriminate].
  cbn. intros H. injection H as <-.
  apply Qle_bool_iff in A, B. auto.
Qed.

Lemma _simulate_decision_step_returned (r : reply) (step_num : Z)
      (step_template : StepTemplate.t) (virtual_user : SimulatedUser)
      (churn_calc : ChurnCalculator.t) (events : list FrustrationEvent)
      (cumulative_time step_duration : Q) (step : JourneyStep.t) :
  let options :=
    build_options 0 (get (StepTemplate.options step_template) []) in
  let context :=
    decision_context virtual_user options events cumulative_time in
  _simulate_decision_step r step_num step_template virtual_user
    churn_calc events cumulative_time step_duration = Return step ->
  exists a id reasoning adj emo,
    make_decision r options = Return (id, reasoning, adj, emo)
    /\ calculate_churn churn_calc events context adj = Ok a
    /\ JourneyStep.churn_analysis step = Some a
    /\ 0 <= final_churn_probability a <= 100
    /\ JourneyStep.frustration_level step
       == final_churn_probability a / 10
    /\ JourneyStep.is_decision_point step = true
    /\ JourneyStep.step_type step = StepType.DECISION_POINT
    /\ JourneyStep.step_number step = step_num
    /\ JourneyStep.time_elapsed step = cumulative_time
    /\ JourneyStep.step_duration step = step_duration
    /\ JourneyStep.chosen_option step = Some id
    /\ StepTemplate.description step_template
       = Some (JourneyStep.description step).
Proof.
  cbv zeta. unfold _simulate_decision_step. cbv zeta.
  set (options :=
         build_options 0 (get (StepTemplate.options step_template) [])).
  set (context :=
         decision_context virtual_user options events cumulative_time).
  destruct (StepTemplate.description step_template) as [description|];
    cbn [subscript and_then]; [|discriminate].
  destruct (calculate_churn churn_calc events context 0) as [a0|x];
    cbn [lift and_then]; [|discriminate].
  destruct (make_decision r options) as [[[[id reasoning] adj] emo]|x];
    cbn [and_then]; [|discriminate].
  destruct (calculate_churn churn_calc events context adj) as [a|x] eqn:Ea;
    cbn [lift and_then]; [|discriminate].
  match goal with
  | |- lift (JourneyStep.validate ?x) = _ -> _ =>
      destruct (JourneyStep.validate x) as [y|e] eqn:Ev
  end; cbn [lift]; [|discriminate].
  intros H. injection H as <-.
  apply validate_step_ok in Ev. destruct Ev as (-> & Hf0 & _).
  cbn [JourneyStep.frustration_level] in Hf0.
  pose proof (calculate_churn_final _ _ _ _ _ Ea) as (_ & Hle & _).
  assert (Hmin : Py.min (final_churn_probability a / 10) 10
                 == final_churn_probability a / 10).
  { unfold Py.min. apply Q.min_l.
    apply Qle_shift_div_r; [reflexivity | exact Hle]. }
  exists a, id, reasoning, adj, emo. cbn.
  repeat split; try reflexivity; try assumption.
  rewrite Hmin in Hf0.
  setoid_replace (final_churn_probability a)
    with (final_churn_probability a / 10 * 10) by field.
  apply Qmult_le_0_compat; [exact Hf0 | discriminate].
Qed.

(** X21.  A decision step that is returned is numbered and
    timed as asked, is marked as a decision point, carries the analysis
    computed with the engine's adjustment, whose probability lies in
    [0,100], and has a frustration level of one tenth of that
    probability.  A template without a description gives a key error.
    And when the adjusted probability is negative no step is returned:
    the frustration level fails the model's validation. *)
Theorem decision_step_needs_nonnegative_churn (r : reply) (step_num : Z)
        (step_template : StepTemplate.t) (virtual_user : SimulatedUser)
        (churn_calc : ChurnCalculator.t) (events : list FrustrationEvent)
        (cumulative_time step_duration : Q) :
  let options :=
    build_options 0 (get (StepTemplate.options step_template) []) in
  let context :=
    decision_context virtual_user options events cumulative_time in
  let result :=
    _simulate_decision_step r step_num step_template virtual_user
      churn_calc events cumulative_time step_duration in
  (forall step,
      result = Return step ->
      exists a id reasoning adj emo,
        make_decision r options = Return (id, reasoning, adj, emo)
        /\ calculate_churn churn_calc events context adj = Ok a
        /\ JourneyStep.churn_analysis step = Some a
        /\ 0 <= final_churn_probability a <= 100
        /\ JourneyStep.frustration_level step
           == final_churn_probability a / 10
        /\ JourneyStep.is_decision_point step = true
        /\ JourneyStep.step_type step = StepType.DECISION_POINT
        /\ JourneyStep.step_number step = step_num
        /\ JourneyStep.time_elapsed step = cumulative_time
        /\ JourneyStep.step_duration step = step_duration
        /\ JourneyStep.chosen_option step = Some id
        /\ StepTemplate.description step_template
           = Some (JourneyStep.description step))
  /\ (StepTemplate.description step_template = None ->
      result = Throw (Builtin KeyError))
  /\ (forall description a0 a id reasoning adj emo,
        StepTemplate.description step_template = Some description ->
        calculate_churn churn_calc events context 0 = Ok a0 ->
        make_decision r options = Return (id, reasoning, adj, emo) ->
        calculate_churn churn_calc events context adj = Ok a ->
        final_churn_probability a < 0 ->
        result = Throw (Builtin ValidationError)).
Proof.
  cbv zeta. unfold _simulate_decision_step. cbv zeta.
  set (options :=
         build_options 0 (get (StepTemplate.options step_template) [])).
  set (context :=
         decision_context virtual_user options events cumulative_time).
  split.
  { intros step H.
    apply (_simulate_decision_step_returned r step_num step_template
             virtual_user churn_calc events cumulative_time step_duration
             step H). }
  split.
  { intros ->. reflexivity. }
  intros description a0 a id reasoning adj emo H1 H2 H3 H4 Hneg.
  rewrite H1. cbn [subscript and_then]. rewrite H2. cbn [lift and_then].
  rewrite H3. cbn [and_then]. rewrite H4. cbn [lift and_then].
  unfold JourneyStep.validate. cbn [JourneyStep.frustration_level].
  assert (Hq : Qle_bool 0 (Py.min (final_churn_probability a / 10) 10)
               = false).
  { apply not_true_iff_false. rewrite Qle_bool_iff. intros H0.
    assert (Hm : Py.min (final_churn_probability a / 10) 10
                 <= final_churn_probability a / 10)
      by apply Q.le_min_l.
    assert (Hd : final_churn_probability a / 10 < 0).
    { apply Qlt_shift_div_r; [reflexivity|]. rewrite Qmult_0_l.
      exact Hneg. }
    lra. }
  rewrite Hq. reflexivity.
Qed.

Lemma decision_step_needs_nonnegative_churn_witness :
  _simulate_decision_step eager_reply 1 no_ride patient_rider
    (__init__ patient_user) [] 10 10
  = Throw (Builtin ValidationError).
Proof.
  destruct (decision_step_needs_nonnegative_churn eager_reply 1 no_ride
              patient_rider (__init__ patient_user) [] 10 10)
    as (_ & _ & Hneg).
  cbv zeta in Hneg. eapply Hneg; reflexivity.
Defined.

(** *** The loop over the steps *)

Lemma duration_bounds (step_type : StepType.t)
      (step_template : StepTemplate.t) :
  2 <= _estimate_step_duration step_type step_template <= 120.
Proof.
  unfold _estimate_step_duration.
  destruct step_type; try (split; discriminate);
    destruct (contains "wait" _); split; discriminate.
Qed.

Lemma _simulate_regular_step_returned (step_num : Z) (step_type : StepType.t)
      (step_template : StepTemplate.t) (churn_calc : ChurnCalculator.t)
      (events : list FrustrationEvent) (cumulative_time step_duration : Q) :
  (forall step,
      _simulate_regular_step step_num step_type step_template churn_calc
        events cumulative_time step_duration = Return step ->
      exists a,
        calculate_churn churn_calc events (regular_context cumulative_time) 0
        = Ok a
        /\ JourneyStep.churn_analysis step = Some a
        /\ JourneyStep.step_number step = step_num
        /\ JourneyStep.time_elapsed step = cumulative_time
        /\ JourneyStep.step_duration step = step_duration
        /\ JourneyStep.is_decision_point step = false
        /\ 0 <= JourneyStep.frustration_level step <= 10)
  /\ (forall a,
        calculate_churn churn_calc events (regular_context cumulative_time) 0
        = Ok a ->
        exists step,
          _simulate_regular_step step_num step_type step_template churn_calc
            events cumulative_time step_duration = Return step).
Proof.
  unfold _simulate_regular_step. cbv zeta. fold (regular_context cumulative_time).
  split.
  - intros step.
    destruct (calculate_churn churn_calc events
                (regular_context cumulative_time) 0) as [a|x];
      [|repeat match goal with
               | |- context [if ?b then _ else _] => destruct b
               end; discriminate].
    repeat match goal with
           | |- context [if ?b then _ else _] => destruct b
           end;
      cbn; intros H; injection H as <-; exists a; cbn;
      repeat split; try reflexivity; discriminate.
  - intros a ->.
    repeat match goal with
           | |- context [if ?b then _ else _] => destruct b
           end; cbn; eauto.
Qed.

Lemma simulate_step_returned (r : reply) (virtual_user : SimulatedUser)
      (churn_calc : ChurnCalculator.t) (idx : nat)
      (step_template : StepTemplate.t) (st st' : LoopState) :
  simulate_step r virtual_user churn_calc idx step_template st = Return st' ->
  exists step,
    simulated_steps st' = append (simulated_steps st) step
    /\ cumulative_time st' = JourneyStep.time_elapsed step
    /\ journey_from (Z.of_nat idx + 1) (cumulative_time st) [step]
    /\ (frustration_events st' = frustration_events st
        \/ frustration_events st'
           = append (frustration_events st) error_encountered).
Proof.
  unfold simulate_step. cbv zeta.
  destruct (StepType.of_value
              (get (StepTemplate.step_type step_template) "action"))
    as [step_type|]; [|discriminate].
  pose proof (duration_bounds step_type step_template) as Hd.
  match goal with
  | |- (if ?b then _ else _) = _ -> _ => destruct b
  end.
  - destruct (_simulate_decision_step _ _ _ _ _ _ _ _) as [step|x] eqn:E;
      cbn [and_then]; [|discriminate].
    intros H. injection H as <-. cbn.
    apply _simulate_decision_step_returned in E. cbv zeta in E.
    destruct E as (a & id & reasoning & adj & emo & _ & _ & Ha & [Ha0 Ha1]
                   & Hf & _ & _ & Hn & Ht & Hdur & _).
    exists step. split; [reflexivity|]. split; [symmetry; exact Ht|].
    split; [|left; reflexivity].
    rewrite Hn, Ht, Hdur. split; [reflexivity|]. split; [reflexivity|].
    split; [exact Hd|]. split.
    { rewrite Hf. split.
      - apply Qle_shift_div_l; [reflexivity|]. rewrite Qmult_0_l. exact Ha0.
      - apply Qle_shift_div_r; [reflexivity | exact Ha1]. }
    split; [eauto | exact I].
  - destruct (_simulate_regular_step _ _ _ _ _ _ _) as [step|x] eqn:E;
      cbn [and_then]; [|discriminate].
    intros H. injection H as <-. cbn.
    apply _simulate_regular_step_returned in E.
    destruct E as (a & Ea & Ha & Hn & Ht & Hdur & _ & Hf).
    exists step. split; [reflexivity|]. split; [symmetry; exact Ht|].
    split.
    + rewrite Hn, Ht, Hdur. split; [reflexivity|]. split; [reflexivity|].
      split; [exact Hd|]. split; [exact Hf|]. split; [|exact I].
      exists a. split; [exact Ha|].
      apply (calculate_churn_final _ _ _ _ _ Ea).
    + match goal with
      | |- context [if ?b then _ else _] => destruct b
      end; auto.
Qed.

Lemma simulate_steps_returned (replies : nat -> reply)
      (virtual_user : SimulatedUser) (churn_calc : ChurnCalculator.t)
      (templates : list StepTemplate.t) :
  forall idx st st',
    simulate_steps replies virtual_user churn_calc idx templates st
    = Return st' ->
    exists new,
      simulated_steps st' = List.app (simulated_steps st) new
      /\ List.length new = List.length templates
      /\ journey_from (Z.of_nat idx + 1) (cumulative_time st) new.
Proof.
  induction templates as [|tpl rest IH]; intros idx st st';
    cbn [simulate_steps].
  - intros H. injection H as <-. exists []. rewrite app_nil_r.
    repeat split.
  - destruct (simulate_step (replies idx) virtual_user churn_calc idx tpl st)
      as [st1|x] eqn:E1; cbn [and_then]; [|discriminate].
    intros H. apply IH in H. destruct H as (new & Hs & Hl & Hj).
    apply simulate_step_returned in E1.
    destruct E1 as (step & Hs1 & Ht1 & Hj1 & _).
    exists (step :: new). split.
    { rewrite Hs, Hs1. unfold append. rewrite <- app_assoc. reflexivity. }
    split; [simpl; lia|].
    cbn [journey_from] in Hj1 |- *.
    destruct Hj1 as (Hn & Ht & Hd & Hf & Ha & _).
    repeat (split; [assumption|]).
    rewrite Nat2Z.inj_succ in Hj. rewrite <- Ht1.
    replace (Z.of_nat idx + 1 + 1)%Z with (Z.succ (Z.of_nat idx) + 1)%Z
      by lia.
    exact Hj.
Qed.

Lemma last_step_app (l : list JourneyStep.t) (step : JourneyStep.t) :
  last_step (List.app l [step]) = Return step.
Proof.
  unfold last_step. rewrite rev_app_distr. reflexivity.
Qed.

Lemma last_step_returned (l : list JourneyStep.t) (step : JourneyStep.t) :
  last_step l = Return step ->
  exists front, l = List.app front [step].
Proof.
  unfold last_step. destruct (rev l) as [|x r] eqn:E; [discriminate|].
  intros H. injection H as ->. exists (rev r).
  rewrite <- (rev_involutive l), E. reflexivity.
Qed.

Lemma journey_from_last (steps front : list JourneyStep.t)
      (step : JourneyStep.t) :
  forall n t,
    journey_from n t steps ->
    steps = List.app front [step] ->
    exists a,
      JourneyStep.churn_analysis step = Some a
      /\ final_churn_probability a <= 100
      /\ JourneyStep.step_number step
         = (n + Z.of_nat (List.length front))%Z.
Proof.
  revert steps. induction front as [|x front IH]; intros steps n t Hj ->.
  - cbn in Hj. destruct Hj as (Hn & _ & _ & _ & (a & Ha & Hle) & _).
    exists a. cbn. split; [exact Ha|]. split; [exact Hle | lia].
  - cbn [List.app journey_from] in Hj.
    destruct Hj as (_ & _ & _ & _ & _ & Hj).
    destruct (IH _ _ _ Hj eq_refl) as (a & Ha & Hle & Hn).
    exists a. split; [exact Ha|]. split; [exact Hle|].
    rewrite Hn. cbn [List.length]. lia.
Qed.

(** X22.  A scenario that is returned has one step per step of its
    template, and at least one.  The steps are numbered 1, 2, ...; each
    one's elapsed time is the previous one's plus its own duration, which
    is between 2 and 120 seconds; each has a frustration level in [0,10]
    and a churn analysis of probability at most 100.  The scenario's
    probability is that of its last step, and its outcome follows from
    it: churned above 75, partial success above 50, success otherwise. *)
Theorem scenario_is_a_timed_journey (replies : nat -> reply)
        (template : Template.t) (virtual_user : SimulatedUser)
        (sc : Scenario.t) :
  _simulate_scenario replies template virtual_user = Return sc ->
  exists templates front final_step a,
    Template.steps template = Some templates
    /\ Template.scenario_name template = Some (Scenario.scenario_name sc)
    /\ Template.description template = Some (Scenario.description sc)
    /\ List.length (Scenario.steps sc) = List.length templates
    /\ journey_from 1 0 (Scenario.steps sc)
    /\ Scenario.steps sc = List.app front [final_step]
    /\ JourneyStep.churn_analysis final_step = Some a
    /\ JourneyStep.step_number final_step
       = Z.of_nat (List.length templates)
    /\ Scenario.final_churn_probability sc = final_churn_probability a
    /\ (75 < final_churn_probability a ->
        Scenario.outcome sc = "User churned - Gave up completely")
    /\ (50 < final_churn_probability a <= 75 ->
        Scenario.outcome sc
        = "Partial success - User frustrated but completed")
    /\ (final_churn_probability a <= 50 ->
        Scenario.outcome sc = "Success - User achieved goal").
Proof.
  unfold _simulate_scenario. cbv zeta.
  destruct (Template.scenario_name template) as [name|];
    cbn [subscript and_then]; [|discriminate].
  destruct (ScenarioType.of_value _) as [scenario_type|]; [|discriminate].
  destruct (Template.steps template) as [templates|];
    cbn [subscript and_then]; [|discriminate].
  destruct (simulate_steps replies virtual_user _ 0 templates _)
    as [st|x] eqn:Es; cbn [and_then]; [|discriminate].
  destruct (last_step (simulated_steps st)) as [final_step|x] eqn:El;
    cbn [and_then]; [|discriminate].
  destruct (Template.description template) as [description|];
    cbn [subscript and_then]; [|discriminate].
  intros H. injection H as <-. cbn.
  apply simulate_steps_returned in Es. cbn in Es.
  destruct Es as (new & Hs & Hl & Hj). subst new.
  destruct (last_step_returned _ _ El) as [front Hfront].
  destruct (journey_from_last _ _ _ _ _ Hj Hfront) as (a & Ha & _ & Hn).
  exists templates, front, final_step, a.
  assert (Hchurn : churn_of final_step
                     (current_churn st) = final_churn_probability a)
    by (unfold churn_of; rewrite Ha; reflexivity).
  rewrite Hchurn.
  repeat (split; [first [reflexivity | assumption]|]).
  split.
  { rewrite Hn. rewrite <- Hl, Hfront, length_app, Nat2Z.inj_add.
    cbn [List.length]. lia. }
  split; [reflexivity|].
  repeat split; intros Hp;
    repeat match goal with
           | |- context [Qlt_le_dec ?x ?y] => destruct (Qlt_le_dec x y)
           end; try reflexivity; exfalso; lra.
Qed.

Lemma scenario_is_a_timed_journey_witness :
  exists sc,
    _simulate_scenario (fun _ => prose_reply)
      (rider_journey [open_app; payment_error; no_ride]) patient_rider
    = Return sc
    /\ List.length (Scenario.steps sc) = 3%nat
    /\ journey_from 1 0 (Scenario.steps sc).
Proof.
  destruct (_simulate_scenario (fun _ => prose_reply)
              (rider_journey [open_app; payment_error; no_ride])
              patient_rider) as [sc|x] eqn:E.
  - exists sc. split; [reflexivity|].
    destruct (scenario_is_a_timed_journey _ _ _ _ E)
      as (templates & front & final_step & a & Ht & _ & _ & Hl & Hj & _).
    cbn in Ht. injection Ht as <-. split; [exact Hl | exact Hj].
  - vm_compute in E. discriminate.
Defined.

(** X23.  A template is never simulated into a scenario when its list
    of steps is empty: the run ends in a KeyError (no scenario name), a
    ValueError (a scenario type that is none of the three) or, with both
    in order, an IndexError. *)
Theorem scenario_without_steps_is_refused (replies : nat -> reply)
        (template : Template.t) (virtual_user : SimulatedUser) :
  Template.steps template = Some [] ->
  (forall sc, _simulate_scenario replies template virtual_user <> Return sc)
  /\ (Template.scenario_name template <> None ->
      ScenarioType.of_value
        (get (Template.scenario_type template) "happy_path") <> None ->
      _simulate_scenario replies template virtual_user = Throw IndexError).
Proof.
  intros Hs. unfold _simulate_scenario. cbv zeta. rewrite Hs.
  destruct (Template.scenario_name template) as [name|];
    cbn [subscript and_then].
  - destruct (ScenarioType.of_value _) as [scenario_type|].
    + cbn. split; [discriminate | reflexivity].
    + split; [discriminate | intros _ H; contradiction H; reflexivity].
  - split; [discriminate | intros H; contradiction H; reflexivity].
Qed.

Lemma scenario_without_steps_is_refused_witness :
  _simulate_scenario (fun _ => prose_reply) (rider_journey []) patient_rider
  = Throw IndexError.
Proof.
  apply (scenario_without_steps_is_refused (fun _ => prose_reply)
           (rider_journey []) patient_rider eq_refl); discriminate.
Defined.

(** *** Journeys of regular steps *)

Lemma StronglySorted_snoc (l : list Q) (x : Q) :
  StronglySorted Qle l -> Forall (fun q => q <= x) l ->
  StronglySorted Qle (List.app l [x]).
Proof.
  induction l as [|y l IH]; intros Hs Hx; cbn [List.app].
  - constructor; constructor.
  - inversion Hs; subst. inversion Hx; subst.
    constructor; [auto|]. apply Forall_app. split; [assumption|].
    constructor; [assumption | constructor].
Qed.

Lemma StronglySorted_last_bounds (l : list Q) (x : Q) :
  StronglySorted Qle (List.app l [x]) ->
  Forall (fun q => q <= x) (List.app l [x]).
Proof.
  induction l as [|y l IH]; cbn [List.app]; intros Hs.
  - constructor; [apply Qle_refl | constructor].
  - inversion Hs; subst. constructor; [|auto].
    match goal with
    | H : Forall (Qle y) _ |- _ =>
        apply Forall_app in H; destruct H as [_ H]; inversion H; assumption
    end.
Qed.

Lemma churn_trace_snoc (l : list JourneyStep.t) (step : JourneyStep.t)
      (a : ChurnAnalysis) :
  JourneyStep.churn_analysis step = Some a ->
  churn_trace (append l step)
  = List.app (churn_trace l) [final_churn_probability a].
Proof.
  intros Ha. unfold churn_trace, append. rewrite map_app. cbn [map].
  unfold churn_of. rewrite Ha. reflexivity.
Qed.

Lemma simulate_step_regular (r : reply) (virtual_user : SimulatedUser)
      (churn_calc : ChurnCalculator.t) (idx : nat)
      (step_template : StepTemplate.t) (st : LoopState) :
  is_regular step_template = true ->
  Forall (fun e => event e <> None) (frustration_events st) ->
  exists st' step a t,
    simulate_step r virtual_user churn_calc idx step_template st = Return st'
    /\ simulated_steps st' = append (simulated_steps st) step
    /\ JourneyStep.churn_analysis step = Some a
    /\ JourneyStep.is_decision_point step = false
    /\ calculate_churn churn_calc (frustration_events st)
         (regular_context t) 0 = Ok a
    /\ (frustration_events st' = frustration_events st
        \/ frustration_events st'
           = append (frustration_events st) error_encountered).
Proof.
  unfold is_regular, simulate_step. cbv zeta. intros Hreg Hev.
  destruct (StepType.of_value
              (get (StepTemplate.step_type step_template) "action"))
    as [step_type|]; [|discriminate].
  apply andb_true_iff in Hreg. destruct Hreg as [Hn Hd].
  apply negb_true_iff in Hn. rewrite Hn.
  destruct (StepTemplate.decision_needed step_template); [discriminate|].
  cbn [orb].
  set (t := cumulative_time st
            + _estimate_step_duration step_type step_template).
  destruct (calculate_churn_total churn_calc (frustration_events st)
              (regular_context t) 0 Hev) as [a Ea].
  destruct (_simulate_regular_step_returned (Z.of_nat idx + 1) step_type
              step_template churn_calc (frustration_events st) t
              (_estimate_step_duration step_type step_template))
    as [Hret Htot].
  destruct (Htot a Ea) as [step Es].
  destruct (Hret step Es) as (a' & Ea' & Ha & _ & _ & _ & Hdp & _).
  rewrite Ea in Ea'. injection Ea' as <-.
  rewrite Es. cbn [and_then].
  eexists _, step, a, t. split; [reflexivity|]. cbn.
  repeat (split; [first [reflexivity | assumption]|]).
  match goal with
  | |- context [if ?b then _ else _] => destruct b
  end; auto.
Qed.

Lemma simulate_steps_regular (replies : nat -> reply)
      (virtual_user : SimulatedUser) (templates : list StepTemplate.t) :
  Forall (fun tr => 0 <= impact tr)
    (frustration_triggers (profile virtual_user)) ->
  forall idx st,
    forallb is_regular templates = true ->
    Forall (fun e => event e <> None) (frustration_events st) ->
    StronglySorted Qle (churn_trace (simulated_steps st)) ->
    (forall ctx a,
        calculate_churn (__init__ (profile virtual_user))
          (frustration_events st) ctx 0 = Ok a ->
        Forall (fun q => q <= final_churn_probability a)
          (churn_trace (simulated_steps st))) ->
    Forall (fun s => JourneyStep.is_decision_point s = false)
      (simulated_steps st) ->
    exists st',
      simulate_steps replies virtual_user
        (__init__ (profile virtual_user)) idx templates st = Return st'
      /\ StronglySorted Qle (churn_trace (simulated_steps st'))
      /\ Forall (fun s => JourneyStep.is_decision_point s = false)
           (simulated_steps st').
Proof.
  intros Himp.
  induction templates as [|tpl rest IH];
    intros idx st Hreg Hev Hsorted Hbound Hnd; cbn [simulate_steps].
  - exists st. auto.
  - cbn [forallb] in Hreg. apply andb_true_iff in Hreg.
    destruct Hreg as [Htpl Hrest].
    destruct (simulate_step_regular (replies idx) virtual_user
                (__init__ (profile virtual_user)) idx tpl st Htpl Hev)
      as (st1 & step & a & t & E1 & Hs1 & Ha & Hdp & Ea & Hev1).
    rewrite E1. cbn [and_then].
    apply IH; [exact Hrest | | | |].
    + destruct Hev1 as [-> | ->]; [exact Hev|].
      apply Forall_app. split; [exact Hev|].
      constructor; [discriminate | constructor].
    + rewrite Hs1, (churn_trace_snoc _ _ _ Ha).
      apply StronglySorted_snoc; [exact Hsorted | exact (Hbound _ _ Ea)].
    + intros ctx' a' Ea'.
      assert (Hle : final_churn_probability a <= final_churn_probability a').
      { destruct (calculate_churn_any_context _ _ _ ctx' _ _ Ea)
          as (a2 & Ea2 & Hf2).
        destruct Hev1 as [Hsame | Hmore]; rewrite ?Hsame, ?Hmore in Ea'.
        - rewrite Ea2 in Ea'. injection Ea' as <-. rewrite Hf2.
          apply Qle_refl.
        - destruct (calculate_churn_append_mono (profile virtual_user)
                      (frustration_events st) error_encountered
                      "error_encountered" ctx' 0 a2 eq_refl)
            as (a3 & Ea3 & Hf3); [discriminate | exact Himp | exact Ea2 |].
          unfold append in Ea'. rewrite Ea3 in Ea'. injection Ea' as <-.
          rewrite <- Hf2. exact Hf3. }
      rewrite Hs1, (churn_trace_snoc _ _ _ Ha). apply Forall_app. split.
      * eapply Forall_impl; [|exact (Hbound _ _ Ea)].
        intros q Hq. cbv beta in Hq. eapply Qle_trans; eassumption.
      * constructor; [exact Hle | constructor].
    + rewrite Hs1. apply Forall_app. split; [exact Hnd|].
      constructor; [exact Hdp | constructor].
Qed.

(** X24.  A template with a name, a scenario type of the three, a
    description and at least one step, all of whose steps are regular
    (no decision point), is simulated into a scenario whatever the
    engine would reply, for a user whose own triggers add no negative
    impact.  Along its steps the churn probability never falls, so the
    scenario's probability is the highest of the journey, and no step is
    marked as a decision point. *)
Theorem regular_journey_completes_and_churn_never_falls
        (replies : nat -> reply) (template : Template.t)
        (virtual_user : SimulatedUser) (templates : list StepTemplate.t) :
  Template.scenario_name template <> None ->
  ScenarioType.of_value
    (get (Template.scenario_type template) "happy_path") <> None ->
  Template.description template <> None ->
  Template.steps template = Some templates ->
  templates <> [] ->
  forallb is_regular templates = true ->
  Forall (fun tr => 0 <= impact tr)
    (frustration_triggers (profile virtual_user)) ->
  exists sc,
    _simulate_scenario replies template virtual_user = Return sc
    /\ List.length (Scenario.steps sc) = List.length templates
    /\ StronglySorted Qle (churn_trace (Scenario.steps sc))
    /\ Forall (fun q => q <= Scenario.final_churn_probability sc)
         (churn_trace (Scenario.steps sc))
    /\ Forall (fun s => JourneyStep.is_decision_point s = false)
         (Scenario.steps sc).
Proof.
  intros Hname Htype Hdesc Hsteps Hne Hreg Himp.
  unfold _simulate_scenario. cbv zeta. rewrite Hsteps.
  destruct (Template.scenario_name template) as [name|];
    [|contradiction Hname; reflexivity].
  destruct (ScenarioType.of_value _) as [scenario_type|];
    [|contradiction Htype; reflexivity].
  destruct (Template.description template) as [description|];
    [|contradiction Hdesc; reflexivity].
  cbn [subscript and_then].
  destruct (simulate_steps_regular replies virtual_user templates Himp 0%nat
              {| simulated_steps := []; cumulative_time := 0;
                 frustration_events := [];
                 current_churn := base_churn_risk (profile virtual_user) |}
              Hreg (Forall_nil _) (SSorted_nil _)
              (fun _ _ _ => Forall_nil _) (Forall_nil _))
    as (st & Es & Hsorted & Hnd).
  rewrite Es. cbn [and_then].
  destruct (simulate_steps_returned _ _ _ _ _ _ _ Es) as (new & Hs & Hl & _).
  cbn [simulated_steps List.app] in Hs. subst new.
  destruct (rev (simulated_steps st)) as [|final_step front] eqn:Er.
  { apply (f_equal (@List.length _)) in Er. rewrite length_rev, Hl in Er.
    destruct templates; [contradiction Hne; reflexivity | discriminate]. }
  assert (Hfront : simulated_steps st = List.app (rev front) [final_step]).
  { rewrite <- (rev_involutive (simulated_steps st)), Er. reflexivity. }
  unfold last_step. rewrite Er. cbn [and_then].
  eexists. split; [reflexivity|]. cbn.
  split; [exact Hl|]. split; [exact Hsorted|]. split; [|exact Hnd].
  assert (Hlast : exists a,
             JourneyStep.churn_analysis final_step = Some a).
  { destruct (simulate_steps_returned _ _ _ _ _ _ _ Es)
      as (new & Hs & _ & Hj).
    cbn [simulated_steps List.app] in Hs. subst new.
    destruct (journey_from_last _ _ _ _ _ Hj Hfront) as (a & Ha & _).
    eauto. }
  destruct Hlast as [a Ha]. unfold churn_of at 1. rewrite Ha.
  rewrite Hfront in Hsorted |- *.
  unfold churn_trace in Hsorted |- *. rewrite map_app in Hsorted |- *.
  cbn [map] in Hsorted |- *. unfold churn_of at 2 in Hsorted.
  unfold churn_of at 2. rewrite Ha in Hsorted |- *.
  apply StronglySorted_last_bounds. exact Hsorted.
Qed.

Lemma regular_journey_completes_and_churn_never_falls_witness :
  exists sc,
    _simulate_scenario (fun _ => eager_reply)
      (rider_journey [open_app; payment_error; open_app]) patient_rider
    = Return sc
    /\ StronglySorted Qle (churn_trace (Scenario.steps sc)).
Proof.
  destruct (regular_journey_completes_and_churn_never_falls
              (fun _ => eager_reply)
              (rider_journey [open_app; payment_error; open_app])
              patient_rider [open_app; payment_error; open_app])
    as (sc & E & _ & Hsorted & _);
    try discriminate; try reflexivity.
  - constructor.
  - exists sc. split; [exact E | exact Hsorted].
Defined.

End SimulatorProperties.
